(** * On-chain reconciliation report: the fetch / normalize / export pipeline

    A shallow embedding of [app.py]: the configuration resolver
    ([get_api_key], [get_chain_id]), the paginated fetcher
    ([fetch_usdt_transfers]), the record normalizer
    ([_transform_and_filter]), the spreadsheet exporter
    ([generate_excel_report]) and the handler of the report button, and of
    [check_dependencies.py], together with the properties the specification
    states about them.

    Conventions.
    - Python values that arrive as JSON (or TOML) are values of [pyval].
    - A Python [str] is a [string] whose characters are the code points
      0..255; [str.lower], [str.strip] and [int(str)] follow CPython on that
      range.  The constant column labels of the report are kept as the
      UTF-8 bytes of the source file; they are only ever compared.
    - A Python [float] is a binary64 number, a [spec_float] read with
      precision 53 and maximal exponent 1024.
    - A computation that may raise is a value of [result A]; the HTTP
      server, the clock, the spreadsheet writer and stdout are parameters of
      the model, each of them free to fail, and every HTTP request and
      every sleep is recorded in a trace.
    - The secrets store and the environment are one state: reading the
      store copies secrets into the environment, as Streamlit does.
    - The [st.cache_data] decorator only memoises calls and is left out. *)

From Stdlib Require Import ZArith List String Ascii Bool Lia QArith DecimalString.
From Stdlib Require Import Floats.SpecFloat.
Import ListNotations.

Local Open Scope string_scope.
Local Open Scope Z_scope.

(** ** Exceptions and the error monad *)

Module Py.

(** The exception classes the program can meet.  [EtherscanError] and the
    [ValueError] of the exporter carry the message the source builds;
    library exceptions carry a short tag instead of CPython's text. *)
Inductive exn : Type :=
| EtherscanError (msg : string)
| ValueError (msg : string)
| TypeError
| AttributeError
| OverflowError
| ZeroDivisionError
| OSError
| KeyError (key : string)
| JSONDecodeError
| RequestException
| IllegalCharacterError.

Definition result (A : Type) : Type := (exn + A)%type.

Definition ok {A} (a : A) : result A := inr a.
Definition raise {A} (e : exn) : result A := inl e.

Definition bind {A B} (c : result A) (k : A -> result B) : result B :=
  match c with
  | inl e => inl e
  | inr a => k a
  end.

Definition is_EtherscanError (e : exn) : bool :=
  match e with EtherscanError _ => true | _ => false end.

End Py.
Export Py.

Notation "x <- c ;; k" := (bind c (fun x => k))
  (at level 61, c at next level, right associativity).

(** ** Python floats (binary64) *)

(** The binary64 numbers are the [spec_float]s that [valid_binary prec emax]
    accepts; the quotients computed below are such values. *)
Definition float : Type := spec_float.

Definition prec : Z := 53.
Definition emax : Z := 1024.

Definition float_lt (x y : float) : bool := SFltb x y.
Definition float_ge (x y : float) : bool := SFleb y x.
Definition float_eq (x y : float) : bool := SFeqb x y.

Definition is_nan (x : float) : bool :=
  match x with S754_nan => true | _ => false end.

Definition float_zero : float := S754_zero false.
Definition float_one : float := S754_finite false 4503599627370496 (-52).


(** [a / b] on two Python ints: the correctly rounded quotient,
    [ZeroDivisionError] for a zero divisor, [OverflowError] when the
    quotient is too large for a float. *)
Definition int_truediv (a b : Z) : result float :=
  match b with
  | Z0 => raise ZeroDivisionError
  | _ =>
    match a with
    | Z0 => ok (S754_zero (b <? 0))
    | _ =>
      match SFdiv prec emax
              (S754_finite (a <? 0) (Z.to_pos (Z.abs a)) 0)
              (S754_finite (b <? 0) (Z.to_pos (Z.abs b)) 0) with
      | S754_infinity _ => raise OverflowError
      | q => ok q
      end
    end
  end.

(** [int(x)] on a float: truncation toward zero. *)
Definition float_trunc (x : float) : result Z :=
  match x with
  | S754_zero _ => ok 0
  | S754_nan => raise (ValueError "cannot convert float NaN to integer")
  | S754_infinity _ => raise OverflowError
  | S754_finite s m e =>
      let a := match e with
               | Zneg p => Z.shiftr (Zpos m) (Zpos p)
               | _ => Z.shiftl (Zpos m) e
               end in
      ok (if s then - a else a)
  end.

(** ** Python strings *)

Definition code (c : ascii) : N := N_of_ascii c.

(** [str.isspace] on one character. *)
Definition is_space (c : ascii) : bool :=
  let n := code c in
  ((9 <=? n) && (n <=? 13) || (28 <=? n) && (n <=? 32)
   || (n =? 133) || (n =? 160))%N.

Definition lower_char (c : ascii) : ascii :=
  let n := code c in
  if ((65 <=? n) && (n <=? 90)
      || (192 <=? n) && (n <=? 222) && negb (n =? 215))%N
  then ascii_of_N (n + 32) else c.

Fixpoint lower (s : string) : string :=
  match s with
  | EmptyString => EmptyString
  | String c s' => String (lower_char c) (lower s')
  end.

Fixpoint lstrip (s : string) : string :=
  match s with
  | EmptyString => EmptyString
  | String c s' => if is_space c then lstrip s' else s
  end.

(** Dropping trailing white space: a suffix made of white space only
    collapses to the empty string. *)
Fixpoint rstrip (s : string) : string :=
  match s with
  | EmptyString => EmptyString
  | String c s' =>
      match rstrip s' with
      | EmptyString => if is_space c then EmptyString else String c EmptyString
      | t => String c t
      end
  end.

Definition strip (s : string) : string := rstrip (lstrip s).

(** Made of white space only. *)
Fixpoint blank (s : string) : bool :=
  match s with
  | EmptyString => true
  | String c s' => is_space c && blank s'
  end.

(** *** [int(str)] *)

Definition digit_val (c : ascii) : option Z :=
  let n := code c in
  if ((48 <=? n) && (n <=? 57))%N then Some (Z.of_N n - 48) else None.

Definition is_underscore (c : ascii) : bool := (code c =? 95)%N.

(** Digits after the first one; a single underscore may sit between two
    digits.  [acc] is the value read so far. *)
Fixpoint digits_tail (s : string) (acc : Z) : option Z :=
  match s with
  | EmptyString => Some acc
  | String c s' =>
      match digit_val c with
      | Some d => digits_tail s' (10 * acc + d)
      | None =>
          if is_underscore c then
            match s' with
            | String c' s'' =>
                match digit_val c' with
                | Some d => digits_tail s'' (10 * acc + d)
                | None => None
                end
            | EmptyString => None
            end
          else None
      end
  end.

Definition digits (s : string) : option Z :=
  match s with
  | String c s' =>
      match digit_val c with
      | Some d => digits_tail s' d
      | None => None
      end
  | EmptyString => None
  end.

(** [int] skips white space around the literal, by a narrower test than
    [str.isspace]: the ASCII white space and the spaces above the ASCII
    range (here 133 and 160), not the separators 28..31. *)
Definition is_int_space (c : ascii) : bool :=
  let n := code c in
  ((9 <=? n) && (n <=? 13) || (n =? 32) || (n =? 133) || (n =? 160))%N.

Fixpoint int_lstrip (s : string) : string :=
  match s with
  | EmptyString => EmptyString
  | String c s' => if is_int_space c then int_lstrip s' else s
  end.

Fixpoint int_rstrip (s : string) : string :=
  match s with
  | EmptyString => EmptyString
  | String c s' =>
      match int_rstrip s' with
      | EmptyString => if is_int_space c then EmptyString else String c EmptyString
      | t => String c t
      end
  end.

Definition int_strip (s : string) : string := int_rstrip (int_lstrip s).

(** CPython (3.11 and later, default setting) refuses to convert a literal
    of more than 4300 digits. *)
Definition INT_MAX_STR_DIGITS : nat := 4300.

Fixpoint digit_count (s : string) : nat :=
  match s with
  | EmptyString => O
  | String c s' =>
      match digit_val c with
      | Some _ => S (digit_count s')
      | None => digit_count s'
      end
  end.

(** The base-10 literal grammar of [int]: surrounding white space, an
    optional sign, then digits. *)
Definition parse_int (s : string) : option Z :=
  let t := int_strip s in
  if (INT_MAX_STR_DIGITS <? digit_count t)%nat then None
  else
    match t with
    | String "-" s' => option_map Z.opp (digits s')
    | String "+" s' => digits s'
    | _ => digits t
    end.

(** ** Python values *)

#[local] Set Warnings "-register-all".

Inductive pyval : Type :=
| PNone
| PBool (b : bool)
| PInt (z : Z)
| PFloat (f : float)
| PStr (s : string)
| PList (l : list pyval)
| PDict (d : list (string * pyval)).

(** A dict, as the list of its items in insertion order; the keys are
    distinct, as they are in a Python dict. *)
Definition dict : Type := list (string * pyval).

Fixpoint lookup (k : string) (d : dict) : option pyval :=
  match d with
  | [] => None
  | (k', v) :: d' => if String.eqb k k' then Some v else lookup k d'
  end.

Definition dict_get (d : dict) (k : string) (default : pyval) : pyval :=
  match lookup k d with
  | Some v => v
  | None => default
  end.

(** [o.get(k, default)]: only a dict has the method. *)
Definition py_get (o : pyval) (k : string) (default : pyval) : result pyval :=
  match o with
  | PDict d => ok (dict_get d k default)
  | _ => raise AttributeError
  end.

(** Truth value of an object, as [if], [not] and [or] test it. *)
Definition truthy (v : pyval) : bool :=
  match v with
  | PNone => false
  | PBool b => b
  | PInt z => negb (z =? 0)
  | PFloat f => negb (float_eq f float_zero)
  | PStr s => negb (String.eqb s "")
  | PList l => match l with [] => false | _ => true end
  | PDict d => match d with [] => false | _ => true end
  end.

Definition py_or (v default : pyval) : pyval :=
  if truthy v then v else default.

(** [int(v)]. *)
Definition py_int (v : pyval) : result Z :=
  match v with
  | PStr s =>
      match parse_int s with
      | Some z => ok z
      | None => raise (ValueError "invalid literal for int() with base 10")
      end
  | PInt z => ok z
  | PBool b => ok (if b then 1 else 0)
  | PFloat f => float_trunc f
  | PNone | PList _ | PDict _ => raise TypeError
  end.

(** The objects a [for] loop draws from an iterable. *)
Fixpoint chars (s : string) : list pyval :=
  match s with
  | EmptyString => []
  | String c s' => PStr (String c EmptyString) :: chars s'
  end.

Definition py_iter (v : pyval) : result (list pyval) :=
  match v with
  | PList l => ok l
  | PStr s => ok (chars s)
  | PDict d => ok (map (fun kv => PStr (fst kv)) d)
  | PNone | PBool _ | PInt _ | PFloat _ => raise TypeError
  end.

Definition py_len (v : pyval) : result Z :=
  match v with
  | PList l => ok (Z.of_nat (List.length l))
  | PStr s => ok (Z.of_nat (String.length s))
  | PDict d => ok (Z.of_nat (List.length d))
  | PNone | PBool _ | PInt _ | PFloat _ => raise TypeError
  end.

(** ** UTC timestamps

    [datetime.fromtimestamp(ts, tz=timezone.utc).isoformat()] for an
    integer [ts], as CPython computes it where [time_t] has 64 bits (Linux):
    [ts] must fit [time_t] ([OverflowError] otherwise), then [gmtime] must
    be able to express the year in a C [int] ([OSError] otherwise), then
    the year must lie in 1..9999 ([ValueError] otherwise).  The date is
    found from the proleptic Gregorian ordinal the way [datetime] does
    it. *)

Definition EPOCH_ORDINAL : Z := 719163.
Definition MIN_TIMESTAMP : Z := -62135596800.
Definition MAX_TIMESTAMP : Z := 253402300799.

(** The range of [time_t], and the seconds [gmtime] accepts within it. *)
Definition TIME_T_MIN : Z := - 2 ^ 63.
Definition TIME_T_MAX : Z := 2 ^ 63 - 1.
Definition GMTIME_MIN : Z := -67768040609740800.
Definition GMTIME_MAX : Z := 67768036191676799.

(** The exception [fromtimestamp] raises for [ts], if it raises one. *)
Definition fromtimestamp_error (ts : Z) : option exn :=
  if (ts <? TIME_T_MIN) || (TIME_T_MAX <? ts) then Some OverflowError
  else if (ts <? GMTIME_MIN) || (GMTIME_MAX <? ts) then Some OSError
  else if (ts <? MIN_TIMESTAMP) || (MAX_TIMESTAMP <? ts)
       then Some (ValueError "year is out of range")
  else None.

Definition days_before_month (leap : bool) (month : Z) : Z :=
  let extra := if leap && (2 <? month) then 1 else 0 in
  extra +
  match month with
  | 1 => 0 | 2 => 31 | 3 => 59 | 4 => 90 | 5 => 120 | 6 => 151
  | 7 => 181 | 8 => 212 | 9 => 243 | 10 => 273 | 11 => 304 | _ => 334
  end.

(** Ordinal (1 = 0001-01-01) to (year, month, day). *)
Definition ord2ymd (ordinal : Z) : Z * Z * Z :=
  let n := ordinal - 1 in
  let n400 := n / 146097 in
  let n := n mod 146097 in
  let n100 := n / 36524 in
  let n := n mod 36524 in
  let n4 := n / 1461 in
  let n := n mod 1461 in
  let n1 := n / 365 in
  let n := n mod 365 in
  let year := n400 * 400 + 1 + n100 * 100 + n4 * 4 + n1 in
  if (n1 =? 4) || (n100 =? 4) then (year - 1, 12, 31)
  else
    let leap := (n1 =? 3) && (negb (n4 =? 24) || (n100 =? 3)) in
    let month := Z.shiftr (n + 50) 5 in
    let month := if n <? days_before_month leap month then month - 1 else month in
    (year, month, n - days_before_month leap month + 1).

Definition digit_char (d : Z) : ascii := ascii_of_N (Z.to_N (48 + d mod 10)).

(** [n] in decimal on exactly [width] digits, zero padded. *)
Fixpoint zfill (width : nat) (n : Z) : string :=
  match width with
  | O => ""
  | S w => zfill w (n / 10) ++ String (digit_char n) ""
  end.

Definition utc_isoformat (ts : Z) : result string :=
  match fromtimestamp_error ts with
  | Some e => raise e
  | None =>
    let days := ts / 86400 in
    let secs := ts mod 86400 in
    let '(y, m, d) := ord2ymd (days + EPOCH_ORDINAL) in
    ok (zfill 4 y ++ "-" ++ zfill 2 m ++ "-" ++ zfill 2 d ++ "T"
        ++ zfill 2 (secs / 3600) ++ ":" ++ zfill 2 (secs / 60 mod 60) ++ ":"
        ++ zfill 2 (secs mod 60) ++ "+00:00")
  end.

(** ** Configuration constants *)

Definition BASE_URL : string := "https://api.etherscan.io/v2/api".
Definition USDT_CONTRACT : string := "0xdac17f958d2ee523a2206206994597c13d831ec7".
Definition DEFAULT_PAGE_SIZE : Z := 100.
Definition DEFAULT_MAX_PAGES : Z := 5.
Definition DEFAULT_CHAIN_ID : Z := 1.
Definition USDT_DECIMALS : Z := 6.

(** ** The record normalizer *)

(** The dict a transfer is normalized to, one field per key: ["from"],
    ["to"], ["amount_usdt"], ["tx_hash"], ["timestamp"], ["fee_eth"]. *)
Record TransferRecord : Type := {
  from_ : pyval;
  to_ : pyval;
  amount_usdt : float;
  tx_hash : pyval;
  timestamp : string;
  fee_eth : float
}.

(** The value filter: [min_value is not None and amount < min_value]. *)
Definition below_min (min_value : option float) (amount : float) : bool :=
  match min_value with
  | Some m => float_lt amount m
  | None => false
  end.

(** One turn of the loop of [_transform_and_filter]: [None] when the item
    is skipped by [continue], the yielded record otherwise. *)
Definition transform_item (min_value : option float) (item : pyval)
  : result (option TransferRecord) :=
  raw_value <- py_get item "value" (PStr "0") ;;
  value <- py_int raw_value ;;
  amount <- int_truediv value (10 ^ USDT_DECIMALS) ;;
  if below_min min_value amount then ok None
  else
    raw_gas_price <- py_get item "gasPrice" (PStr "0") ;;
    gas_price <- py_int raw_gas_price ;;
    raw_gas_used <- py_get item "gasUsed" (PStr "0") ;;
    gas_used <- py_int raw_gas_used ;;
    fee <- int_truediv (gas_price * gas_used) (10 ^ 18) ;;
    raw_ts <- py_get item "timeStamp" (PStr "0") ;;
    ts <- py_int raw_ts ;;
    sender <- py_get item "from" PNone ;;
    receiver <- py_get item "to" PNone ;;
    hash <- py_get item "hash" PNone ;;
    iso <- utc_isoformat ts ;;
    ok (Some {| from_ := sender; to_ := receiver; amount_usdt := amount;
                tx_hash := hash; timestamp := iso; fee_eth := fee |}).

(** The generator, drained: the records yielded for [items], in order, or
    the first exception. *)
Fixpoint _transform_and_filter (items : list pyval) (min_value : option float)
  : result (list TransferRecord) :=
  match items with
  | [] => ok []
  | item :: rest =>
      r <- transform_item min_value item ;;
      rs <- _transform_and_filter rest min_value ;;
      ok (match r with Some x => x :: rs | None => rs end)
  end.

(** ** The transfer fetcher *)

(** The query parameters of one request. *)
Record request : Type := {
  q_module : string;
  q_action : string;
  q_contractaddress : string;
  q_chainid : Z;
  q_page : Z;
  q_offset : Z;
  q_startblock : Z;
  q_endblock : Z;
  q_sort : string;
  q_apikey : string
}.

(** What [requests.get] hands back: [json] is the parsed body, [None] when
    the body is not JSON. *)
Record response : Type := {
  status_code : Z;
  text : string;
  json : option pyval
}.

(** A call either raises inside [requests] (time-out, connection lost) or
    returns a response. *)
Inductive reply : Type :=
| Failed
| Received (resp : response).

(** [time.sleep] returns, or rejects its argument: a [ValueError] for a
    negative delay or a NaN, an [OverflowError] for one too large. *)
Inductive sleep_result : Type :=
| Slept
| BadDelay (too_large : bool).

Definition sleep_exn (too_large : bool) : exn :=
  if too_large then OverflowError
  else ValueError "sleep length must be non-negative".

Inductive event : Type :=
| HttpGet (q : request)
| Sleep (secs : float).

(** [status in ("1", 1, True)]. *)
Definition status_ok (status : pyval) : bool :=
  match status with
  | PStr s => String.eqb s "1"
  | PInt z => z =? 1
  | PBool b => b
  | PFloat f => float_eq f float_one
  | PNone | PList _ | PDict _ => false
  end.

Definition string_of_Z (z : Z) : string :=
  DecimalString.NilZero.string_of_int (Z.to_int z).

(** How one turn of the paging loop ends. *)
Inductive page_outcome : Type :=
| PageRaise (e : exn)
| PageBreak (filtered : list TransferRecord)
| PageNext (filtered : list TransferRecord).

(** The body of the loop from the response on, up to the [sleep]:
    [PageBreak] is a [break] (after extending the accumulator by
    [filtered]), [PageNext] falls through to [time.sleep].  A message
    that is not a [str] has no [lower] method. *)
Definition handle_response (page_size : Z) (min_value : option float)
    (resp : response) : page_outcome :=
  if negb (status_code resp =? 200) then
    PageRaise (EtherscanError
      ("Etherscan status " ++ string_of_Z (status_code resp) ++ ": " ++ text resp))
  else
    match json resp with
    | None => PageRaise JSONDecodeError
    | Some payload =>
      match py_get payload "status" PNone with
      | inl e => PageRaise e
      | inr status =>
        if negb (status_ok status) then
          match py_get payload "message" PNone with
          | inl e => PageRaise e
          | inr m =>
            match py_or m (PStr "unknown error") with
            | PStr message =>
              if String.eqb (strip (lower message)) "no records found"
              then PageBreak []
              else PageRaise (EtherscanError ("Etherscan error: " ++ message))
            | _ => PageRaise AttributeError
            end
          end
        else
          match py_get payload "result" PNone with
          | inl e => PageRaise e
          | inr r =>
            let page_result := py_or r (PList []) in
            if negb (truthy page_result) then PageBreak []
            else
              match (items <- py_iter page_result ;;
                     _transform_and_filter items min_value) with
              | inl e => PageRaise e
              | inr filtered =>
                match py_len page_result with
                | inl e => PageRaise e
                | inr n => if n <? page_size then PageBreak filtered
                           else PageNext filtered
                end
              end
          end
      end
    end.

(** ** Kinds of pages

    The conditions the specification words, read off a response. *)

(** The response was not delivered with status 200. *)
Definition transport_failure (resp : response) : bool :=
  negb (status_code resp =? 200).

(** The JSON envelope of a response delivered with status 200. *)
Definition envelope (resp : response) : option dict :=
  if status_code resp =? 200 then
    match json resp with
    | Some (PDict d) => Some d
    | _ => None
    end
  else None.

(** The message of an envelope, when it is text; an absent or empty one
    reads "unknown error". *)
Definition message_text (d : dict) : option string :=
  match py_or (dict_get d "message" PNone) (PStr "unknown error") with
  | PStr m => Some m
  | _ => None
  end.

(** The message equals "no records found", case and surrounding white
    space ignored. *)
Definition says_no_records (m : string) : bool :=
  String.eqb (strip (lower m)) "no records found".

Definition failed_status (d : dict) : bool :=
  negb (status_ok (dict_get d "status" PNone)).

(** A status that does not indicate success, with the end-of-data message. *)
Definition no_records_page (resp : response) : bool :=
  match envelope resp with
  | Some d =>
      failed_status d &&
      match message_text d with Some m => says_no_records m | None => false end
  | None => false
  end.

(** A status that does not indicate success, with any other text as the
    message (a message that is not text is no such failure: the turn
    raises [AttributeError] on it). *)
Definition api_failure (resp : response) : bool :=
  match envelope resp with
  | Some d =>
      failed_status d &&
      match message_text d with
      | Some m => negb (says_no_records m)
      | None => false
      end
  | None => false
  end.

Definition fetch_failure (resp : response) : bool :=
  transport_failure resp || api_failure resp.

(** The envelope of a page whose status indicates success. *)
Definition success_envelope (resp : response) : option dict :=
  match envelope resp with
  | Some d => if failed_status d then None else Some d
  | None => None
  end.

(** A successful page without result: the array is empty (or absent). *)
Definition empty_page (resp : response) : bool :=
  match success_envelope resp with
  | Some d => negb (truthy (dict_get d "result" PNone))
  | None => false
  end.

(** The raw items of a successful page. *)
Definition raw_items (resp : response) : list pyval :=
  match success_envelope resp with
  | Some d =>
      match dict_get d "result" PNone with
      | PList l => l
      | _ => []
      end
  | None => []
  end.

Definition raw_count (resp : response) : Z :=
  Z.of_nat (List.length (raw_items resp)).

Definition has_items (resp : response) : bool :=
  match raw_items resp with [] => false | _ => true end.

(** A successful page with items, strictly fewer than [page_size]. *)
Definition short_page (page_size : Z) (resp : response) : bool :=
  has_items resp && (raw_count resp <? page_size).

(** A successful page with at least [page_size] items. *)
Definition full_page (page_size : Z) (resp : response) : bool :=
  has_items resp && negb (raw_count resp <? page_size).

(** The page, by itself, ends the paging: conditions (a), (b) and (c). *)
Definition stop_page (page_size : Z) (resp : response) : bool :=
  no_records_page resp || empty_page resp || short_page page_size resp.

(** The turn of the loop for this response raises nothing. *)
Definition handled (page_size : Z) (min_value : option float)
    (resp : response) : bool :=
  match handle_response page_size min_value resp with
  | PageRaise _ => false
  | _ => true
  end.

(** What a turn of the loop does, by the kind of the page. *)
Inductive turn_spec (page_size : Z) (min_value : option float)
    (resp : response) : page_outcome -> Prop :=
| TurnTransport :
    transport_failure resp = true ->
    turn_spec page_size min_value resp
      (PageRaise (EtherscanError ("Etherscan status "
         ++ string_of_Z (status_code resp) ++ ": " ++ text resp)))
| TurnApiFailure (d : dict) (m : string) :
    api_failure resp = true -> envelope resp = Some d ->
    message_text d = Some m ->
    turn_spec page_size min_value resp
      (PageRaise (EtherscanError ("Etherscan error: " ++ m)))
| TurnMalformed (e : exn) :
    fetch_failure resp = false -> stop_page page_size resp = false ->
    has_items resp = false -> is_EtherscanError e = false ->
    turn_spec page_size min_value resp (PageRaise e)
| TurnNormalizeFails (e : exn) :
    has_items resp = true ->
    _transform_and_filter (raw_items resp) min_value = raise e ->
    turn_spec page_size min_value resp (PageRaise e)
| TurnNoRecords :
    no_records_page resp = true ->
    turn_spec page_size min_value resp (PageBreak [])
| TurnEmpty :
    empty_page resp = true ->
    turn_spec page_size min_value resp (PageBreak [])
| TurnShort (filtered : list TransferRecord) :
    short_page page_size resp = true ->
    _transform_and_filter (raw_items resp) min_value = ok filtered ->
    turn_spec page_size min_value resp (PageBreak filtered)
| TurnFull (filtered : list TransferRecord) :
    full_page page_size resp = true ->
    _transform_and_filter (raw_items resp) min_value = ok filtered ->
    turn_spec page_size min_value resp (PageNext filtered).

(** [range(1, max_pages + 1)]. *)
Definition page_range (max_pages : Z) : list Z :=
  map Z.of_nat (seq 1 (Z.to_nat max_pages)).

(** The world outside: the HTTP server behind [requests.get] and
    [time.sleep]. *)
Record world : Type := {
  requests_get : request -> reply;
  time_sleep : float -> sleep_result
}.

(** The arguments of [fetch_usdt_transfers]. *)
Record fetch_args : Type := {
  api_key : string;
  chain_id : Z;
  start_block : Z;
  end_block : Z;
  page_size : Z;
  max_pages : Z;
  min_value : option float;
  sort : string;
  sleep_secs : float
}.

Section Fetcher.

Variable w : world.
Variable a : fetch_args.

Definition params (page : Z) : request :=
  {| q_module := "account"; q_action := "tokentx";
     q_contractaddress := USDT_CONTRACT; q_chainid := chain_id a;
     q_page := page; q_offset := page_size a;
     q_startblock := start_block a; q_endblock := end_block a;
     q_sort := sort a; q_apikey := api_key a |}.

Definition page_turn (page : Z) : page_outcome :=
  match requests_get w (params page) with
  | Failed => PageRaise RequestException
  | Received resp => handle_response (page_size a) (min_value a) resp
  end.

(** The [for] loop over the pages still to visit, from the accumulator
    [records]; returns the trace of what was done and the outcome. *)
Fixpoint fetch_pages (pages : list Z) (records : list TransferRecord)
  : list event * result (list TransferRecord) :=
  match pages with
  | [] => ([], ok records)
  | page :: rest =>
    match page_turn page with
    | PageRaise e => ([HttpGet (params page)], raise e)
    | PageBreak filtered => ([HttpGet (params page)], ok (records ++ filtered)%list)
    | PageNext filtered =>
      match time_sleep w (sleep_secs a) with
      | BadDelay b =>
        ([HttpGet (params page); Sleep (sleep_secs a)], raise (sleep_exn b))
      | Slept =>
        let '(trace, r) := fetch_pages rest (records ++ filtered)%list in
        (HttpGet (params page) :: Sleep (sleep_secs a) :: trace, r)
      end
    end
  end.

Definition fetch_usdt_transfers : list event * result (list TransferRecord) :=
  fetch_pages (page_range (max_pages a)) [].

(** What a turn leaves in the trace and in the accumulator. *)
Definition turn_events (page : Z) : list event :=
  HttpGet (params page) ::
  match page_turn page with
  | PageNext _ => [Sleep (sleep_secs a)]
  | _ => []
  end.

Definition turn_records (page : Z) : list TransferRecord :=
  match page_turn page with
  | PageNext filtered | PageBreak filtered => filtered
  | PageRaise _ => []
  end.

(** The response to the request for a page, if one came. *)
Definition page_response (page : Z) : option response :=
  match requests_get w (params page) with
  | Received resp => Some resp
  | Failed => None
  end.

Definition on_response (f : response -> bool) (page : Z) : bool :=
  match page_response page with
  | Some resp => f resp
  | None => false
  end.

(** The raw items of a page, as the server returns them. *)
Definition page_items (page : Z) : list pyval :=
  match page_response page with
  | Some resp => raw_items resp
  | None => []
  end.

(** A turn goes on to the next page exactly for a full page that was
    handled without an exception. *)
Definition goes_on (resp : response) : bool :=
  full_page (page_size a) resp && handled (page_size a) (min_value a) resp.

End Fetcher.

(** The pages requested and the number of sleeps in a trace. *)
Definition pages_requested (trace : list event) : list Z :=
  flat_map (fun ev => match ev with HttpGet q => [q_page q] | Sleep _ => [] end) trace.

Definition http_calls (trace : list event) : nat :=
  List.length (pages_requested trace).

Definition sleeps (trace : list event) : nat :=
  List.length (filter (fun ev => match ev with Sleep _ => true | _ => false end) trace).

(** ** The report exporter *)

(** A [pandas.DataFrame], as far as the exporter uses one: the column
    labels and the rows of cells. *)
Record DataFrame : Type := {
  columns : list string;
  rows : list (list pyval)
}.

(** One sheet of a workbook: its name, the header row and the data rows. *)
Record sheet : Type := {
  sheet_name : string;
  header : list string;
  body : list (list pyval)
}.

(** The dict a record is, keys in insertion order. *)
Definition record_dict (r : TransferRecord) : dict :=
  [("from", from_ r); ("to", to_ r); ("amount_usdt", PFloat (amount_usdt r));
   ("tx_hash", tx_hash r); ("timestamp", PStr (timestamp r));
   ("fee_eth", PFloat (fee_eth r))].

Fixpoint mem (k : string) (ks : list string) : bool :=
  match ks with
  | [] => false
  | k' :: ks' => String.eqb k k' || mem k ks'
  end.

(** The keys of a list of dicts, each once, in order of first appearance. *)
Fixpoint union_keys (seen : list string) (ds : list dict) : list string :=
  match ds with
  | [] => seen
  | d :: ds' =>
      union_keys
        (fold_left (fun acc kv => if mem (fst kv) acc then acc
                                  else (acc ++ [fst kv])%list) d seen)
        ds'
  end.

(** [pd.DataFrame(records)]: a cell a dict has no key for is NaN. *)
Definition DataFrame_of_dicts (ds : list dict) : DataFrame :=
  let cols := union_keys [] ds in
  {| columns := cols;
     rows := map (fun d => map (fun c => match lookup c d with
                                         | Some v => v
                                         | None => PFloat S754_nan
                                         end) cols) ds |}.

Fixpoint rename_label (mapping : list (string * string)) (c : string) : string :=
  match mapping with
  | [] => c
  | (old, new) :: mapping' =>
      if String.eqb c old then new else rename_label mapping' c
  end.

(** [df.rename(columns=mapping)]. *)
Definition rename (mapping : list (string * string)) (df : DataFrame) : DataFrame :=
  {| columns := map (rename_label mapping) (columns df); rows := rows df |}.

Fixpoint index_of (c : string) (cols : list string) : option nat :=
  match cols with
  | [] => None
  | c' :: cols' =>
      if String.eqb c c' then Some O else option_map S (index_of c cols')
  end.

Fixpoint indices (labels cols : list string) : result (list nat) :=
  match labels with
  | [] => ok []
  | c :: labels' =>
      match index_of c cols with
      | None => raise (KeyError c)
      | Some i => idx <- indices labels' cols ;; ok (i :: idx)
      end
  end.

(** [df[labels]]: the listed columns, in the listed order. *)
Definition select (labels : list string) (df : DataFrame) : result DataFrame :=
  idx <- indices labels (columns df) ;;
  ok {| columns := labels;
        rows := map (fun row => map (fun i => nth i row PNone) idx) (rows df) |}.

Definition COLUMN_LABELS : list (string * string) :=
  [("from", "付款方 (From)"); ("to", "收款方 (To)");
   ("amount_usdt", "金额 (USDT)"); ("tx_hash", "交易哈希 (TxHash)");
   ("timestamp", "交易时间"); ("fee_eth", "手续费 (ETH)")].

Definition COLUMN_ORDER : list string :=
  ["交易时间"; "付款方 (From)"; "收款方 (To)"; "金额 (USDT)"; "手续费 (ETH)";
   "交易哈希 (TxHash)"].

Section Exporter.

(** The [openpyxl] writer behind [pd.ExcelWriter]: the bytes of the
    workbook made of the given sheets, or the exception it raises for a
    sheet it cannot write (a cell it refuses, too many rows). *)
Variable excel_writer : list sheet -> result (list Byte.byte).

(** [df.to_excel(writer, index=False, sheet_name=name)] into a fresh
    workbook, then the bytes of the buffer. *)
Definition to_excel (df : DataFrame) (name : string) : result (list Byte.byte) :=
  excel_writer [{| sheet_name := name; header := columns df; body := rows df |}].

Definition generate_excel_report (records : list TransferRecord)
  : result (list Byte.byte) :=
  match records with
  | [] => raise (ValueError "No records to export.")
  | _ =>
    let df := DataFrame_of_dicts (map record_dict records) in
    let df := rename COLUMN_LABELS df in
    df <- select COLUMN_ORDER df ;;
    to_excel df "USDT_Transfers"
  end.

End Exporter.

(** ** The configuration resolver *)

Section Config.

(** [st.secrets.get] (which raises when no secrets store can be read)
    and [os.getenv].  In the program the two are not independent: reading
    the store copies secrets into the environment.  They are
    [st_secrets_get s] and [os_getenv s] of one [config_sources] (see
    below), and the resolvers are run with these. *)
Variable secrets_get : string -> result pyval.
Variable getenv : string -> option string.

(** The first [try] block of [get_chain_id]: [Some] when it returns, [None]
    when control leaves it for the code below, the bare [except] having
    swallowed whatever was raised. *)
Definition chain_id_from_secrets : option Z :=
  match secrets_get "ETHERSCAN_CHAIN_ID" with
  | inl _ => None
  | inr chain_id =>
      if truthy chain_id then
        match py_int chain_id with
        | inr z => Some z
        | inl _ => None
        end
      else None
  end.

Definition get_chain_id : result Z :=
  match chain_id_from_secrets with
  | Some z => ok z
  | None =>
    match getenv "ETHERSCAN_CHAIN_ID" with
    | None => ok DEFAULT_CHAIN_ID
    | Some env_val =>
      if negb (truthy (PStr env_val)) then ok DEFAULT_CHAIN_ID
      else
        match py_int (PStr env_val) with
        | inr z => ok z
        | inl (ValueError _) =>
            raise (EtherscanError "ETHERSCAN_CHAIN_ID must be an integer.")
        | inl e => raise e
        end
    end
  end.

End Config.

(** ** Notions used in the statements *)

(** The records yielded are those of the items not skipped, in order. *)
Fixpoint kept (outs : list (option TransferRecord)) : list TransferRecord :=
  match outs with
  | [] => []
  | Some r :: outs' => r :: kept outs'
  | None :: outs' => kept outs'
  end.


(** The floats 1.5 and 0.2. *)
Definition float_1_5 : float := S754_finite false 6755399441055744 (-52).

Definition float_0_2 : float := S754_finite false 7205759403792794 (-55).

(** The keys of the fields the normalizer converts with [int]. *)
Definition NUMERIC_FIELDS : list string :=
  ["value"; "gasPrice"; "gasUsed"; "timeStamp"].

(** A decimal-integer string in the plainest sense: digits only, at least
    one. *)
Fixpoint all_digits (s : string) : bool :=
  match s with
  | EmptyString => true
  | String c s' =>
      match digit_val c with Some _ => all_digits s' | None => false end
  end.

(** The value is such a string. *)
Definition decimal_integer_string (v : pyval) : bool :=
  match v with
  | PStr s => negb (String.eqb s "") && all_digits s
  | _ => false
  end.

(** A string of more digits than [int] converts. *)
Definition too_many_digits (v : pyval) : bool :=
  match v with
  | PStr s => (INT_MAX_STR_DIGITS <? String.length s)%nat
  | _ => false
  end.

(** Why the normalization of the object [d] raises [e]: each cause names a
    field that is present.  A field [int] rejects is no decimal-integer
    string, unless it has too many digits. *)
Inductive failure_cause (d : dict) (e : exn) : Prop :=
| NotAnInt (k : string) (v : pyval) :
    In k NUMERIC_FIELDS -> lookup k d = Some v -> py_int v = raise e ->
    decimal_integer_string v = false \/ too_many_digits v = true ->
    failure_cause d e
| AmountTooLarge (v : pyval) (value : Z) :
    lookup "value" d = Some v -> py_int v = ok value ->
    int_truediv value (10 ^ 6) = raise OverflowError -> e = OverflowError ->
    failure_cause d e
| FeeTooLarge (v1 v2 : pyval) (gas_price gas_used : Z) :
    lookup "gasPrice" d = Some v1 -> py_int v1 = ok gas_price ->
    lookup "gasUsed" d = Some v2 -> py_int v2 = ok gas_used ->
    int_truediv (gas_price * gas_used) (10 ^ 18) = raise OverflowError ->
    e = OverflowError ->
    failure_cause d e
| TimestampOutOfRange (v : pyval) (ts : Z) :
    lookup "timeStamp" d = Some v -> py_int v = ok ts ->
    ts < MIN_TIMESTAMP \/ MAX_TIMESTAMP < ts ->
    fromtimestamp_error ts = Some e ->
    failure_cause d e.

(** The time stamp of second 0. *)
Definition EPOCH_ISO : string := "1970-01-01T00:00:00+00:00".

(** The keys of a normalized record, in insertion order. *)
Definition RECORD_KEYS : list string :=
  ["from"; "to"; "amount_usdt"; "tx_hash"; "timestamp"; "fee_eth"].

(** The cells of a record in the order of the report: time, sender,
    receiver, amount, fee, transaction id. *)
Definition report_row (r : TransferRecord) : list pyval :=
  [PStr (timestamp r); from_ r; to_ r; PFloat (amount_usdt r);
   PFloat (fee_eth r); tx_hash r].

(** The name of the chain id, in the secrets store and in the environment. *)
Definition CHAIN_ID_KEY : string := "ETHERSCAN_CHAIN_ID".

(** Condition (a) read without the status: the message of the page equals
    "no records found". *)
Definition message_equals_no_records (resp : response) : bool :=
  match envelope resp with
  | Some d =>
      match message_text d with
      | Some m => says_no_records m
      | None => false
      end
  | None => false
  end.


(** ** Sample data *)

(** A transfer of 1.5 USDT as the API returns it, and its record. *)
Definition sample_item : pyval :=
  PDict [("from", PStr "0xaa"); ("to", PStr "0xbb"); ("value", PStr "1500000");
         ("hash", PStr "0x01"); ("timeStamp", PStr "1700000000");
         ("gasPrice", PStr "20000000000"); ("gasUsed", PStr "21000")].

Definition sample_record : TransferRecord :=
  {| from_ := PStr "0xaa"; to_ := PStr "0xbb"; amount_usdt := float_1_5;
     tx_hash := PStr "0x01"; timestamp := "2023-11-14T22:13:20+00:00";
     fee_eth := S754_finite false 7747632510958012 (-64) |}.

(** An item without any of the numeric fields. *)
Definition bare_item : dict := [("from", PStr "0xaa"); ("to", PStr "0xbb")].

(** An item stamped with the first second of the year 10000. *)
Definition far_future_item : dict :=
  [("value", PStr "1500000"); ("gasPrice", PStr "20000000000");
   ("gasUsed", PStr "21000"); ("timeStamp", PStr "253402300800")].

(** The arguments [fetch_usdt_transfers] takes by default. *)
Definition default_args : fetch_args :=
  {| api_key := "KEY"; chain_id := DEFAULT_CHAIN_ID; start_block := 0;
     end_block := 99999999; page_size := DEFAULT_PAGE_SIZE;
     max_pages := DEFAULT_MAX_PAGES; min_value := None; sort := "desc";
     sleep_secs := float_0_2 |}.

(** The default arguments, but for the paging and the filter. *)
Definition with_paging (size pages : Z) (min : option float) : fetch_args :=
  {| api_key := "KEY"; chain_id := DEFAULT_CHAIN_ID; start_block := 0;
     end_block := 99999999; page_size := size; max_pages := pages;
     min_value := min; sort := "desc"; sleep_secs := float_0_2 |}.

(** A response delivered with status 200 and a JSON envelope. *)
Definition json_page (status message : string) (items : list pyval) : response :=
  {| status_code := 200; text := "";
     json := Some (PDict [("status", PStr status); ("message", PStr message);
                          ("result", PList items)]) |}.

(** A server that answers by page number, and a clock that sleeps. *)
Definition server (pages : Z -> reply) : world :=
  {| requests_get := fun q => pages (q_page q); time_sleep := fun _ => Slept |}.

(** A transfer of 0.5 USDT. *)
Definition small_item : pyval :=
  PDict [("from", PStr "0xcc"); ("to", PStr "0xdd"); ("value", PStr "500000");
         ("hash", PStr "0x02"); ("timeStamp", PStr "1700000012");
         ("gasPrice", PStr "20000000000"); ("gasUsed", PStr "21000")].

(** A full page of two items, then a short one. *)
Definition two_then_one : world :=
  server (fun page =>
    match page with
    | 1 => Received (json_page "1" "OK" [sample_item; sample_item])
    | 2 => Received (json_page "1" "OK" [sample_item])
    | _ => Failed
    end).

(** A page whose status indicates success and whose message reads "No
    records found" all the same. *)
Definition odd_message_page : response :=
  json_page "1" "No records found" [sample_item].

Definition odd_message_server : world :=
  server (fun _ => Received odd_message_page).

(** One page with a transfer of 1.5 USDT and one of 0.5 USDT. *)
Definition mixed_page_server : world :=
  server (fun _ => Received (json_page "1" "OK" [sample_item; small_item])).

(** The server answers page 1, then is busy. *)
Definition busy_response : response :=
  {| status_code := 503; text := "busy"; json := None |}.




(** The end-of-data envelope. *)
Definition no_records_response : response :=
  {| status_code := 200; text := "";
     json := Some (PDict [("status", PStr "0");
                          ("message", PStr "No records found")]) |}.

Definition no_records_server : world :=
  server (fun _ => Received no_records_response).

(** A page of 100 transfers of 1.5 USDT, then a page of 40 items. *)
Definition hundred_then_forty (second : pyval) : world :=
  server (fun page =>
    match page with
    | 1 => Received (json_page "1" "OK" (repeat sample_item 100))
    | 2 => Received (json_page "1" "OK" (repeat second 40))
    | _ => Failed
    end).

(** Every page holds one item. *)
Definition always_full : world :=
  server (fun _ => Received (json_page "1" "OK" [sample_item])).

(** ** The API key and the configuration step *)

Definition API_KEY_NAME : string := "ETHERSCAN_API_KEY_Reconciliation".

Definition API_KEY_MISSING : string :=
  "ETHERSCAN_API_KEY_Reconciliation not set in secrets or environment.".

(** What the script does with the outcome of its configuration step. *)
Inductive config_outcome : Type :=
| ConfigStopped (message : string)
| ConfigLoaded (key : pyval) (chain : Z)
| ConfigUncaught (e : exn).

Section ApiKey.

(** The two primitives again; in the program, [st_secrets_get s] and
    [os_getenv s] (below). *)
Variable secrets_get : string -> result pyval.
Variable getenv : string -> option string.

(** The [try] block of [get_api_key]: [Some] when it returns the key of the
    secrets store, [None] when control goes on below it. *)
Definition api_key_from_secrets : option pyval :=
  match secrets_get API_KEY_NAME with
  | inl _ => None
  | inr key => if truthy key then Some key else None
  end.

Definition get_api_key : result pyval :=
  match api_key_from_secrets with
  | Some key => ok key
  | None =>
    match getenv API_KEY_NAME with
    | None => raise (EtherscanError API_KEY_MISSING)
    | Some key =>
      if negb (truthy (PStr key)) then raise (EtherscanError API_KEY_MISSING)
      else ok (PStr key)
    end
  end.

(** The configuration step of the script: both look-ups inside one [try],
    [except EtherscanError] showing the message and stopping. *)
Definition load_config : config_outcome :=
  match (key <- get_api_key ;;
         chain <- get_chain_id secrets_get getenv ;;
         ok (key, chain)) with
  | inr (key, chain) => ConfigLoaded key chain
  | inl (EtherscanError message) => ConfigStopped message
  | inl e => ConfigUncaught e
  end.

End ApiKey.

(** ** Where the configuration comes from *)

(** The process environment, [os.environ]. *)
Definition environment : Type := string -> option string.

Definition setenv (k v : string) (env : environment) : environment :=
  fun k' => if String.eqb k' k then Some v else env k'.

(** What the script finds when it starts: the parsed secrets file ([None]
    when no file can be read or parsed), the environment, and the digits
    [str] gives a finite non-zero float (the shortest that read back as
    the same float; they are left to the sources). *)
Record config_sources : Type := {
  secrets_toml : option dict;
  environ : environment;
  repr_finite : float -> string
}.

(** [str(f)]. *)
Definition float_str (repr : float -> string) (f : float) : string :=
  match f with
  | S754_zero s => if s then "-0.0" else "0.0"
  | S754_infinity s => if s then "-inf" else "inf"
  | S754_nan => "nan"
  | S754_finite _ _ _ => repr f
  end.

(** When Streamlit parses the secrets it copies the top-level ones to
    [os.environ]: [str(v)] for a [str], an [int] or a [float]; a [bool], a
    table or an array is not copied. *)
Definition exported_text (repr : float -> string) (v : pyval) : option string :=
  match v with
  | PStr t => Some t
  | PInt z => Some (string_of_Z z)
  | PFloat f => Some (float_str repr f)
  | PNone | PBool _ | PList _ | PDict _ => None
  end.

Fixpoint contains (c : ascii) (s : string) : bool :=
  match s with
  | EmptyString => false
  | String c' s' => Ascii.eqb c c' || contains c s'
  end.

(** [os.environ[k] = v] raises for an empty name, a name with [=] in it
    and a NUL character in the name or in the value. *)
Definition putenv_ok (k v : string) : bool :=
  negb (String.eqb k "") && negb (contains "=" k)
  && negb (contains (ascii_of_N 0) k) && negb (contains (ascii_of_N 0) v).

(** The copying, secret after secret; [false] when [os.environ] refused
    one, which leaves the earlier ones copied. *)
Fixpoint export_secrets (repr : float -> string) (d : dict) (env : environment)
  : environment * bool :=
  match d with
  | [] => (env, true)
  | (k, v) :: d' =>
      match exported_text repr v with
      | None => export_secrets repr d' env
      | Some t =>
          if putenv_ok k t then export_secrets repr d' (setenv k t env)
          else (env, false)
      end
  end.

(** The first access to [st.secrets] (which both resolvers make before
    they look at the environment): the secrets, when there is a file and
    every copy went through, and the environment as it stands afterwards.
    A failed access is repeated at the next one, to the same effect. *)
Definition read_secrets (s : config_sources) : option dict * environment :=
  match secrets_toml s with
  | None => (None, environ s)
  | Some d =>
      let '(env, done) := export_secrets (repr_finite s) d (environ s) in
      (if done then Some d else None, env)
  end.

(** [st.secrets.get(k)]. *)
Definition st_secrets_get (s : config_sources) (k : string) : result pyval :=
  match fst (read_secrets s) with
  | Some d => ok (dict_get d k PNone)
  | None => raise OSError
  end.

(** [os.getenv(k)], after the access to [st.secrets]. *)
Definition os_getenv (s : config_sources) (k : string) : option string :=
  snd (read_secrets s) k.


(** Sources for the examples: an empty environment, and a secrets file. *)
Definition empty_environ : environment := fun _ => None.

Definition sources (secrets : option dict) (env : environment) : config_sources :=
  {| secrets_toml := secrets; environ := env; repr_finite := fun _ => "1.0" |}.

(** ** The report button *)

(** [min_usdt if min_usdt > 0 else None]. *)
Definition ui_min_value (min_usdt : float) : option float :=
  if float_lt float_zero min_usdt then Some min_usdt else None.

(** The arguments of the call behind the button: the four it passes, the
    defaults for the others. *)
Definition click_args (key : string) (chain : Z) (min_usdt : float)
    (pages : Z) : fetch_args :=
  {| api_key := key; chain_id := chain; start_block := 0;
     end_block := 99999999; page_size := DEFAULT_PAGE_SIZE; max_pages := pages;
     min_value := ui_min_value min_usdt; sort := "desc";
     sleep_secs := float_0_2 |}.

(** [df.head(n)] on the rows of a frame. *)
Definition head {A : Type} (n : Z) (l : list A) : list A :=
  if 0 <=? n then firstn (Z.to_nat n) l
  else firstn (List.length l - Z.to_nat (- n)) l.

(** The table the page shows: [pd.DataFrame(records)], renamed and
    reordered. *)
Definition display_frame (records : list TransferRecord) : result DataFrame :=
  select COLUMN_ORDER
    (rename COLUMN_LABELS (DataFrame_of_dicts (map record_dict records))).

(** How a click on the button ends, up to the preview of the data: the
    error or warning shown before [st.stop()], the report, or an exception
    nothing catches. *)
Inductive click_outcome : Type :=
| FetchFailed (message : string)
| NoData
| ExportFailed (e : exn)
| ReportReady (records : list TransferRecord) (excel_data : list Byte.byte)
    (preview : DataFrame)
| Uncaught (e : exn).

Section Click.

Variable w : world.
Variable excel_writer : list sheet -> result (list Byte.byte).
Variables (key : string) (chain : Z) (min_usdt : float).
Variables (pages preview_rows : Z).

Definition after_fetch (r : result (list TransferRecord)) : click_outcome :=
  match r with
  | inl (EtherscanError message) => FetchFailed message
  | inl e => Uncaught e
  | inr [] => NoData
  | inr records =>
    match display_frame records with
    | inl e => Uncaught e
    | inr df_display =>
      match generate_excel_report excel_writer records with
      | inl e => ExportFailed e
      | inr excel_data =>
          ReportReady records excel_data
            {| columns := columns df_display;
               rows := head preview_rows (rows df_display) |}
      end
    end
  end.

Definition on_click : list event * click_outcome :=
  let '(trace, r) :=
    fetch_usdt_transfers w (click_args key chain min_usdt pages) in
  (trace, after_fetch r).

End Click.

(** ** The dependency check ([check_dependencies.py]) *)

Definition REQUIRED_PACKAGES : list (string * string) :=
  [("streamlit", "Streamlit"); ("pandas", "Pandas"); ("requests", "Requests");
   ("openpyxl", "OpenPyXL"); ("plotly", "Plotly")].

(** [__import__(package)] returns, raises [ImportError], or raises
    something else. *)
Inductive import_result : Type :=
| Imported
| ImportFails
| ImportCrashes.

(** How the script ends: [exit(code)], or an uncaught exception. *)
Inductive script_end : Type :=
| Exit (code : Z)
| Traceback.

Record check_state : Type := {
  missing_packages : list string;
  installed_packages : list string;
  printed : list string
}.

(** [sep.join(l)]. *)
Fixpoint join (sep : string) (l : list string) : string :=
  match l with
  | [] => ""
  | [x] => x
  | x :: l' => x ++ sep ++ join sep l'
  end.

(** [s * n]. *)
Fixpoint times (s : string) (n : nat) : string :=
  match n with
  | O => ""
  | S n' => s ++ times s n'
  end.

Definition NEWLINE : string := String (ascii_of_N 10) "".

Section CheckDependencies.

Variable import_ : string -> import_result.

(** [print]: whether stdout takes the line, after the lines it has taken
    so far.  When it does not, [print] raises (a [UnicodeEncodeError] where
    the encoding of stdout lacks a character, an [OSError] on a closed
    pipe), and never an [ImportError]. *)
Variable stdout_accepts : list string -> string -> bool.

Definition print (line : string) (st : check_state) : option check_state :=
  if stdout_accepts (printed st) line then
    Some {| missing_packages := missing_packages st;
            installed_packages := installed_packages st;
            printed := (printed st ++ [line])%list |}
  else None.

Fixpoint print_all (lines : list string) (st : check_state) : option check_state :=
  match lines with
  | [] => Some st
  | line :: lines' =>
      match print line st with
      | Some st' => print_all lines' st'
      | None => None
      end
  end.

(** The loop over the required packages; [None] when something is raised
    that [except ImportError] does not catch: by the import, or by one of
    the two [print]s (the first is inside the [try], the second inside the
    handler). *)
Fixpoint check_packages (packages : list (string * string)) (st : check_state)
  : option check_state :=
  match packages with
  | [] => Some st
  | (package, name) :: rest =>
    match import_ package with
    | Imported =>
        match print ("✅ " ++ name ++ " 已安装")
                {| missing_packages := missing_packages st;
                   installed_packages := (installed_packages st ++ [name])%list;
                   printed := printed st |} with
        | Some st' => check_packages rest st'
        | None => None
        end
    | ImportFails =>
        match print ("❌ " ++ name ++ " 未安装")
                {| missing_packages := (missing_packages st ++ [package])%list;
                   installed_packages := installed_packages st;
                   printed := printed st |} with
        | Some st' => check_packages rest st'
        | None => None
        end
    | ImportCrashes => None
    end
  end.

(** The lines printed after the loop, by what is missing. *)
Definition summary (missing installed : list string) : list string :=
  match missing with
  | _ :: _ =>
      [("缺少 " ++ string_of_Z (Z.of_nat (List.length missing))
          ++ " 个包: " ++ join ", " missing)%string;
       (NEWLINE ++ "请运行以下命令安装:")%string;
       ("  pip install " ++ join " " missing)%string;
       (NEWLINE ++ "或使用 requirements.txt:")%string;
       "  pip install -r requirements.txt"]
  | [] =>
      ["✅ 所有必需的库都已安装！";
       ("已安装: " ++ join ", " installed)%string]
  end.

(** The whole script: how it ends, with the lists it has built and what
    it has printed ([None] after an uncaught exception). *)
Definition check_dependencies : script_end * option check_state :=
  match check_packages REQUIRED_PACKAGES
          {| missing_packages := []; installed_packages := []; printed := [] |} with
  | None => (Traceback, None)
  | Some st =>
    match print_all ((NEWLINE ++ times "=" 50)%string
                     :: summary (missing_packages st) (installed_packages st)) st with
    | None => (Traceback, None)
    | Some st' =>
        (Exit (match missing_packages st with _ :: _ => 1 | [] => 0 end), Some st')
    end
  end.

End CheckDependencies.

(** ** Data for the rest of the program *)

(** An item below one USDT whose gas price and time stamp are unusable. *)
Definition broken_small_item : pyval :=
  PDict [("value", PStr "500000"); ("gasPrice", PStr "n/a");
         ("timeStamp", PNone)].

(** [sign_is s x]: [x] is a number (not a NaN) whose sign bit is [s]. *)
Definition sign_is (s : bool) (x : float) : Prop :=
  match x with
  | S754_zero s' | S754_infinity s' | S754_finite s' _ _ => s' = s
  | S754_nan => False
  end.

(** A raw item with a negative value. *)
Definition refund_item : dict :=
  [("value", PStr "-1500000"); ("gasPrice", PStr "20000000000");
   ("gasUsed", PStr "21000"); ("timeStamp", PStr "1700000000")].

(** The end-of-data envelope in another case and with spaces around. *)
Definition shouted_no_records : response :=
  {| status_code := 200; text := "";
     json := Some (PDict [("status", PStr "0");
                          ("message", PStr "  NO Records FOUND ")]) |}.

(** A trace in which every HTTP call but the first comes right after a
    sleep of [delay], and no two sleeps follow each other. *)
Inductive paced (delay : float) : list event -> Prop :=
| paced_nil : paced delay []
| paced_last (q : request) : paced delay [HttpGet q]
| paced_last_sleep (q : request) : paced delay [HttpGet q; Sleep delay]
| paced_next (q : request) (trace : list event) :
    paced delay trace -> trace <> [] ->
    paced delay (HttpGet q :: Sleep delay :: trace).

(** A server whose second page holds an item the normalizer rejects. *)
Definition broken_on_page_2 : world :=
  server (fun page =>
    match page with
    | 1 => Received (json_page "1" "OK" [sample_item])
    | _ => Received (json_page "1" "OK" [sample_item; broken_small_item])
    end).

(** A spreadsheet writer that accepts every sheet and writes no byte. *)
Definition no_writer (sheets : list sheet) : result (list Byte.byte) := ok [].

(** A character [openpyxl] refuses in a text cell: a control character
    other than tab, line feed and carriage return. *)
Definition illegal_character (c : ascii) : bool :=
  let n := code c in
  ((n <=? 8) || (n =? 11) || (n =? 12) || (14 <=? n) && (n <=? 31))%N.

Fixpoint has_illegal_character (s : string) : bool :=
  match s with
  | EmptyString => false
  | String c s' => illegal_character c || has_illegal_character s'
  end.

Definition cell_accepted (v : pyval) : bool :=
  match v with
  | PStr s => negb (has_illegal_character s)
  | _ => true
  end.

(** A writer that checks the text of its cells as [openpyxl] does, and
    writes no byte. *)
Definition checking_writer (sheets : list sheet) : result (list Byte.byte) :=
  if forallb (fun sh => forallb (forallb cell_accepted) (body sh)) sheets
  then ok []
  else raise IllegalCharacterError.

(** A transfer whose sender, as the API gave it, is the character of
    code 1. *)
Definition control_character_record : TransferRecord :=
  {| from_ := PStr (String (ascii_of_N 1) ""); to_ := PStr "0xbb";
     amount_usdt := float_1_5; tx_hash := PStr "0x01";
     timestamp := "2023-11-14T22:13:20+00:00";
     fee_eth := S754_finite false 7747632510958012 (-64) |}.

(** A server whose every page holds an item the normalizer rejects. *)
Definition broken_server : world :=
  server (fun _ => Received (json_page "1" "OK" [sample_item; broken_small_item])).

(** The packages of the table that [__import__] does not find, and those
    it imports. *)
Definition import_fails (import_ : string -> import_result)
    (entry : string * string) : bool :=
  match import_ (fst entry) with ImportFails => true | _ => false end.

Definition import_works (import_ : string -> import_result)
    (entry : string * string) : bool :=
  match import_ (fst entry) with Imported => true | _ => false end.

(** The line the loop prints for a package. *)
Definition package_line (import_ : string -> import_result)
    (entry : string * string) : string :=
  match import_ (fst entry) with
  | ImportFails => "❌ " ++ snd entry ++ " 未安装"
  | _ => "✅ " ++ snd entry ++ " 已安装"
  end.

(** What the script prints when nothing stops it: a line for each package,
    the rule, and the summary. *)
Definition report_lines (import_ : string -> import_result) : list string :=
  (map (package_line import_) REQUIRED_PACKAGES
   ++ (NEWLINE ++ times "=" 50)%string
      :: summary (map fst (filter (import_fails import_) REQUIRED_PACKAGES))
                 (map snd (filter (import_works import_) REQUIRED_PACKAGES)))%list.

(** Stdout takes the lines one after the other, after those in [before]. *)
Fixpoint accepted (stdout_accepts : list string -> string -> bool)
    (before lines : list string) : bool :=
  match lines with
  | [] => true
  | line :: lines' =>
      stdout_accepts before line
      && accepted stdout_accepts (before ++ [line])%list lines'
  end.

(** An installation in which only openpyxl is missing. *)
Definition no_openpyxl (package : string) : import_result :=
  if String.eqb package "openpyxl" then ImportFails else Imported.

(** A terminal that takes everything, and one whose encoding is ASCII. *)
Definition any_terminal (before : list string) (line : string) : bool := true.



(** The state in which the check ends on that installation. *)
Definition no_openpyxl_end : check_state :=
  Eval vm_compute in
    match snd (check_dependencies no_openpyxl any_terminal) with
    | Some st => st
    | None => {| missing_packages := []; installed_packages := []; printed := [] |}
    end.

(** * Properties *)

(** ** The model at work *)

Example parse_int_examples :
  parse_int " 1_500 " = Some 1500 /\ parse_int "-007" = Some (-7) /\
  parse_int "+42" = Some 42 /\ parse_int "1__0" = None /\
  parse_int "1_" = None /\ parse_int "" = None /\ parse_int "- 1" = None /\
  parse_int "0x10" = None /\ parse_int "12.5" = None /\
  parse_int (String (ascii_of_N 28) "5") = None /\
  parse_int (String (ascii_of_N 160) "5") = Some 5 /\
  parse_int (String (ascii_of_N 9) "5" ++ String (ascii_of_N 133) "") = Some 5.
Proof. repeat split; reflexivity. Qed.

Example lower_strip_example :
  strip (lower "  No Records FOUND  ") = "no records found".
Proof. reflexivity. Qed.

Example int_truediv_examples :
  int_truediv 1500000 1000000 = ok float_1_5 /\
  int_truediv 1 3 = ok (S754_finite false 6004799503160661 (-54)) /\
  int_truediv (2 ^ 53 + 1) 1 = ok (S754_finite false 4503599627370496 1) /\
  int_truediv (10 ^ 400) 1000000 = raise OverflowError /\
  int_truediv 0 1000000 = ok float_zero /\
  int_truediv 2 10 = ok float_0_2 /\ int_truediv 7 7 = ok float_one.
Proof. repeat split; vm_compute; reflexivity. Qed.

Example utc_isoformat_examples :
  utc_isoformat 0 = ok "1970-01-01T00:00:00+00:00" /\
  utc_isoformat 1700000000 = ok "2023-11-14T22:13:20+00:00" /\
  utc_isoformat 951782400 = ok "2000-02-29T00:00:00+00:00" /\
  utc_isoformat (-1) = ok "1969-12-31T23:59:59+00:00" /\
  utc_isoformat MAX_TIMESTAMP = ok "9999-12-31T23:59:59+00:00" /\
  utc_isoformat MIN_TIMESTAMP = ok "0001-01-01T00:00:00+00:00" /\
  utc_isoformat (MAX_TIMESTAMP + 1) = raise (ValueError "year is out of range") /\
  utc_isoformat GMTIME_MAX = raise (ValueError "year is out of range") /\
  utc_isoformat (GMTIME_MAX + 1) = raise OSError /\
  utc_isoformat (10 ^ 17) = raise OSError /\
  utc_isoformat TIME_T_MIN = raise OSError /\
  utc_isoformat (10 ^ 20) = raise OverflowError.
Proof. repeat split; vm_compute; reflexivity. Qed.

Example transform_item_example :
  transform_item None sample_item = ok (Some sample_record) /\
  transform_item (Some float_one) small_item = ok None /\
  transform_item None (PStr "x") = raise AttributeError /\
  transform_item None (PDict [("value", PNone)]) = raise TypeError.
Proof. repeat split; vm_compute; reflexivity. Qed.

Example handle_response_examples :
  handle_response 100 None (json_page "1" "OK" [sample_item])
  = PageBreak [sample_record] /\
  handle_response 1 None (json_page "1" "OK" [sample_item])
  = PageNext [sample_record] /\
  handle_response 100 None (json_page "1" "OK" []) = PageBreak [] /\
  handle_response 100 None no_records_response = PageBreak [] /\
  handle_response 100 None (json_page "0" "NOTOK" [])
  = PageRaise (EtherscanError "Etherscan error: NOTOK") /\
  handle_response 100 None (json_page "0" "" [])
  = PageRaise (EtherscanError "Etherscan error: unknown error") /\
  handle_response 100 None busy_response
  = PageRaise (EtherscanError "Etherscan status 503: busy").
Proof. repeat split; vm_compute; reflexivity. Qed.

Example get_chain_id_examples :
  get_chain_id (fun _ => ok (PInt 137)) (fun _ => Some "5") = ok 137 /\
  get_chain_id (fun _ => raise (KeyError "secrets")) (fun _ => Some "5") = ok 5 /\
  get_chain_id (fun _ => ok PNone) (fun _ => None) = ok 1 /\
  get_chain_id (fun _ => ok PNone) (fun _ => Some "") = ok 1 /\
  get_chain_id (fun _ => ok (PStr "x")) (fun _ => Some "main")
  = raise (EtherscanError "ETHERSCAN_CHAIN_ID must be an integer.").
Proof. repeat split; reflexivity. Qed.

(** ** The error monad *)

Lemma bind_ok {A B} (c : result A) (k : A -> result B) (b : B) :
  bind c k = ok b <-> exists a, c = ok a /\ k a = ok b.
Proof.
  unfold bind, ok. destruct c as [e | a]; split.
  - discriminate.
  - intros (a & Ha & _). discriminate.
  - intros H. exists a. split; [reflexivity | exact H].
  - intros (a' & Ha & Hk). injection Ha as ->. exact Hk.
Qed.

Lemma bind_raise {A B} (c : result A) (k : A -> result B) (e : exn) :
  bind c k = raise e <->
  c = raise e \/ exists a, c = ok a /\ k a = raise e.
Proof.
  unfold bind, raise, ok. destruct c as [e' | a]; split.
  - intros H. left. injection H as ->. reflexivity.
  - intros [H | (a & Ha & _)]; [injection H as ->; reflexivity | discriminate].
  - intros H. right. exists a. split; [reflexivity | exact H].
  - intros [H | (a' & Ha & Hk)]; [discriminate |].
    injection Ha as ->. exact Hk.
Qed.

(** ** Strings *)

Lemma lower_char_idempotent (c : ascii) : lower_char (lower_char c) = lower_char c.
Proof.
  destruct c as [ [ | ] [ | ] [ | ] [ | ] [ | ] [ | ] [ | ] [ | ] ]; reflexivity.
Qed.

Lemma lower_idempotent (s : string) : lower (lower s) = lower s.
Proof.
  induction s as [ | c s IH ]; simpl; [ | rewrite lower_char_idempotent, IH ];
    reflexivity.
Qed.

Lemma lower_char_space (c : ascii) : is_space (lower_char c) = is_space c.
Proof.
  destruct c as [ [ | ] [ | ] [ | ] [ | ] [ | ] [ | ] [ | ] [ | ] ]; reflexivity.
Qed.

Lemma lower_app (s t : string) : lower (s ++ t) = lower s ++ lower t.
Proof.
  induction s as [ | c s IH ]; simpl; [ | rewrite IH ]; reflexivity.
Qed.

Lemma blank_lower (s : string) : blank (lower s) = blank s.
Proof.
  induction s as [ | c s IH ]; simpl; [ reflexivity | ].
  rewrite lower_char_space, IH. reflexivity.
Qed.

Lemma lstrip_blank_prefix (pre s : string) :
  blank pre = true -> lstrip (pre ++ s) = lstrip s.
Proof.
  induction pre as [ | c pre IH ]; simpl; [ reflexivity | ].
  destruct (is_space c); [ exact IH | discriminate ].
Qed.

Lemma rstrip_blank (s : string) : blank s = true -> rstrip s = "".
Proof.
  induction s as [ | c s IH ]; simpl; [ reflexivity | ].
  destruct (is_space c); [ | discriminate ].
  intros H. rewrite (IH H). reflexivity.
Qed.

Lemma rstrip_blank_suffix (s suf : string) :
  blank suf = true -> rstrip (s ++ suf) = rstrip s.
Proof.
  intros H. induction s as [ | c s IH ]; simpl.
  - apply rstrip_blank, H.
  - rewrite IH. reflexivity.
Qed.

Lemma lstrip_app_nonblank (s t : string) :
  lstrip s <> "" -> lstrip (s ++ t) = lstrip s ++ t.
Proof.
  induction s as [ | c s IH ]; simpl.
  - intros H. contradiction H. reflexivity.
  - destruct (is_space c); [ exact IH | reflexivity ].
Qed.

(** White space around a string does not change what [strip] makes of it. *)
Lemma strip_surrounded (pre s suf : string) :
  blank pre = true -> blank suf = true ->
  strip (pre ++ s ++ suf) = strip s.
Proof.
  intros Hpre Hsuf. unfold strip. rewrite (lstrip_blank_prefix _ _ Hpre).
  destruct (lstrip s) as [ | c t ] eqn:Hs.
  - (* [s] is blank: so is [s ++ suf] *)
    assert (Hb : forall u, lstrip u = "" -> blank u = true).
    { induction u as [ | c u IHu ]; simpl; [ reflexivity | ].
      destruct (is_space c); [ exact IHu | discriminate ]. }
    assert (Happ : forall u v, blank u = true -> blank v = true ->
                               blank (u ++ v) = true).
    { induction u as [ | c u IHu ]; simpl; intros v Hu Hv; [ exact Hv | ].
      destruct (is_space c); [ apply IHu; assumption | discriminate ]. }
    assert (Hl : forall u, blank u = true -> lstrip u = "").
    { induction u as [ | c u IHu ]; simpl; [ reflexivity | ].
      destruct (is_space c); [ exact IHu | discriminate ]. }
    rewrite (Hl _ (Happ _ _ (Hb _ Hs) Hsuf)). reflexivity.
  - rewrite lstrip_app_nonblank by (rewrite Hs; discriminate).
    rewrite Hs. apply rstrip_blank_suffix, Hsuf.
Qed.

(** The end-of-data message is recognised in any case and with any white
    space around it. *)
Lemma says_no_records_any_case (m m' : string) :
  lower m = lower m' -> says_no_records m = says_no_records m'.
Proof. unfold says_no_records. intros ->. reflexivity. Qed.

Lemma says_no_records_surrounded (pre m suf : string) :
  blank pre = true -> blank suf = true ->
  says_no_records (pre ++ m ++ suf) = says_no_records m.
Proof.
  intros Hpre Hsuf. unfold says_no_records.
  rewrite !lower_app. rewrite strip_surrounded; [ reflexivity | | ];
    rewrite blank_lower; assumption.
Qed.

(** ** Floats *)

Lemma compare_cont_opp (m1 m2 : positive) (c : comparison) :
  Pos.compare_cont (CompOpp c) m2 m1 = CompOpp (Pos.compare_cont c m1 m2).
Proof.
  symmetry. apply Pos.compare_cont_antisym.
Qed.

Lemma SFcompare_antisym (x y : float) (c : comparison) :
  SFcompare x y = Some c -> SFcompare y x = Some (CompOpp c).
Proof.
  destruct x as [sx | sx | | sx mx ex], y as [sy | sy | | sy my ey];
    simpl; try discriminate; intros H; injection H as <-;
    try (destruct sx; reflexivity); try (destruct sy; reflexivity);
    try (destruct sx, sy; reflexivity).
  destruct sx, sy; simpl; try reflexivity;
    rewrite (Z.compare_antisym ex ey);
    destruct (ex ?= ey); simpl; try reflexivity;
    rewrite <- (compare_cont_opp mx my Eq); simpl;
    try rewrite CompOpp_involutive; reflexivity.
Qed.

Lemma SFcompare_defined (x y : float) :
  is_nan x = false -> is_nan y = false -> exists c, SFcompare x y = Some c.
Proof.
  destruct x, y; simpl; intros; try discriminate; eexists; reflexivity.
Qed.

(** Between two numbers, [x < y] false means [x >= y]. *)
Lemma float_not_lt_ge (x y : float) :
  is_nan x = false -> is_nan y = false ->
  float_lt x y = false -> float_ge x y = true.
Proof.
  intros Hx Hy Hlt. unfold float_lt, float_ge, SFltb, SFleb in *.
  destruct (SFcompare_defined x y Hx Hy) as (c & Hc).
  rewrite Hc in Hlt. rewrite (SFcompare_antisym _ _ _ Hc).
  destruct c; simpl; try reflexivity. discriminate.
Qed.

(** A comparison with NaN is false, whichever way round. *)
Lemma float_nan_unordered (x : float) :
  float_lt x S754_nan = false /\ float_ge x S754_nan = false.
Proof.
  unfold float_lt, float_ge, SFltb, SFleb. destruct x; split; reflexivity.
Qed.

(** *** Rounding never yields NaN *)

Lemma shr_1_nonneg (mrs : shr_record) :
  0 <= shr_m mrs -> 0 <= shr_m (shr_1 mrs).
Proof.
  destruct mrs as [m r s]; simpl.
  destruct m as [ | p | p ]; [ | destruct p | destruct p ]; simpl; lia.
Qed.

Lemma iter_shr_1_nonneg (p : positive) (mrs : shr_record) :
  0 <= shr_m mrs -> 0 <= shr_m (iter_pos shr_1 p mrs).
Proof.
  revert mrs. induction p as [p IH | p IH | ]; simpl; intros mrs H.
  - apply IH, IH, shr_1_nonneg, H.
  - apply IH, IH, H.
  - apply shr_1_nonneg, H.
Qed.

Lemma shr_fexp_nonneg (m e : Z) (l : location) :
  0 <= m -> 0 <= shr_m (fst (shr_fexp prec emax m e l)).
Proof.
  intros H. unfold shr_fexp, shr.
  assert (H0 : 0 <= shr_m (shr_record_of_loc m l))
    by (destruct l as [ | [ | | ] ]; exact H).
  destruct (fexp prec emax (Zdigits2 m + e) - e); simpl;
    auto using iter_shr_1_nonneg.
Qed.

Lemma round_nearest_even_nonneg (m : Z) (l : location) :
  0 <= m -> 0 <= round_nearest_even m l.
Proof.
  intros H. unfold round_nearest_even.
  destruct l as [ | [ | | ] ]; try destruct (Z.even m); lia.
Qed.

Lemma binary_round_aux_not_nan (s : bool) (m e : Z) (l : location) :
  0 <= m -> is_nan (binary_round_aux prec emax s m e l) = false.
Proof.
  intros H. unfold binary_round_aux.
  pose proof (shr_fexp_nonneg m e l H) as H1.
  destruct (shr_fexp prec emax m e l) as [mrs' e']. simpl in H1.
  pose proof (shr_fexp_nonneg _ e' loc_Exact
                (round_nearest_even_nonneg _ (loc_of_shr_record mrs') H1)) as H2.
  destruct (shr_fexp prec emax _ e' loc_Exact) as [mrs'' e'']. simpl in H2.
  destruct (shr_m mrs'') as [ | p | p ]; try reflexivity.
  - destruct (e'' <=? emax - prec); reflexivity.
  - lia.
Qed.

Lemma SFdiv_finite_not_nan (sx sy : bool) (mx my : positive) (ex ey : Z) :
  is_nan (SFdiv prec emax (S754_finite sx mx ex) (S754_finite sy my ey)) = false.
Proof.
  unfold SFdiv, SFdiv_core_binary.
  set (m' := match _ - _ - _ with Z0 => _ | Zpos _ => _ | Zneg _ => _ end).
  assert (Hm : 0 <= m').
  { subst m'. destruct (_ - _ - _); try lia. apply Z.shiftl_nonneg. lia. }
  pose proof (Z.div_pos m' (Zpos my) Hm ltac:(lia)) as Hq.
  unfold Z.div in Hq. destruct (Z.div_eucl m' (Zpos my)) as [q r].
  apply binary_round_aux_not_nan. exact Hq.
Qed.

(** The quotient of two ints is a number. *)
Lemma int_truediv_not_nan (a b : Z) (q : float) :
  int_truediv a b = ok q -> is_nan q = false.
Proof.
  intros H. unfold int_truediv in H.
  destruct b as [ | pb | pb ]; [ discriminate | | ];
    (destruct a as [ | pa | pa ]; [ injection H as <-; reflexivity | | ]);
    match type of H with
    | context [SFdiv prec emax (S754_finite ?sx ?mx 0) (S754_finite ?sy ?my 0)] =>
        pose proof (SFdiv_finite_not_nan sx sy mx my 0 0) as Hn;
        destruct (SFdiv prec emax (S754_finite sx mx 0) (S754_finite sy my 0))
    end; try discriminate; injection H as <-; first [ reflexivity | exact Hn ].
Qed.

(** ** The normalizer *)

(** [transform_item] on a JSON object, the look-ups done. *)
Lemma transform_item_dict (min_value : option float) (d : dict) :
  transform_item min_value (PDict d) =
  (value <- py_int (dict_get d "value" (PStr "0")) ;;
   amount <- int_truediv value 1000000 ;;
   if below_min min_value amount then ok None
   else
     gas_price <- py_int (dict_get d "gasPrice" (PStr "0")) ;;
     gas_used <- py_int (dict_get d "gasUsed" (PStr "0")) ;;
     fee <- int_truediv (gas_price * gas_used) 1000000000000000000 ;;
     ts <- py_int (dict_get d "timeStamp" (PStr "0")) ;;
     iso <- utc_isoformat ts ;;
     ok (Some {| from_ := dict_get d "from" PNone; to_ := dict_get d "to" PNone;
                 amount_usdt := amount; tx_hash := dict_get d "hash" PNone;
                 timestamp := iso; fee_eth := fee |})).
Proof. reflexivity. Qed.

Lemma transform_item_not_dict (min_value : option float) (item : pyval)
    (o : option TransferRecord) :
  transform_item min_value item = ok o -> exists d, item = PDict d.
Proof.
  destruct item; try discriminate. intros _. eexists; reflexivity.
Qed.

Lemma transform_and_filter_spec (min_value : option float) (items : list pyval)
    (rs : list TransferRecord) :
  _transform_and_filter items min_value = ok rs <->
  exists outs,
    Forall2 (fun item o => transform_item min_value item = ok o) items outs /\
    rs = kept outs.
Proof.
  revert rs. induction items as [ | item items IH ]; intros rs; simpl.
  - split.
    + intros H. injection H as <-. exists []. split; [constructor | reflexivity].
    + intros (outs & HF & ->). inversion HF. reflexivity.
  - rewrite bind_ok. split.
    + intros (o & Ho & H). apply bind_ok in H. destruct H as (rs' & Hrs & H).
      apply IH in Hrs. destruct Hrs as (outs & HF & ->).
      injection H as <-. exists (o :: outs). split.
      * constructor; assumption.
      * destruct o; reflexivity.
    + intros (outs & HF & ->). inversion HF as [ | ? o ? outs' Ho HF' ]; subst.
      exists o. split; [exact Ho | ].
      apply bind_ok. exists (kept outs'). split.
      * apply IH. exists outs'. split; [exact HF' | reflexivity].
      * destruct o; reflexivity.
Qed.

Lemma transform_and_filter_In (min_value : option float) (items : list pyval)
    (rs : list TransferRecord) (r : TransferRecord) :
  _transform_and_filter items min_value = ok rs -> In r rs ->
  exists item, In item items /\ transform_item min_value item = ok (Some r).
Proof.
  intros H. apply transform_and_filter_spec in H. destruct H as (outs & HF & ->).
  induction HF as [ | item o items outs Ho HF IH ]; simpl; [ intros [] | ].
  destruct o as [ r' | ]; simpl.
  - intros [ <- | Hin ].
    + exists item. split; [left; reflexivity | exact Ho].
    + destruct (IH Hin) as (it & Hit & Heq). exists it. split; [right|]; assumption.
  - intros Hin. destruct (IH Hin) as (it & Hit & Heq).
    exists it. split; [right|]; assumption.
Qed.

(** What a yielded record says about the item it comes from. *)
Lemma transform_item_yield (min_value : option float) (d : dict)
    (r : TransferRecord) :
  transform_item min_value (PDict d) = ok (Some r) ->
  exists value gas_price gas_used ts,
    py_int (dict_get d "value" (PStr "0")) = ok value /\
    int_truediv value 1000000 = ok (amount_usdt r) /\
    below_min min_value (amount_usdt r) = false /\
    py_int (dict_get d "gasPrice" (PStr "0")) = ok gas_price /\
    py_int (dict_get d "gasUsed" (PStr "0")) = ok gas_used /\
    int_truediv (gas_price * gas_used) 1000000000000000000 = ok (fee_eth r) /\
    py_int (dict_get d "timeStamp" (PStr "0")) = ok ts /\
    utc_isoformat ts = ok (timestamp r) /\
    from_ r = dict_get d "from" PNone /\ to_ r = dict_get d "to" PNone /\
    tx_hash r = dict_get d "hash" PNone.
Proof.
  rewrite transform_item_dict. intros H.
  apply bind_ok in H. destruct H as (value & Hv & H).
  apply bind_ok in H. destruct H as (amount & Ha & H).
  destruct (below_min min_value amount) eqn:Hb; [ discriminate | ].
  apply bind_ok in H. destruct H as (gp & Hgp & H).
  apply bind_ok in H. destruct H as (gu & Hgu & H).
  apply bind_ok in H. destruct H as (fee & Hfee & H).
  apply bind_ok in H. destruct H as (ts & Hts & H).
  apply bind_ok in H. destruct H as (iso & Hiso & H).
  injection H as <-. simpl.
  exists value, gp, gu, ts. repeat split; assumption.
Qed.

(** *** Absent fields and failures *)

Lemma int_truediv_zero (b : Z) :
  0 < b -> int_truediv 0 b = ok (S754_zero false).
Proof.
  intros H. destruct b; try lia. reflexivity.
Qed.

Lemma int_truediv_raise (a b : Z) (e : exn) :
  0 < b -> int_truediv a b = raise e -> e = OverflowError /\ a <> 0.
Proof.
  intros Hb H. unfold int_truediv in H.
  destruct b as [ | pb | pb ]; try lia.
  destruct a as [ | pa | pa ]; [ discriminate | | ];
    (destruct (SFdiv prec emax _ _); try discriminate;
     injection H as <-; split; [ reflexivity | lia ]).
Qed.

Lemma fromtimestamp_error_range (ts : Z) (e : exn) :
  fromtimestamp_error ts = Some e ->
  (ts < MIN_TIMESTAMP \/ MAX_TIMESTAMP < ts) /\ is_EtherscanError e = false.
Proof.
  unfold fromtimestamp_error, TIME_T_MIN, TIME_T_MAX, GMTIME_MIN, GMTIME_MAX,
    MIN_TIMESTAMP, MAX_TIMESTAMP.
  repeat match goal with
         | |- context [ (?a <? ?b) || (?c <? ?d) ] =>
             destruct (Z.ltb_spec a b); destruct (Z.ltb_spec c d); cbn [orb]
         end;
    intros He; try discriminate; injection He as <-; split; try reflexivity; lia.
Qed.

Lemma utc_isoformat_raise (ts : Z) (e : exn) :
  utc_isoformat ts = raise e -> fromtimestamp_error ts = Some e.
Proof.
  unfold utc_isoformat. destruct (fromtimestamp_error ts) as [ e' | ].
  - intros H. injection H as <-. reflexivity.
  - destruct (ord2ymd _) as [[y m] d]. discriminate.
Qed.

(** *** Plain decimal-integer strings are what [int] accepts *)

Lemma digit_not_int_space (c : ascii) (v : Z) :
  digit_val c = Some v -> is_int_space c = false.
Proof.
  destruct c as [ [ | ] [ | ] [ | ] [ | ] [ | ] [ | ] [ | ] [ | ] ];
    try discriminate; reflexivity.
Qed.

Lemma int_rstrip_digits (s : string) : all_digits s = true -> int_rstrip s = s.
Proof.
  induction s as [ | c s IH ]; simpl; [ reflexivity | ].
  destruct (digit_val c) as [ v | ] eqn:Hc; [ | discriminate ].
  intros H. rewrite (IH H). destruct s; [ | reflexivity ].
  rewrite (digit_not_int_space _ _ Hc). reflexivity.
Qed.

Lemma int_strip_digits (s : string) : all_digits s = true -> int_strip s = s.
Proof.
  intros H. unfold int_strip.
  assert (Hl : int_lstrip s = s).
  { destruct s as [ | c s ]; [ reflexivity | ]. simpl in *.
    destruct (digit_val c) as [ v | ] eqn:Hc; [ | discriminate ].
    rewrite (digit_not_int_space _ _ Hc). reflexivity. }
  rewrite Hl. apply int_rstrip_digits, H.
Qed.

Lemma digit_count_digits (s : string) :
  all_digits s = true -> digit_count s = String.length s.
Proof.
  induction s as [ | c s IH ]; simpl; [ reflexivity | ].
  destruct (digit_val c); [ | discriminate ]. intros H. rewrite (IH H). reflexivity.
Qed.

Lemma digits_tail_digits (s : string) (acc : Z) :
  all_digits s = true -> exists z, digits_tail s acc = Some z.
Proof.
  revert acc. induction s as [ | c s IH ]; intros acc; simpl.
  - intros _. exists acc. reflexivity.
  - destruct (digit_val c) as [ v | ]; [ | discriminate ]. intros H. apply IH, H.
Qed.

(** [int] accepts every non-empty string of digits within the limit. *)
Lemma parse_int_digits (s : string) :
  decimal_integer_string (PStr s) = true ->
  too_many_digits (PStr s) = false ->
  exists z, parse_int s = Some z.
Proof.
  simpl. intros Hd Hlen. apply andb_true_iff in Hd. destruct Hd as (Hne & Hd).
  unfold parse_int. rewrite (int_strip_digits _ Hd), (digit_count_digits _ Hd), Hlen.
  destruct s as [ | c s ]; [ discriminate | ]. simpl in Hd.
  destruct (digit_val c) as [ v | ] eqn:Hc; [ | discriminate ].
  assert (Hsign : forall t, String c s <> String "-" t /\ String c s <> String "+" t).
  { intros t. split; intros H; injection H as -> _; discriminate. }
  destruct (digits_tail_digits s v Hd) as (z & Hz). exists z.
  unfold digits.
  destruct c as [ [ | ] [ | ] [ | ] [ | ] [ | ] [ | ] [ | ] [ | ] ];
    try discriminate; simpl in Hc; injection Hc as <-; exact Hz.
Qed.

(** What [int] rejects is no plain decimal-integer string, or has too many
    digits. *)
Lemma py_int_rejects (v : pyval) (e : exn) :
  py_int v = raise e ->
  decimal_integer_string v = false \/ too_many_digits v = true.
Proof.
  intros H. destruct v as [ | b | z | f | s | l | d ]; try (left; reflexivity).
  destruct (decimal_integer_string (PStr s)) eqn:Hd; [ | left; reflexivity ].
  destruct (too_many_digits (PStr s)) eqn:Hl; [ right; reflexivity | ].
  destruct (parse_int_digits s Hd Hl) as (z & Hz). simpl in H. rewrite Hz in H.
  discriminate.
Qed.

Lemma dict_get_absent (d : dict) (k : string) (default : pyval) :
  lookup k d = None -> dict_get d k default = default.
Proof. unfold dict_get. intros ->. reflexivity. Qed.

Lemma dict_get_present (d : dict) (k : string) (default v : pyval) :
  lookup k d = Some v -> dict_get d k default = v.
Proof. unfold dict_get. intros ->. reflexivity. Qed.

(** A field that [int] rejects while an absent one would read "0": it is
    there. *)
Lemma py_int_field_raise (d : dict) (k : string) (e : exn) :
  py_int (dict_get d k (PStr "0")) = raise e ->
  exists v, lookup k d = Some v /\ py_int v = raise e.
Proof.
  unfold dict_get. destruct (lookup k d) as [ v | ].
  - intros H. exists v. split; [reflexivity | exact H].
  - discriminate.
Qed.

Lemma py_int_field_nonzero (d : dict) (k : string) (z : Z) :
  py_int (dict_get d k (PStr "0")) = ok z -> z <> 0 ->
  exists v, lookup k d = Some v /\ py_int v = ok z.
Proof.
  unfold dict_get. destruct (lookup k d) as [ v | ].
  - intros H _. exists v. split; [reflexivity | exact H].
  - intros H Hz. injection H as <-. contradiction Hz. reflexivity.
Qed.

Lemma transform_item_raise (min_value : option float) (d : dict) (e : exn) :
  transform_item min_value (PDict d) = raise e -> failure_cause d e.
Proof.
  rewrite transform_item_dict. intros H.
  apply bind_raise in H. destruct H as [ H | (value & Hv & H) ].
  { apply py_int_field_raise in H. destruct H as (v & Hl & Hr).
    apply (NotAnInt d e "value" v); simpl; auto.
    exact (py_int_rejects _ _ Hr). }
  apply bind_raise in H. destruct H as [ H | (amount & Ha & H) ].
  { destruct (int_truediv_raise _ 1000000 _ ltac:(lia) H) as (-> & Hnz).
    destruct (py_int_field_nonzero _ _ _ Hv Hnz) as (v & Hl & Hi).
    apply (AmountTooLarge d _ v value); auto. }
  destruct (below_min min_value amount); [ discriminate | ].
  apply bind_raise in H. destruct H as [ H | (gp & Hgp & H) ].
  { apply py_int_field_raise in H. destruct H as (v & Hl & Hr).
    apply (NotAnInt d e "gasPrice" v); simpl; auto.
    exact (py_int_rejects _ _ Hr). }
  apply bind_raise in H. destruct H as [ H | (gu & Hgu & H) ].
  { apply py_int_field_raise in H. destruct H as (v & Hl & Hr).
    apply (NotAnInt d e "gasUsed" v); simpl; auto.
    exact (py_int_rejects _ _ Hr). }
  apply bind_raise in H. destruct H as [ H | (fee & Hfee & H) ].
  { destruct (int_truediv_raise _ 1000000000000000000 _ ltac:(lia) H) as (-> & Hnz).
    assert (Hp : gp <> 0) by (intros ->; apply Hnz; reflexivity).
    assert (Hu : gu <> 0) by (intros ->; apply Hnz; lia).
    destruct (py_int_field_nonzero _ _ _ Hgp Hp) as (v1 & Hl1 & Hi1).
    destruct (py_int_field_nonzero _ _ _ Hgu Hu) as (v2 & Hl2 & Hi2).
    apply (FeeTooLarge d _ v1 v2 gp gu); auto. }
  apply bind_raise in H. destruct H as [ H | (ts & Hts & H) ].
  { apply py_int_field_raise in H. destruct H as (v & Hl & Hr).
    apply (NotAnInt d e "timeStamp" v); simpl; auto.
    exact (py_int_rejects _ _ Hr). }
  apply bind_raise in H. destruct H as [ H | (iso & Hiso & H) ]; [ | discriminate ].
  apply utc_isoformat_raise in H.
  destruct (fromtimestamp_error_range _ _ H) as (Hrange & _).
  assert (Hnz : ts <> 0) by (unfold MIN_TIMESTAMP, MAX_TIMESTAMP in Hrange; lia).
  destruct (py_int_field_nonzero _ _ _ Hts Hnz) as (v & Hl & Hi).
  apply (TimestampOutOfRange d _ v ts); auto.
Qed.

(** C9 (amended). Only a JSON object is normalized; any other raw item
    makes normalization throw.  In an object, an absent numeric field reads
    as zero instead of failing: a record yielded from an item without
    [value] has amount 0.0, without [gasPrice] or [gasUsed] fee 0.0, without
    [timeStamp] the time stamp 1970-01-01T00:00:00+00:00, and an item with
    none of the four is normalized (no filter set) to such a record.
    Normalizing an object throws only because of a field that is present:
    one [int] rejects (for a string: it is no decimal-integer literal, or
    has more than 4300 digits), a [value] or a [gasPrice * gasUsed] too
    large for a float, or a [timeStamp] outside the years 1..9999. *)
Theorem normalizer_absent_fields (min_value : option float) (item : pyval) :
  (forall r, transform_item min_value item = ok (Some r) ->
     exists d, item = PDict d /\
     (lookup "value" d = None -> amount_usdt r = S754_zero false) /\
     (lookup "gasPrice" d = None \/ lookup "gasUsed" d = None ->
      fee_eth r = S754_zero false) /\
     (lookup "timeStamp" d = None -> timestamp r = EPOCH_ISO))
  /\ (forall d, item = PDict d ->
        (forall k, In k NUMERIC_FIELDS -> lookup k d = None) ->
        transform_item None item =
        ok (Some {| from_ := dict_get d "from" PNone; to_ := dict_get d "to" PNone;
                    amount_usdt := S754_zero false;
                    tx_hash := dict_get d "hash" PNone;
                    timestamp := EPOCH_ISO; fee_eth := S754_zero false |}))
  /\ (forall e, transform_item min_value item = raise e ->
        match item with
        | PDict d => failure_cause d e
        | _ => e = AttributeError
        end)
  /\ ((forall d, item <> PDict d) ->
      transform_item min_value item = raise AttributeError).
Proof.
  split; [ | split; [ | split ] ].
  - intros r H. destruct (transform_item_not_dict _ _ _ H) as (d & ->).
    exists d. split; [ reflexivity | ].
    destruct (transform_item_yield _ _ _ H)
      as (value & gp & gu & ts & Hv & Ha & _ & Hgp & Hgu & Hfee & Hts & Hiso & _).
    split; [ | split ].
    + intros Habs. rewrite (dict_get_absent _ _ _ Habs) in Hv.
      injection Hv as <-. injection Ha as <-. reflexivity.
    + intros [ Habs | Habs ].
      * rewrite (dict_get_absent _ _ _ Habs) in Hgp. injection Hgp as <-.
        injection Hfee as <-. reflexivity.
      * rewrite (dict_get_absent _ _ _ Habs) in Hgu. injection Hgu as <-.
        rewrite Z.mul_0_r in Hfee. injection Hfee as <-. reflexivity.
    + intros Habs. rewrite (dict_get_absent _ _ _ Habs) in Hts.
      injection Hts as <-. injection Hiso as <-. reflexivity.
  - intros d -> Habs. rewrite transform_item_dict.
    rewrite !dict_get_absent by (apply Habs; simpl; auto).
    reflexivity.
  - intros e H. destruct item as [ | b | z | f | s | l | d ];
      try (injection H as <-; reflexivity).
    exact (transform_item_raise _ _ _ H).
  - intros Hnot. destruct item as [ | b | z | f | s | l | d ]; try reflexivity.
    contradiction (Hnot d). reflexivity.
Qed.

Lemma normalizer_absent_fields_witness :
  transform_item None (PDict bare_item) =
  ok (Some {| from_ := PStr "0xaa"; to_ := PStr "0xbb";
              amount_usdt := S754_zero false; tx_hash := PNone;
              timestamp := EPOCH_ISO; fee_eth := S754_zero false |})
  /\ failure_cause far_future_item (ValueError "year is out of range").
Proof.
  split.
  - apply (proj1 (proj2 (normalizer_absent_fields None (PDict bare_item))) bare_item
             eq_refl).
    intros k Hk. simpl in Hk.
    destruct Hk as [ <- | [ <- | [ <- | [ <- | [] ] ] ] ]; reflexivity.
  - apply (proj1 (proj2 (proj2 (normalizer_absent_fields None
                                   (PDict far_future_item))))).
    reflexivity.
Defined.

(** Every numeric field of [far_future_item] is a present decimal-integer
    string, and yet its normalization throws: the time stamp is the first
    second of the year 10000. *)
Lemma far_future_timestamp_throws :
  Forall (fun k => exists v, lookup k far_future_item = Some v /\
                             decimal_integer_string v = true) NUMERIC_FIELDS
  /\ transform_item None (PDict far_future_item)
     = raise (ValueError "year is out of range").
Proof.
  split; [ | reflexivity ].
  repeat constructor; eexists; (split; [ reflexivity | reflexivity ]).
Qed.

(** ** One turn of the loop *)

Lemma truthy_py_or (v : pyval) : truthy (py_or v (PList [])) = truthy v.
Proof. unfold py_or. destruct (truthy v) eqn:H; [ exact H | reflexivity ]. Qed.




(** A page whose result is something else than an array: iterating it, or
    normalizing what comes out of it, raises. *)
Lemma iterate_non_list (min_value : option float) (r : pyval) :
  truthy r = true -> (forall l, r <> PList l) ->
  exists e, (items <- py_iter r ;; _transform_and_filter items min_value) = raise e
            /\ is_EtherscanError e = false.
Proof.
  intros Ht Hl.
  destruct r as [ | b | z | f | s | l | d ]; simpl in *;
    try (eexists; split; reflexivity).
  - destruct s as [ | c s ]; [ discriminate | ].
    eexists; split; reflexivity.
  - contradiction (Hl l). reflexivity.
  - destruct d as [ | [k v] d ]; [ discriminate | ].
    eexists; split; reflexivity.
Qed.

Ltac page_kinds :=
  unfold fetch_failure, stop_page, short_page, full_page, has_items, raw_count,
    raw_items, empty_page, success_envelope, api_failure, no_records_page,
    failed_status, message_text, envelope, transport_failure in *.

Lemma handle_response_spec (page_size : Z) (min_value : option float)
    (resp : response) :
  turn_spec page_size min_value resp (handle_response page_size min_value resp).
Proof.
  unfold handle_response.
  destruct (status_code resp =? 200) eqn:Hcode; simpl.
  2:{ apply TurnTransport. page_kinds. rewrite Hcode. reflexivity. }
  destruct (json resp) as [ payload | ] eqn:Hjson.
  2:{ apply TurnMalformed; page_kinds; rewrite ?Hcode, ?Hjson; reflexivity. }
  destruct payload as [ | b | z | f | s | l | d ];
    try (apply TurnMalformed; page_kinds; rewrite ?Hcode, ?Hjson; reflexivity).
  simpl.
  destruct (status_ok (dict_get d "status" PNone)) eqn:Hstatus; simpl.
  - (* the status indicates success *)
    rewrite truthy_py_or.
    destruct (truthy (dict_get d "result" PNone)) eqn:Htruthy; simpl.
    2:{ apply TurnEmpty. page_kinds.
        rewrite Hcode, Hjson, Hstatus. simpl. rewrite Htruthy. reflexivity. }
    unfold py_or. rewrite Htruthy.
    assert (Hff : fetch_failure resp = false)
      by (page_kinds; rewrite Hcode, Hjson, Hstatus; reflexivity).
    assert (Hnr : no_records_page resp = false)
      by (page_kinds; rewrite Hcode, Hjson, Hstatus; reflexivity).
    assert (Hem : empty_page resp = false)
      by (page_kinds; rewrite Hcode, Hjson, Hstatus; simpl; rewrite Htruthy;
          reflexivity).
    destruct (dict_get d "result" PNone) as [ | b | z | f | s | l | d' ] eqn:Hres;
      try (assert (Hni : has_items resp = false)
             by (page_kinds; rewrite Hcode, Hjson, Hstatus; simpl; rewrite Hres;
                 reflexivity);
           match type of Htruthy with
           | truthy ?r = true =>
               assert (Hnl : forall l', r <> PList l') by (intros l'; discriminate);
               destruct (iterate_non_list min_value r Htruthy Hnl) as (e & He & Hne)
           end;
           rewrite He; apply TurnMalformed; try assumption;
           unfold stop_page, short_page; rewrite Hnr, Hem, Hni; reflexivity).
    simpl.
    assert (Hraw : raw_items resp = l).
    { page_kinds. rewrite Hcode, Hjson, Hstatus. simpl. rewrite Hres. reflexivity. }
    assert (Hitems : has_items resp = true).
    { unfold has_items. rewrite Hraw. destruct l; [ discriminate | reflexivity ]. }
    destruct (_transform_and_filter l min_value) as [ e | filtered ] eqn:Htr.
    + apply TurnNormalizeFails; [ exact Hitems | rewrite Hraw; exact Htr ].
    + destruct (Z.of_nat (List.length l) <? page_size) eqn:Hlen.
      * apply TurnShort; [ | rewrite Hraw; exact Htr ].
        unfold short_page, raw_count. rewrite Hitems, Hraw, Hlen. reflexivity.
      * apply TurnFull; [ | rewrite Hraw; exact Htr ].
        unfold full_page, raw_count. rewrite Hitems, Hraw, Hlen. reflexivity.
  - (* the status does not *)
    destruct (py_or (dict_get d "message" PNone) (PStr "unknown error"))
      as [ | b | z | f | m | l | d' ] eqn:Hmsg;
      try (apply TurnMalformed; page_kinds;
           rewrite ?Hcode, ?Hjson, ?Hstatus; simpl; rewrite ?Hmsg; reflexivity).
    destruct (String.eqb (strip (lower m)) "no records found") eqn:Hnrf.
    + apply TurnNoRecords. page_kinds.
      rewrite Hcode, Hjson, Hstatus. simpl. rewrite Hmsg.
      unfold says_no_records. exact Hnrf.
    + apply (TurnApiFailure _ _ _ d m).
      * page_kinds. rewrite Hcode, Hjson, Hstatus. simpl. rewrite Hmsg.
        unfold says_no_records. rewrite Hnrf. reflexivity.
      * page_kinds. rewrite Hcode, Hjson. reflexivity.
      * page_kinds. rewrite Hmsg. reflexivity.
Qed.

(** The kinds of pages exclude one another. *)
Lemma fetch_failure_exclusive (resp : response) :
  fetch_failure resp = true ->
  no_records_page resp = false /\ empty_page resp = false /\ has_items resp = false.
Proof.
  page_kinds. destruct (status_code resp =? 200); simpl; [ | auto ].
  destruct (json resp) as [ [ | | | | | | d ] | ]; try discriminate.
  destruct (status_ok (dict_get d "status" PNone)); simpl; [ discriminate | ].
  destruct (py_or _ _) as [ | | | | m | | ]; try discriminate.
  destruct (says_no_records m); [ discriminate | auto ].
Qed.

Lemma no_records_exclusive (resp : response) :
  no_records_page resp = true ->
  empty_page resp = false /\ raw_items resp = [] /\ has_items resp = false.
Proof.
  page_kinds. destruct (status_code resp =? 200); simpl; [ | discriminate ].
  destruct (json resp) as [ [ | | | | | | d ] | ]; try discriminate.
  destruct (status_ok (dict_get d "status" PNone)); simpl; [ discriminate | auto ].
Qed.

Lemma empty_exclusive (resp : response) :
  empty_page resp = true -> raw_items resp = [] /\ has_items resp = false.
Proof.
  page_kinds. destruct (status_code resp =? 200); simpl; [ | discriminate ].
  destruct (json resp) as [ [ | | | | | | d ] | ]; try discriminate.
  destruct (status_ok (dict_get d "status" PNone)); simpl; [ | discriminate ].
  destruct (dict_get d "result" PNone) as [ | | | | | [ | x l ] | ];
    simpl; try discriminate; auto.
Qed.

Lemma stop_page_not_full (page_size : Z) (resp : response) :
  stop_page page_size resp = true -> full_page page_size resp = false.
Proof.
  unfold stop_page, short_page, full_page. intros H.
  apply orb_true_iff in H. destruct H as [ H | H ].
  - apply orb_true_iff in H. destruct H as [ H | H ].
    + destruct (no_records_exclusive _ H) as (_ & _ & ->). reflexivity.
    + destruct (empty_exclusive _ H) as (_ & ->). reflexivity.
  - apply andb_true_iff in H. destruct H as (-> & ->). reflexivity.
Qed.

(** *** What each outcome of a turn means *)

Lemma handle_response_next (page_size : Z) (min_value : option float)
    (resp : response) (filtered : list TransferRecord) :
  handle_response page_size min_value resp = PageNext filtered ->
  full_page page_size resp = true /\
  _transform_and_filter (raw_items resp) min_value = ok filtered.
Proof.
  intros H. pose proof (handle_response_spec page_size min_value resp) as S.
  rewrite H in S. inversion S; subst. split; assumption.
Qed.

Lemma handle_response_break (page_size : Z) (min_value : option float)
    (resp : response) (filtered : list TransferRecord) :
  handle_response page_size min_value resp = PageBreak filtered ->
  stop_page page_size resp = true /\
  _transform_and_filter (raw_items resp) min_value = ok filtered.
Proof.
  intros H. pose proof (handle_response_spec page_size min_value resp) as S.
  rewrite H in S. unfold stop_page. inversion S as [ | | | | Hk | Hk | f Hk Ht | ]; subst.
  - rewrite Hk. destruct (no_records_exclusive _ Hk) as (_ & -> & _).
    split; reflexivity.
  - rewrite Hk. destruct (empty_exclusive _ Hk) as (-> & _).
    split; [ apply orb_true_r || (rewrite orb_true_r; reflexivity) | reflexivity ].
  - rewrite Hk. split; [ apply orb_true_r | exact Ht ].
Qed.



Lemma handled_stop (page_size : Z) (min_value : option float) (resp : response) :
  handled page_size min_value resp = true ->
  stop_page page_size resp = true ->
  exists filtered, handle_response page_size min_value resp = PageBreak filtered.
Proof.
  unfold handled. intros Hh Hs.
  destruct (handle_response page_size min_value resp) as [ e | f | f ] eqn:H.
  - discriminate.
  - exists f. reflexivity.
  - apply handle_response_next in H. destruct H as (H & _).
    rewrite (stop_page_not_full _ _ Hs) in H. discriminate.
Qed.

Lemma handled_no_stop (page_size : Z) (min_value : option float) (resp : response) :
  handled page_size min_value resp = true ->
  stop_page page_size resp = false ->
  exists filtered, handle_response page_size min_value resp = PageNext filtered.
Proof.
  unfold handled. intros Hh Hs.
  destruct (handle_response page_size min_value resp) as [ e | f | f ] eqn:H.
  - discriminate.
  - apply handle_response_break in H. destruct H as (H & _). congruence.
  - exists f. reflexivity.
Qed.

(** A page with items is normalized, then counted. *)
Lemma handle_response_items (page_size : Z) (min_value : option float)
    (resp : response) :
  has_items resp = true ->
  handle_response page_size min_value resp =
  match _transform_and_filter (raw_items resp) min_value with
  | inl e => PageRaise e
  | inr filtered =>
      if raw_count resp <? page_size then PageBreak filtered
      else PageNext filtered
  end.
Proof.
  intros Hi. pose proof (handle_response_spec page_size min_value resp) as S.
  destruct S as [ Hk | d m Hk _ _ | e _ _ Hk _ | e _ Ht | Hk | Hk | f Hk Ht | f Hk Ht ].
  - assert (Hf : fetch_failure resp = true) by (unfold fetch_failure; rewrite Hk; reflexivity).
    destruct (fetch_failure_exclusive _ Hf) as (_ & _ & H). congruence.
  - assert (Hf : fetch_failure resp = true)
      by (unfold fetch_failure; rewrite Hk; apply orb_true_r).
    destruct (fetch_failure_exclusive _ Hf) as (_ & _ & H). congruence.
  - congruence.
  - rewrite Ht. reflexivity.
  - destruct (no_records_exclusive _ Hk) as (_ & _ & H). congruence.
  - destruct (empty_exclusive _ Hk) as (_ & H). congruence.
  - rewrite Ht. unfold short_page in Hk. apply andb_true_iff in Hk.
    destruct Hk as (_ & ->). reflexivity.
  - rewrite Ht. unfold full_page in Hk. apply andb_true_iff in Hk.
    destruct Hk as (_ & Hk). apply negb_true_iff in Hk. rewrite Hk. reflexivity.
Qed.

Lemma kept_map_Some (rs : list TransferRecord) : kept (map Some rs) = rs.
Proof. induction rs as [ | r rs IH ]; simpl; [ | rewrite IH ]; reflexivity. Qed.

(** Items that all yield a record are normalized to those records. *)
Lemma transform_and_filter_all (min_value : option float) (items : list pyval)
    (rs : list TransferRecord) :
  Forall2 (fun item r => transform_item min_value item = ok (Some r)) items rs ->
  _transform_and_filter items min_value = ok rs.
Proof.
  intros H. apply transform_and_filter_spec. exists (map Some rs).
  split; [ | symmetry; apply kept_map_Some ].
  induction H; simpl; constructor; assumption.
Qed.

(** *** The range of pages *)

Lemma page_range_In (n p : Z) : In p (page_range n) <-> 1 <= p <= n.
Proof.
  unfold page_range. rewrite in_map_iff. split.
  - intros (i & <- & Hi). apply in_seq in Hi. lia.
  - intros H. exists (Z.to_nat p). split; [ lia | ]. apply in_seq. lia.
Qed.

Lemma page_range_split (n k : Z) :
  1 <= k <= n ->
  page_range n =
  (page_range (k - 1) ++ k :: map Z.of_nat (seq (S (Z.to_nat k)) (Z.to_nat (n - k))))%list.
Proof.
  intros H. unfold page_range.
  replace (Z.to_nat n) with (Z.to_nat (k - 1) + S (Z.to_nat (n - k)))%nat by lia.
  rewrite seq_app, map_app. f_equal.
  replace (1 + Z.to_nat (k - 1))%nat with (Z.to_nat k) by lia.
  cbn [seq map]. f_equal. lia.
Qed.

Lemma page_range_last (k : Z) :
  1 <= k -> page_range k = (page_range (k - 1) ++ [k])%list.
Proof.
  intros H. rewrite (page_range_split k k) by lia.
  replace (k - k) with 0 by lia. reflexivity.
Qed.

(** *** The value filter *)

Lemma transform_item_unfiltered (item : pyval) (o : option TransferRecord) :
  transform_item None item = ok o -> exists r, o = Some r.
Proof.
  intros H. destruct (transform_item_not_dict _ _ _ H) as (d & ->).
  rewrite transform_item_dict in H.
  apply bind_ok in H. destruct H as (value & _ & H).
  apply bind_ok in H. destruct H as (amount & _ & H). simpl in H.
  apply bind_ok in H. destruct H as (gp & _ & H).
  apply bind_ok in H. destruct H as (gu & _ & H).
  apply bind_ok in H. destruct H as (fee & _ & H).
  apply bind_ok in H. destruct H as (ts & _ & H).
  apply bind_ok in H. destruct H as (iso & _ & H).
  injection H as <-. eexists. reflexivity.
Qed.

Lemma transform_and_filter_unfiltered (items : list pyval)
    (rs : list TransferRecord) :
  _transform_and_filter items None = ok rs ->
  Forall2 (fun item r => transform_item None item = ok (Some r)) items rs.
Proof.
  intros H. apply transform_and_filter_spec in H. destruct H as (outs & HF & ->).
  induction HF as [ | item o items outs Ho HF IH ]; simpl; [ constructor | ].
  destruct (transform_item_unfiltered _ _ Ho) as (r & ->).
  constructor; assumption.
Qed.

Lemma transform_item_min (m : float) (item : pyval) (r : TransferRecord) :
  is_nan m = false ->
  transform_item (Some m) item = ok (Some r) ->
  float_ge (amount_usdt r) m = true.
Proof.
  intros Hm H. destruct (transform_item_not_dict _ _ _ H) as (d & ->).
  destruct (transform_item_yield _ _ _ H)
    as (value & _ & _ & _ & _ & Ha & Hb & _).
  apply float_not_lt_ge; [ exact (int_truediv_not_nan _ _ _ Ha) | exact Hm | exact Hb ].
Qed.

(** *** Amounts and fees *)




(** ** The paging loop *)

Section FetcherFacts.

Variable w : world.
Variable a : fetch_args.

Lemma pages_requested_app (t1 t2 : list event) :
  pages_requested (t1 ++ t2) = (pages_requested t1 ++ pages_requested t2)%list.
Proof. unfold pages_requested. apply flat_map_app. Qed.

Lemma page_turn_received (page : Z) (resp : response) :
  page_response w a page = Some resp ->
  page_turn w a page = handle_response (page_size a) (min_value a) resp.
Proof.
  unfold page_response, page_turn.
  destruct (requests_get w _); [ discriminate | ].
  intros H. injection H as <-. reflexivity.
Qed.

Lemma page_turn_not_raise (page : Z) :
  (forall e, page_turn w a page <> PageRaise e) ->
  exists resp, page_response w a page = Some resp.
Proof.
  unfold page_response, page_turn.
  destruct (requests_get w _) as [ | resp ].
  - intros H. contradiction (H RequestException). reflexivity.
  - intros _. exists resp. reflexivity.
Qed.

(** The records a turn adds are the normalized raw items of its page. *)
Lemma turn_records_spec (page : Z) :
  (forall e, page_turn w a page <> PageRaise e) ->
  _transform_and_filter (page_items w a page) (min_value a)
  = ok (turn_records w a page).
Proof.
  intros H. destruct (page_turn_not_raise page H) as (resp & Hresp).
  unfold turn_records, page_items. rewrite Hresp.
  pose proof (page_turn_received page resp Hresp) as Ht.
  destruct (page_turn w a page) as [ e | f | f ] eqn:Hturn.
  - contradiction (H e). reflexivity.
  - symmetry in Ht. apply handle_response_break in Ht. apply Ht.
  - symmetry in Ht. apply handle_response_next in Ht. apply Ht.
Qed.

(** The trace is made of the turns of the pages requested; the records
    returned are those the turns added, in the order of the pages. *)
Lemma fetch_pages_spec (pages : list Z) (records : list TransferRecord) :
  let '(trace, r) := fetch_pages w a pages records in
  trace = flat_map (turn_events w a) (pages_requested trace) /\
  (exists n, pages_requested trace = firstn n pages) /\
  (forall rs, r = ok rs ->
     rs = (records ++ flat_map (turn_records w a) (pages_requested trace))%list /\
     forall page, In page (pages_requested trace) ->
                  forall e, page_turn w a page <> PageRaise e).
Proof.
  revert records. induction pages as [ | page rest IH ]; intros records; simpl.
  - split; [ reflexivity | split; [ exists O; reflexivity | ] ].
    intros rs H. injection H as <-. split; [ symmetry; apply app_nil_r | ].
    intros page [].
  - unfold turn_events, turn_records.
    destruct (page_turn w a page) as [ e | f | f ] eqn:Hturn; simpl.
    + rewrite Hturn. split; [ reflexivity | split; [ exists 1%nat; reflexivity | ] ].
      discriminate.
    + rewrite Hturn. split; [ reflexivity | split; [ exists 1%nat; reflexivity | ] ].
      intros rs H. injection H as <-. rewrite app_nil_r. split; [ reflexivity | ].
      intros p [ <- | [] ] e. rewrite Hturn. discriminate.
    + destruct (time_sleep w (sleep_secs a)) as [ | b ]; simpl.
      * specialize (IH (records ++ f)%list).
        destruct (fetch_pages w a rest (records ++ f)%list) as [trace r].
        destruct IH as (Htrace & (n & Hn) & Hrs). simpl. rewrite Hturn. simpl.
        split; [ f_equal; f_equal; exact Htrace | ].
        split; [ exists (S n); simpl; f_equal; exact Hn | ].
        intros rs Hr. destruct (Hrs rs Hr) as (-> & Hp).
        split; [ rewrite <- app_assoc; reflexivity | ].
        intros p [ <- | Hin ] e; [ rewrite Hturn; discriminate | apply Hp, Hin ].
      * rewrite Hturn. split; [ reflexivity | split; [ exists 1%nat; reflexivity | ] ].
        discriminate.
Qed.

(** While the pages go on, the loop only adds their turns. *)
Lemma fetch_pages_go_on (l1 l2 : list Z) (records : list TransferRecord) :
  time_sleep w (sleep_secs a) = Slept ->
  (forall p, In p l1 -> exists f, page_turn w a p = PageNext f) ->
  fetch_pages w a (l1 ++ l2) records =
  (let '(trace, r) :=
     fetch_pages w a l2 (records ++ flat_map (turn_records w a) l1)%list in
   (flat_map (fun p => [HttpGet (params a p); Sleep (sleep_secs a)]) l1 ++ trace, r))%list.
Proof.
  intros Hsleep. revert records.
  induction l1 as [ | p l1 IH ]; intros records Hnext; simpl.
  - rewrite app_nil_r. destruct (fetch_pages w a l2 records). reflexivity.
  - destruct (Hnext p (or_introl eq_refl)) as (f & Hf).
    unfold turn_records at 1. rewrite Hf, Hsleep.
    rewrite IH by (intros q Hq; apply Hnext; right; exact Hq).
    rewrite <- app_assoc.
    destruct (fetch_pages w a l2 _) as [trace r]. reflexivity.
Qed.

Lemma pages_requested_go_on (l : list Z) :
  pages_requested
    (flat_map (fun p => [HttpGet (params a p); Sleep (sleep_secs a)]) l) = l.
Proof.
  induction l as [ | p l IH ]; simpl; [ | rewrite IH ]; reflexivity.
Qed.

Lemma sleeps_go_on (l : list Z) :
  sleeps (flat_map (fun p => [HttpGet (params a p); Sleep (sleep_secs a)]) l)
  = List.length l.
Proof.
  unfold sleeps. induction l as [ | p l IH ]; simpl; [ | rewrite IH ]; reflexivity.
Qed.

Lemma page_turn_next (page : Z) :
  on_response w a (goes_on a) page = true <->
  exists f, page_turn w a page = PageNext f.
Proof.
  unfold on_response, page_response, page_turn, goes_on, handled.
  destruct (requests_get w (params a page)) as [ | resp ].
  - split; [ discriminate | intros (f & H); discriminate ].
  - split.
    + intros H. apply andb_true_iff in H. destruct H as (Hfull & Hh).
      destruct (handle_response _ _ resp) as [ e | f | f ] eqn:Heq.
      * discriminate.
      * apply handle_response_break in Heq. destruct Heq as (Hs & _).
        rewrite (stop_page_not_full _ _ Hs) in Hfull. discriminate.
      * exists f. reflexivity.
    + intros (f & H). rewrite H. apply handle_response_next in H.
      destruct H as (-> & _). reflexivity.
Qed.

Lemma page_turn_stop (page : Z) :
  on_response w a (handled (page_size a) (min_value a)) page = true ->
  on_response w a (stop_page (page_size a)) page = true ->
  exists f, page_turn w a page = PageBreak f.
Proof.
  unfold on_response, page_response, page_turn.
  destruct (requests_get w (params a page)) as [ | resp ]; [ discriminate | ].
  apply handled_stop.
Qed.

Lemma page_turn_no_stop (page : Z) :
  on_response w a (handled (page_size a) (min_value a)) page = true ->
  on_response w a (stop_page (page_size a)) page = false ->
  exists f, page_turn w a page = PageNext f.
Proof.
  unfold on_response, page_response, page_turn.
  destruct (requests_get w (params a page)) as [ | resp ]; [ discriminate | ].
  apply handled_no_stop.
Qed.

(** *** Failures *)






(** *** The records returned *)

Lemma fetched_records (trace : list event) (rs : list TransferRecord) :
  fetch_usdt_transfers w a = (trace, ok rs) ->
  rs = flat_map (turn_records w a) (pages_requested trace) /\
  forall page, In page (pages_requested trace) ->
    _transform_and_filter (page_items w a page) (min_value a)
    = ok (turn_records w a page).
Proof.
  intros H. unfold fetch_usdt_transfers in H.
  pose proof (fetch_pages_spec (page_range (max_pages a)) []) as S.
  rewrite H in S. destruct S as (_ & _ & S).
  destruct (S rs eq_refl) as (-> & Hp). split; [ reflexivity | ].
  intros page Hin. apply turn_records_spec, Hp, Hin.
Qed.

(** C3 (amended). When [min_value] is supplied and is a number (not NaN),
    every record in the list [fetch_usdt_transfers] returns has an amount
    [>= min_value]; when it is unset the value filter excludes nothing:
    the records returned are, one for one and in order, the normalized raw
    items of the pages requested. *)
Theorem fetched_records_respect_min_value (trace : list event)
    (rs : list TransferRecord) :
  fetch_usdt_transfers w a = (trace, ok rs) ->
  (forall m, min_value a = Some m -> is_nan m = false ->
     Forall (fun r => float_ge (amount_usdt r) m = true) rs)
  /\ (min_value a = None ->
      Forall2 (fun item r => transform_item None item = ok (Some r))
        (flat_map (page_items w a) (pages_requested trace)) rs).
Proof.
  intros H. destruct (fetched_records _ _ H) as (-> & Hpages). split.
  - intros m Hmin Hm. apply Forall_forall. intros r Hr.
    apply in_flat_map in Hr. destruct Hr as (page & Hpage & Hr).
    specialize (Hpages page Hpage). rewrite Hmin in Hpages.
    destruct (transform_and_filter_In _ _ _ _ Hpages Hr) as (item & _ & Hitem).
    exact (transform_item_min m item r Hm Hitem).
  - intros Hmin. rewrite Hmin in Hpages. revert Hpages.
    generalize (pages_requested trace). intros pages.
    induction pages as [ | page pages IH ]; intros Hpages; simpl.
    + constructor.
    + apply Forall2_app.
      * apply transform_and_filter_unfiltered, Hpages. left. reflexivity.
      * apply IH. intros p Hp. apply Hpages. right. exact Hp.
Qed.

(** *** Where the paging stops *)

(** C1 (amended). For every sequence of successful page responses (each
    handled without an exception, with a delay [time.sleep] accepts),
    [fetch_usdt_transfers] requests exactly the pages 1..k, where page k is
    the first of: (a) a page with a status that does not indicate success
    whose message equals "no records found" (any case, surrounding white
    space ignored), (b) a page whose result array is empty, (c) a page
    whose raw result array has strictly fewer items than [page_size], or
    (d) the [max_pages]-th page; nothing is requested after page k, and the
    records are returned. *)
Theorem paging_stops_at_first_stop (k : Z) :
  1 <= k <= max_pages a ->
  time_sleep w (sleep_secs a) = Slept ->
  (forall j, 1 <= j <= k ->
     on_response w a (handled (page_size a) (min_value a)) j = true) ->
  (forall j, 1 <= j < k -> on_response w a (stop_page (page_size a)) j = false) ->
  on_response w a (stop_page (page_size a)) k = true \/ k = max_pages a ->
  pages_requested (fst (fetch_usdt_transfers w a)) = page_range k /\
  exists rs, snd (fetch_usdt_transfers w a) = ok rs.
Proof.
  intros Hk Hsleep Hhandled Hbefore Hstop.
  unfold fetch_usdt_transfers.
  rewrite (page_range_split (max_pages a) k Hk).
  rewrite fetch_pages_go_on; [ | exact Hsleep | ].
  2:{ intros p Hp. apply page_range_In in Hp.
      apply page_turn_no_stop; [ apply Hhandled | apply Hbefore ]; lia. }
  rewrite (page_range_last k) by lia.
  destruct (on_response w a (stop_page (page_size a)) k) eqn:Hs.
  - destruct (page_turn_stop k (Hhandled k ltac:(lia)) Hs) as (f & Hf).
    simpl. rewrite Hf. simpl.
    rewrite pages_requested_app, pages_requested_go_on.
    split; [ reflexivity | eexists; reflexivity ].
  - destruct Hstop as [ Hstop | Hlast ]; [ discriminate | ].
    destruct (page_turn_no_stop k (Hhandled k ltac:(lia)) Hs) as (f & Hf).
    replace (max_pages a - k) with 0 by lia.
    simpl. rewrite Hf, Hsleep. simpl.
    rewrite pages_requested_app, pages_requested_go_on.
    split; [ reflexivity | eexists; reflexivity ].
Qed.

(** C5. A page whose status does not indicate success but whose message,
    lowercased and trimmed, equals "no records found" is not an error: the
    loop ends there and returns the records accumulated so far, without
    another request.  In particular, when page 1 is
    [{status: "0", message: "No records found"}] the fetcher issues exactly
    one HTTP call and returns the empty list. *)
Theorem no_records_ends_paging :
  (forall page rest records resp,
     requests_get w (params a page) = Received resp ->
     no_records_page resp = true ->
     fetch_pages w a (page :: rest) records
     = ([HttpGet (params a page)], ok records))
  /\ (forall resp,
        1 <= max_pages a ->
        requests_get w (params a 1) = Received resp ->
        status_code resp = 200 ->
        json resp = Some (PDict [("status", PStr "0");
                                 ("message", PStr "No records found")]) ->
        fetch_usdt_transfers w a = ([HttpGet (params a 1)], ok []) /\
        http_calls (fst (fetch_usdt_transfers w a)) = 1%nat).
Proof.
  assert (Hloop : forall page rest records resp,
             requests_get w (params a page) = Received resp ->
             no_records_page resp = true ->
             fetch_pages w a (page :: rest) records
             = ([HttpGet (params a page)], ok records)).
  { intros page rest records resp Hq Hnr.
    assert (Hturn : page_turn w a page = PageBreak []).
    { unfold page_turn. rewrite Hq.
      pose proof (handle_response_spec (page_size a) (min_value a) resp) as S.
      destruct (no_records_exclusive _ Hnr) as (Hem & _ & Hi).
      destruct S as [ Hk | d m Hk _ _ | e Hk Hs _ _ | e Hk _ | | Hk | f Hk _ | f Hk _ ];
        try reflexivity.
      - assert (Hf : fetch_failure resp = true)
          by (unfold fetch_failure; rewrite Hk; reflexivity).
        destruct (fetch_failure_exclusive _ Hf) as (H & _). congruence.
      - assert (Hf : fetch_failure resp = true)
          by (unfold fetch_failure; rewrite Hk; apply orb_true_r).
        destruct (fetch_failure_exclusive _ Hf) as (H & _). congruence.
      - unfold stop_page in Hs. rewrite Hnr in Hs. discriminate.
      - congruence.
      - unfold short_page in Hk. rewrite Hi in Hk. discriminate.
      - unfold full_page in Hk. rewrite Hi in Hk. discriminate. }
    simpl. rewrite Hturn, app_nil_r. reflexivity. }
  split; [ exact Hloop | ].
  intros resp Hmax Hq Hcode Hjson.
  assert (Hnr : no_records_page resp = true).
  { unfold no_records_page, envelope. rewrite Hcode, Hjson. reflexivity. }
  unfold fetch_usdt_transfers.
  rewrite (page_range_split (max_pages a) 1) by lia.
  change (page_range (1 - 1)) with (@nil Z). cbn [app].
  rewrite (Hloop 1 _ [] resp Hq Hnr). split; reflexivity.
Qed.

(** C6 (amended). With [page_size] 100 and [max_pages] at least 2: if page
    1 returns 100 items and page 2 returns 40 items, both with a success
    status, and every one of the 140 items passes the [min_value] filter (it
    is normalized to a record), then [fetch_usdt_transfers] issues exactly 2
    HTTP calls and returns the 140 records in the order the API returned the
    items: those of page 1, then those of page 2. *)
Theorem two_pages_scenario (resp1 resp2 : response)
    (recs1 recs2 : list TransferRecord) :
  page_size a = 100 -> 2 <= max_pages a ->
  time_sleep w (sleep_secs a) = Slept ->
  requests_get w (params a 1) = Received resp1 ->
  requests_get w (params a 2) = Received resp2 ->
  List.length (raw_items resp1) = 100%nat ->
  List.length (raw_items resp2) = 40%nat ->
  Forall2 (fun item r => transform_item (min_value a) item = ok (Some r))
    (raw_items resp1) recs1 ->
  Forall2 (fun item r => transform_item (min_value a) item = ok (Some r))
    (raw_items resp2) recs2 ->
  fetch_usdt_transfers w a =
    ([HttpGet (params a 1); Sleep (sleep_secs a); HttpGet (params a 2)],
     ok (recs1 ++ recs2)%list)
  /\ http_calls (fst (fetch_usdt_transfers w a)) = 2%nat
  /\ List.length (recs1 ++ recs2)%list = 140%nat.
Proof.
  intros Hsize Hmax Hsleep Hq1 Hq2 Hlen1 Hlen2 Hall1 Hall2.
  assert (Hitems : forall resp n, List.length (raw_items resp) = S n ->
                                  has_items resp = true).
  { intros resp n H. unfold has_items. destruct (raw_items resp); [ discriminate | reflexivity ]. }
  assert (Hturn1 : page_turn w a 1 = PageNext recs1).
  { unfold page_turn. rewrite Hq1.
    rewrite (handle_response_items _ _ _ (Hitems _ _ Hlen1)).
    rewrite (transform_and_filter_all _ _ _ Hall1).
    unfold raw_count. rewrite Hlen1, Hsize. reflexivity. }
  assert (Hturn2 : page_turn w a 2 = PageBreak recs2).
  { unfold page_turn. rewrite Hq2.
    rewrite (handle_response_items _ _ _ (Hitems _ _ Hlen2)).
    rewrite (transform_and_filter_all _ _ _ Hall2).
    unfold raw_count. rewrite Hlen2, Hsize. reflexivity. }
  assert (Hrun : fetch_usdt_transfers w a =
    ([HttpGet (params a 1); Sleep (sleep_secs a); HttpGet (params a 2)],
     ok (recs1 ++ recs2)%list)).
  { unfold fetch_usdt_transfers.
    rewrite (page_range_split (max_pages a) 2) by lia.
    change (page_range (2 - 1)) with [1]. cbn [app fetch_pages].
    rewrite Hturn1, Hsleep. cbn [fetch_pages]. rewrite Hturn2. reflexivity. }
  split; [ exact Hrun | ]. split; [ rewrite Hrun; reflexivity | ].
  rewrite length_app, <- (Forall2_length Hall1), <- (Forall2_length Hall2).
  rewrite Hlen1, Hlen2. reflexivity.
Qed.

(** *** When the loop sleeps *)

(** C8 (amended). [fetch_usdt_transfers] sleeps for [sleep_secs] after
    every full page it has handled, whether or not another page will be
    requested: each page requested leaves its HTTP call in the trace,
    followed by a sleep exactly when the page was full and raised nothing;
    so when all the allowed pages are full there is a sleep after each of
    them, the [max_pages]-th included. *)
Theorem sleep_after_every_full_page :
  fst (fetch_usdt_transfers w a) =
    flat_map (fun page => HttpGet (params a page) ::
                          if on_response w a (goes_on a) page
                          then [Sleep (sleep_secs a)] else [])
      (pages_requested (fst (fetch_usdt_transfers w a)))
  /\ (time_sleep w (sleep_secs a) = Slept ->
      (forall j, 1 <= j <= max_pages a -> on_response w a (goes_on a) j = true) ->
      fst (fetch_usdt_transfers w a) =
        flat_map (fun page => [HttpGet (params a page); Sleep (sleep_secs a)])
          (page_range (max_pages a)) /\
      sleeps (fst (fetch_usdt_transfers w a)) = Z.to_nat (max_pages a)).
Proof.
  split.
  - unfold fetch_usdt_transfers.
    pose proof (fetch_pages_spec (page_range (max_pages a)) []) as S.
    destruct (fetch_pages w a (page_range (max_pages a)) []) as [trace r].
    destruct S as (S & _). simpl. rewrite S at 1.
    apply flat_map_ext. intros page. unfold turn_events. f_equal.
    destruct (on_response w a (goes_on a) page) eqn:Hg.
    + apply page_turn_next in Hg. destruct Hg as (f & ->). reflexivity.
    + destruct (page_turn w a page) as [ e | f | f ] eqn:Ht; try reflexivity.
      assert (Hg' : on_response w a (goes_on a) page = true)
        by (apply page_turn_next; exists f; exact Ht).
      congruence.
  - intros Hsleep Hall. unfold fetch_usdt_transfers.
    pose proof (fetch_pages_go_on (page_range (max_pages a)) [] [] Hsleep) as G.
    rewrite app_nil_r in G. rewrite G.
    2:{ intros p Hp. apply page_turn_next, Hall, page_range_In, Hp. }
    simpl. rewrite app_nil_r. split; [ reflexivity | ].
    rewrite sleeps_go_on. unfold page_range. rewrite length_map, length_seq.
    reflexivity.
Qed.

End FetcherFacts.

(** ** The report exporter *)

Lemma union_keys_records (rs : list TransferRecord) :
  union_keys RECORD_KEYS (map record_dict rs) = RECORD_KEYS.
Proof.
  induction rs as [ | r rs IH ]; simpl; [ reflexivity | exact IH ].
Qed.

Lemma DataFrame_of_records (r : TransferRecord) (rs : list TransferRecord) :
  DataFrame_of_dicts (map record_dict (r :: rs)) =
  {| columns := RECORD_KEYS;
     rows := map (fun r => [from_ r; to_ r; PFloat (amount_usdt r); tx_hash r;
                            PStr (timestamp r); PFloat (fee_eth r)]) (r :: rs) |}.
Proof.
  unfold DataFrame_of_dicts.
  assert (Hk : union_keys [] (map record_dict (r :: rs)) = RECORD_KEYS)
    by (exact (union_keys_records rs)).
  rewrite Hk. f_equal. rewrite map_map. apply map_ext. intros x. reflexivity.
Qed.

Lemma display_frame_records (r : TransferRecord) (rs : list TransferRecord) :
  display_frame (r :: rs)
  = ok {| columns := COLUMN_ORDER; rows := map report_row (r :: rs) |}.
Proof.
  unfold display_frame. rewrite DataFrame_of_records.
  unfold rename, select. cbn [columns rows].
  change (indices COLUMN_ORDER (map (rename_label COLUMN_LABELS) RECORD_KEYS))
    with (ok [4; 0; 1; 2; 5; 3]%nat).
  unfold bind, ok. cbn beta iota. do 2 f_equal.
  rewrite map_map. reflexivity.
Qed.

Lemma export_records (excel_writer : list sheet -> result (list Byte.byte))
    (r : TransferRecord) (rs : list TransferRecord) :
  generate_excel_report excel_writer (r :: rs)
  = excel_writer [{| sheet_name := "USDT_Transfers"; header := COLUMN_ORDER;
                     body := map report_row (r :: rs) |}].
Proof.
  unfold generate_excel_report.
  change (select COLUMN_ORDER
            (rename COLUMN_LABELS (DataFrame_of_dicts (map record_dict (r :: rs)))))
    with (display_frame (r :: rs)).
  rewrite display_frame_records. reflexivity.
Qed.

(** C7 (amended). The exporter raises the empty-export error (the
    [ValueError] "No records to export.") on an empty record list, without
    calling the spreadsheet writer.  On a non-empty list it hands the
    writer a workbook of one sheet, whose columns are, in this fixed order,
    time, sender, receiver, amount, fee and transaction id, with one row
    per record, and returns what the writer returns: the byte buffer when
    the writer accepts the sheet, the writer's exception otherwise. *)
Theorem report_export (excel_writer : list sheet -> result (list Byte.byte)) :
  generate_excel_report excel_writer [] = raise (ValueError "No records to export.")
  /\ (forall r rs,
        generate_excel_report excel_writer (r :: rs) =
        excel_writer [{| sheet_name := "USDT_Transfers";
                         header := COLUMN_ORDER;
                         body := map report_row (r :: rs) |}])
  /\ (forall records excel_data,
        generate_excel_report excel_writer records = ok excel_data ->
        records <> [] /\
        excel_writer [{| sheet_name := "USDT_Transfers";
                         header := COLUMN_ORDER;
                         body := map report_row records |}] = ok excel_data)
  /\ map (rename_label COLUMN_LABELS)
        ["timestamp"; "from"; "to"; "amount_usdt"; "fee_eth"; "tx_hash"]
      = COLUMN_ORDER.
Proof.
  split; [ reflexivity | ]. split; [ exact (export_records excel_writer) | ].
  split; [ | reflexivity ].
  intros [ | r rs ] excel_data H; [ discriminate | ].
  rewrite export_records in H. split; [ discriminate | exact H ].
Qed.

Lemma report_export_witness :
  [sample_record] <> []
  /\ no_writer [{| sheet_name := "USDT_Transfers"; header := COLUMN_ORDER;
                   body := map report_row [sample_record] |}] = ok [].
Proof.
  apply (proj1 (proj2 (proj2 (report_export no_writer))) [sample_record] []).
  reflexivity.
Defined.

(** The list is not empty, and yet no byte buffer is produced: the
    writer refuses the control character in the sender's cell. *)
Lemma control_character_not_exported :
  [control_character_record] <> []
  /\ cell_accepted (from_ control_character_record) = false
  /\ generate_excel_report checking_writer [control_character_record]
     = raise IllegalCharacterError
  /\ generate_excel_report checking_writer [sample_record] = ok [].
Proof. repeat split; try reflexivity. discriminate. Qed.

(** ** The configuration resolver *)

(** *** Reading the store changes the environment *)





Lemma get_chain_id_raise (secrets_get : string -> result pyval)
    (getenv : string -> option string) (e : exn) :
  get_chain_id secrets_get getenv = raise e ->
  e = EtherscanError "ETHERSCAN_CHAIN_ID must be an integer." /\
  exists env_val, getenv CHAIN_ID_KEY = Some env_val /\
                  env_val <> "" /\ parse_int env_val = None.
Proof.
  unfold get_chain_id.
  destruct (chain_id_from_secrets secrets_get); [ discriminate | ].
  fold CHAIN_ID_KEY. destruct (getenv CHAIN_ID_KEY) as [ env_val | ];
    [ | discriminate ].
  simpl. destruct (String.eqb env_val "") eqn:Hempty; simpl; [ discriminate | ].
  destruct (parse_int env_val) eqn:Hparse; [ discriminate | ].
  intros H. injection H as <-. split; [ reflexivity | ].
  exists env_val. split; [ reflexivity | split; [ | exact Hparse ] ].
  intros ->. discriminate Hempty.
Qed.






(** * Sample runs *)

(** *** C1 *)

Lemma paging_stops_at_first_stop_witness :
  pages_requested (fst (fetch_usdt_transfers two_then_one (with_paging 2 5 None)))
  = page_range 2 /\
  exists rs, snd (fetch_usdt_transfers two_then_one (with_paging 2 5 None)) = ok rs.
Proof.
  apply (paging_stops_at_first_stop two_then_one (with_paging 2 5 None) 2).
  - simpl. lia.
  - reflexivity.
  - intros j Hj. assert (Hc : j = 1 \/ j = 2) by lia.
    destruct Hc as [ -> | -> ]; vm_compute; reflexivity.
  - intros j Hj. assert (Hc : j = 1) by lia. subst j. vm_compute. reflexivity.
  - left. vm_compute. reflexivity.
Defined.

(** Page 1 is handled without an exception and its message equals "no
    records found", yet page 2 is requested: the status of page 1 indicates
    success, so its message is never looked at. *)
Lemma success_status_message_ignored :
  requests_get odd_message_server (params (with_paging 1 2 None) 1)
  = Received odd_message_page
  /\ message_equals_no_records odd_message_page = true
  /\ handled 1 None odd_message_page = true
  /\ pages_requested
       (fst (fetch_usdt_transfers odd_message_server (with_paging 1 2 None)))
     = [1; 2].
Proof. vm_compute. repeat split; reflexivity. Qed.

(** *** C3 *)

Lemma fetched_records_respect_min_value_witness :
  Forall (fun r => float_ge (amount_usdt r) float_one = true) [sample_record].
Proof.
  assert (H : fetch_usdt_transfers mixed_page_server
                (with_paging 100 5 (Some float_one))
              = ([HttpGet (params (with_paging 100 5 (Some float_one)) 1)],
                 ok [sample_record]))
    by (vm_compute; reflexivity).
  apply (proj1 (fetched_records_respect_min_value _ _ _ _ H) float_one);
    reflexivity.
Defined.

(** With NaN as [min_value] nothing is below it, so every record is kept,
    and none of them is [>=] it. *)
Lemma nan_min_value_keeps_records :
  fetch_usdt_transfers mixed_page_server (with_paging 100 5 (Some S754_nan))
  = ([HttpGet (params (with_paging 100 5 (Some S754_nan)) 1)],
     ok [sample_record;
         {| from_ := PStr "0xcc"; to_ := PStr "0xdd";
            amount_usdt := S754_finite false 4503599627370496 (-53);
            tx_hash := PStr "0x02"; timestamp := "2023-11-14T22:13:32+00:00";
            fee_eth := S754_finite false 7747632510958012 (-64) |}])
  /\ float_ge (amount_usdt sample_record) S754_nan = false.
Proof. vm_compute. split; reflexivity. Qed.

(** *** C4 *)



(** *** C5 *)

Lemma no_records_ends_paging_witness :
  fetch_usdt_transfers no_records_server default_args
  = ([HttpGet (params default_args 1)], ok [])
  /\ http_calls (fst (fetch_usdt_transfers no_records_server default_args)) = 1%nat.
Proof.
  apply (proj2 (no_records_ends_paging no_records_server default_args)
               no_records_response).
  - simpl. unfold DEFAULT_MAX_PAGES. lia.
  - reflexivity.
  - reflexivity.
  - reflexivity.
Defined.

(** *** C6 *)

Lemma Forall2_repeat {A B} (R : A -> B -> Prop) (x : A) (y : B) (n : nat) :
  R x y -> Forall2 R (repeat x n) (repeat y n).
Proof.
  intros H. induction n as [ | n IH ]; simpl; constructor; assumption.
Qed.

Lemma two_pages_scenario_witness :
  fetch_usdt_transfers (hundred_then_forty sample_item) default_args =
    ([HttpGet (params default_args 1); Sleep (sleep_secs default_args);
      HttpGet (params default_args 2)],
     ok (repeat sample_record 100 ++ repeat sample_record 40)%list)
  /\ http_calls (fst (fetch_usdt_transfers (hundred_then_forty sample_item)
                        default_args)) = 2%nat
  /\ List.length (repeat sample_record 100 ++ repeat sample_record 40)%list
     = 140%nat.
Proof.
  apply (two_pages_scenario (hundred_then_forty sample_item) default_args
           (json_page "1" "OK" (repeat sample_item 100))
           (json_page "1" "OK" (repeat sample_item 40))).
  - reflexivity.
  - simpl. unfold DEFAULT_MAX_PAGES. lia.
  - reflexivity.
  - reflexivity.
  - reflexivity.
  - reflexivity.
  - reflexivity.
  - apply (Forall2_repeat _ sample_item sample_record 100). reflexivity.
  - apply (Forall2_repeat _ sample_item sample_record 40). reflexivity.
Defined.

(** Page 1 returns 100 items that all pass the filter [min_value = 1.0],
    page 2 returns 40 items with a success status, two HTTP calls are
    issued, and 100 records are returned: the items of page 2 are below
    [min_value]. *)
Lemma second_page_filtered_out :
  let w := hundred_then_forty small_item in
  let a := with_paging 100 5 (Some float_one) in
  requests_get w (params a 1) = Received (json_page "1" "OK" (repeat sample_item 100))
  /\ requests_get w (params a 2) = Received (json_page "1" "OK" (repeat small_item 40))
  /\ Forall2 (fun item r => transform_item (min_value a) item = ok (Some r))
       (repeat sample_item 100) (repeat sample_record 100)
  /\ status_ok (PStr "1") = true
  /\ fetch_usdt_transfers w a =
       ([HttpGet (params a 1); Sleep (sleep_secs a); HttpGet (params a 2)],
        ok (repeat sample_record 100))
  /\ List.length (repeat sample_record 100) = 100%nat.
Proof.
  cbv zeta. split; [ reflexivity | ]. split; [ reflexivity | ].
  split; [ apply Forall2_repeat; reflexivity | ]. split; [ reflexivity | ].
  split; [ vm_compute; reflexivity | reflexivity ].
Qed.

(** *** C8 *)

Lemma sleep_after_every_full_page_witness :
  fst (fetch_usdt_transfers always_full (with_paging 1 2 None)) =
    [HttpGet (params (with_paging 1 2 None) 1); Sleep float_0_2;
     HttpGet (params (with_paging 1 2 None) 2); Sleep float_0_2]
  /\ sleeps (fst (fetch_usdt_transfers always_full (with_paging 1 2 None))) = 2%nat.
Proof.
  apply (proj2 (sleep_after_every_full_page always_full (with_paging 1 2 None))).
  - reflexivity.
  - intros j Hj. simpl in Hj. assert (Hc : j = 1 \/ j = 2) by lia.
    destruct Hc as [ -> | -> ]; vm_compute; reflexivity.
Defined.

(** One page allowed, and it is full: the fetcher sleeps after it although
    no other page is requested. *)
Lemma sleep_after_last_page :
  max_pages (with_paging 1 1 None) = 1
  /\ fetch_usdt_transfers always_full (with_paging 1 1 None) =
       ([HttpGet (params (with_paging 1 1 None) 1); Sleep float_0_2],
        ok [sample_record])
  /\ sleeps (fst (fetch_usdt_transfers always_full (with_paging 1 1 None))) = 1%nat
  /\ http_calls (fst (fetch_usdt_transfers always_full (with_paging 1 1 None))) = 1%nat.
Proof. vm_compute. repeat split; reflexivity. Qed.

(** * The rest of the program *)

(** ** The configuration step *)

Lemma get_api_key_spec (secrets_get : string -> result pyval)
    (getenv : string -> option string) :
  get_api_key secrets_get getenv =
  match api_key_from_secrets secrets_get with
  | Some key => ok key
  | None =>
      match getenv API_KEY_NAME with
      | None | Some "" => raise (EtherscanError API_KEY_MISSING)
      | Some key => ok (PStr key)
      end
  end.
Proof.
  unfold get_api_key. destruct (api_key_from_secrets secrets_get); [ reflexivity | ].
  destruct (getenv API_KEY_NAME) as [ [ | c t ] | ]; reflexivity.
Qed.

Lemma get_api_key_raise (secrets_get : string -> result pyval)
    (getenv : string -> option string) (e : exn) :
  get_api_key secrets_get getenv = raise e -> e = EtherscanError API_KEY_MISSING.
Proof.
  rewrite get_api_key_spec. unfold api_key_from_secrets.
  destruct (secrets_get API_KEY_NAME) as [ e0 | key ];
    [ | destruct (truthy key); [ discriminate | ] ];
    (destruct (getenv API_KEY_NAME) as [ [ | c t ] | ]; try discriminate;
     intros H; injection H as <-; reflexivity).
Qed.





(** X3. The configuration step of the script lets no exception escape: it
    ends with the key and the chain id, or stops on one of the two
    configuration messages.  The key is looked up first, so a missing key
    is what is reported when the chain id is unusable too. *)
Theorem config_step_outcomes (secrets_get : string -> result pyval)
    (getenv : string -> option string) :
  (forall e, load_config secrets_get getenv <> ConfigUncaught e)
  /\ (forall message, load_config secrets_get getenv = ConfigStopped message ->
        message = API_KEY_MISSING \/
        message = "ETHERSCAN_CHAIN_ID must be an integer.")
  /\ (forall e, get_api_key secrets_get getenv = raise e ->
        load_config secrets_get getenv = ConfigStopped API_KEY_MISSING)
  /\ (forall key chain, load_config secrets_get getenv = ConfigLoaded key chain <->
        get_api_key secrets_get getenv = ok key /\
        get_chain_id secrets_get getenv = ok chain).
Proof.
  unfold load_config.
  pose proof (get_api_key_raise secrets_get getenv) as Hkey.
  destruct (get_api_key secrets_get getenv) as [ e | key ] eqn:Hk.
  - rewrite (Hkey e eq_refl). simpl.
    split; [ discriminate | ]. split; [ intros m H; injection H as <-; auto | ].
    split; [ reflexivity | ]. intros key chain. split; [ discriminate | ].
    intros (H & _). discriminate.
  - simpl. destruct (get_chain_id secrets_get getenv) as [ e | chain ] eqn:Hc.
    + rewrite (proj1 (get_chain_id_raise _ _ _ Hc)). simpl.
      split; [ discriminate | ]. split; [ intros m H; injection H as <-; auto | ].
      split; [ discriminate | ]. intros key' chain'. split; [ discriminate | ].
      intros (_ & H). discriminate.
    + simpl. split; [ discriminate | ]. split; [ discriminate | ].
      split; [ discriminate | ]. intros key' chain'. split.
      * intros H. injection H as <- <-. split; reflexivity.
      * intros (H1 & H2). injection H1 as <-. injection H2 as <-. reflexivity.
Qed.

Lemma config_step_outcomes_witness :
  load_config (st_secrets_get (sources None empty_environ))
    (os_getenv (sources None empty_environ))
  = ConfigStopped API_KEY_MISSING.
Proof.
  apply (proj1 (proj2 (proj2 (config_step_outcomes
           (st_secrets_get (sources None empty_environ))
           (os_getenv (sources None empty_environ)))))
         (EtherscanError API_KEY_MISSING)).
  reflexivity.
Defined.


(** ** More on the normalizer *)

Lemma transform_item_with_min (m : float) (item : pyval) (r : TransferRecord) :
  transform_item None item = ok (Some r) ->
  transform_item (Some m) item
  = ok (if float_lt (amount_usdt r) m then None else Some r).
Proof.
  intros H. destruct (transform_item_not_dict _ _ _ H) as (d & ->).
  destruct (transform_item_yield _ _ _ H)
    as (value & gp & gu & ts & Hv & Ha & _ & Hgp & Hgu & Hfee & Hts & Hiso & Hf & Ht & Hh).
  rewrite transform_item_dict. rewrite Hv. unfold ok, bind. cbn beta iota.
  unfold ok in Ha. rewrite Ha. cbn beta iota. unfold below_min.
  destruct (float_lt (amount_usdt r) m); [ reflexivity | ].
  unfold ok in Hgp, Hgu, Hfee, Hts, Hiso.
  rewrite Hgp, Hgu. cbn beta iota. rewrite Hfee, Hts. cbn beta iota.
  rewrite Hiso. rewrite <- Hf, <- Ht, <- Hh. destruct r; reflexivity.
Qed.

(** X4. Filtering commutes with normalizing: when a page normalizes without
    a filter, it normalizes with any [min_value], to the same records, in
    the same order, less those whose amount is below [min_value].  (The
    filter can only remove records; it never alters or reorders them.) *)
Theorem filter_after_normalize (items : list pyval) (all : list TransferRecord)
    (m : float) :
  _transform_and_filter items None = ok all ->
  _transform_and_filter items (Some m)
  = ok (filter (fun r => negb (float_lt (amount_usdt r) m)) all).
Proof.
  intros H. apply transform_and_filter_unfiltered in H.
  induction H as [ | item r items all Hitem _ IH ]; [ reflexivity | ].
  simpl. rewrite (transform_item_with_min m item r Hitem).
  unfold ok, bind in *. cbn beta iota. rewrite IH. cbn beta iota.
  destruct (float_lt (amount_usdt r) m); reflexivity.
Qed.

Lemma filter_after_normalize_witness :
  _transform_and_filter [sample_item; small_item] (Some float_one)
  = ok (filter (fun r => negb (float_lt (amount_usdt r) float_one))
          [sample_record;
           {| from_ := PStr "0xcc"; to_ := PStr "0xdd";
              amount_usdt := S754_finite false 4503599627370496 (-53);
              tx_hash := PStr "0x02"; timestamp := "2023-11-14T22:13:32+00:00";
              fee_eth := S754_finite false 7747632510958012 (-64) |}]).
Proof.
  apply filter_after_normalize. vm_compute. reflexivity.
Defined.

(** X5. An item below [min_value] is skipped before its gas and time
    fields are read: a page whose items all have a [value] that converts
    to an amount below [min_value] normalizes to no record, whatever else
    the items hold, malformed fields included. *)
Theorem skipped_items_not_validated (m : float) (items : list pyval) :
  Forall (fun item => exists d value amount,
            item = PDict d /\
            py_int (dict_get d "value" (PStr "0")) = ok value /\
            int_truediv value (10 ^ USDT_DECIMALS) = ok amount /\
            float_lt amount m = true) items ->
  _transform_and_filter items (Some m) = ok [].
Proof.
  intros H. induction H as [ | item items (d & value & amount & -> & Hv & Ha & Hlt) _ IH ];
    [ reflexivity | ].
  cbn [_transform_and_filter]. rewrite IH.
  rewrite transform_item_dict. rewrite Hv. unfold ok, bind in *. cbn beta iota.
  change (10 ^ USDT_DECIMALS) with 1000000 in Ha. rewrite Ha. cbn beta iota.
  unfold below_min. rewrite Hlt. reflexivity.
Qed.

Lemma skipped_items_not_validated_witness :
  _transform_and_filter [broken_small_item; small_item] (Some float_one) = ok []
  /\ transform_item None broken_small_item
     = raise (ValueError "invalid literal for int() with base 10").
Proof.
  split; [ | reflexivity ].
  apply skipped_items_not_validated.
  repeat constructor.
  - exists [("value", PStr "500000"); ("gasPrice", PStr "n/a"); ("timeStamp", PNone)],
      500000, (S754_finite false 4503599627370496 (-53)).
    repeat split; vm_compute; reflexivity.
  - eexists _, 500000, (S754_finite false 4503599627370496 (-53)).
    repeat split; vm_compute; reflexivity.
Defined.

(** *** Signs *)

Lemma binary_round_aux_sign (s : bool) (m e : Z) (l : location) :
  0 <= m -> sign_is s (binary_round_aux prec emax s m e l).
Proof.
  intros H. unfold binary_round_aux.
  pose proof (shr_fexp_nonneg m e l H) as H1.
  destruct (shr_fexp prec emax m e l) as [mrs' e']. simpl in H1.
  pose proof (shr_fexp_nonneg _ e' loc_Exact
                (round_nearest_even_nonneg _ (loc_of_shr_record mrs') H1)) as H2.
  destruct (shr_fexp prec emax _ e' loc_Exact) as [mrs'' e'']. simpl in H2.
  destruct (shr_m mrs'') as [ | p | p ]; [ reflexivity | | lia ].
  destruct (e'' <=? emax - prec); reflexivity.
Qed.

Lemma SFdiv_finite_sign (sx sy : bool) (mx my : positive) (ex ey : Z) :
  sign_is (xorb sx sy)
    (SFdiv prec emax (S754_finite sx mx ex) (S754_finite sy my ey)).
Proof.
  unfold SFdiv, SFdiv_core_binary.
  set (m' := match _ - _ - _ with Z0 => _ | Zpos _ => _ | Zneg _ => _ end).
  assert (Hm : 0 <= m').
  { subst m'. destruct (_ - _ - _); try lia. apply Z.shiftl_nonneg. lia. }
  pose proof (Z.div_pos m' (Zpos my) Hm ltac:(lia)) as Hq.
  unfold Z.div in Hq. destruct (Z.div_eucl m' (Zpos my)) as [q r].
  apply binary_round_aux_sign. exact Hq.
Qed.

(** The quotient by a positive int has the sign of the dividend. *)
Lemma int_truediv_sign (a b : Z) (q : float) :
  0 < b -> int_truediv a b = ok q -> sign_is (a <? 0) q.
Proof.
  intros Hb H. unfold int_truediv in H.
  destruct b as [ | pb | pb ]; try lia.
  destruct a as [ | pa | pa ]; [ injection H as <-; simpl; reflexivity | | ];
    match type of H with
    | context [SFdiv prec emax (S754_finite ?sx ?mx 0) (S754_finite ?sy ?my 0)] =>
        pose proof (SFdiv_finite_sign sx sy mx my 0 0) as Hs;
        destruct (SFdiv prec emax (S754_finite sx mx 0) (S754_finite sy my 0))
    end; try discriminate; injection H as <-; exact Hs.
Qed.

Lemma sign_is_nonneg (x : float) :
  sign_is false x -> float_ge x float_zero = true /\ float_lt x float_zero = false.
Proof.
  destruct x as [ s | s | | s m e ]; simpl; try contradiction; intros ->;
    split; reflexivity.
Qed.

Lemma sign_is_nonpos (x : float) :
  sign_is true x -> float_ge float_zero x = true /\ float_lt float_zero x = false.
Proof.
  destruct x as [ s | s | | s m e ]; simpl; try contradiction; intros ->;
    split; reflexivity.
Qed.

(** X6. The normalizer does not reject negative numbers, and the amount
    and the fee of a record have the sign of the integers they come from:
    they are [>= 0] when the raw value (the product of the gas fields) is
    not negative, and [<= 0] when it is not positive. *)
Theorem amounts_follow_sign (min_value : option float) (d : dict)
    (r : TransferRecord) (value gas_price gas_used : Z) :
  transform_item min_value (PDict d) = ok (Some r) ->
  py_int (dict_get d "value" (PStr "0")) = ok value ->
  py_int (dict_get d "gasPrice" (PStr "0")) = ok gas_price ->
  py_int (dict_get d "gasUsed" (PStr "0")) = ok gas_used ->
  (0 <= value -> float_ge (amount_usdt r) float_zero = true)
  /\ (value <= 0 -> float_ge float_zero (amount_usdt r) = true)
  /\ (0 <= gas_price * gas_used -> float_ge (fee_eth r) float_zero = true)
  /\ (gas_price * gas_used <= 0 -> float_ge float_zero (fee_eth r) = true).
Proof.
  intros H Hv Hgp Hgu.
  destruct (transform_item_yield _ _ _ H)
    as (value' & gp' & gu' & ts & Hv' & Ha & _ & Hgp' & Hgu' & Hfee & _).
  rewrite Hv in Hv'. injection Hv' as <-.
  rewrite Hgp in Hgp'. injection Hgp' as <-.
  rewrite Hgu in Hgu'. injection Hgu' as <-.
  pose proof (int_truediv_sign _ 1000000 _ ltac:(lia) Ha) as Sa.
  pose proof (int_truediv_sign _ 1000000000000000000 _ ltac:(lia) Hfee) as Sf.
  assert (Hzero : forall a q, int_truediv a 1000000 = ok q \/
                              int_truediv a 1000000000000000000 = ok q ->
                              a = 0 -> q = S754_zero false).
  { intros a q [ Hq | Hq ] ->; injection Hq as <-; reflexivity. }
  repeat split; intros Hs.
  - destruct (Z.ltb_spec value 0); [ lia | ]. apply sign_is_nonneg, Sa.
  - destruct (Z.ltb_spec value 0).
    + apply sign_is_nonpos, Sa.
    + assert (value = 0) by lia. rewrite (Hzero _ _ (or_introl Ha) H1). reflexivity.
  - destruct (Z.ltb_spec (gas_price * gas_used) 0); [ lia | ].
    apply sign_is_nonneg, Sf.
  - destruct (Z.ltb_spec (gas_price * gas_used) 0).
    + apply sign_is_nonpos, Sf.
    + assert (gas_price * gas_used = 0) by lia.
      rewrite (Hzero _ _ (or_intror Hfee) H1). reflexivity.
Qed.

Lemma amounts_follow_sign_witness :
  float_ge float_zero (S754_finite true 6755399441055744 (-52)) = true
  /\ float_ge (S754_finite false 7747632510958012 (-64)) float_zero = true.
Proof.
  destruct (amounts_follow_sign None refund_item
              {| from_ := PNone; to_ := PNone;
                 amount_usdt := S754_finite true 6755399441055744 (-52);
                 tx_hash := PNone; timestamp := "2023-11-14T22:13:20+00:00";
                 fee_eth := S754_finite false 7747632510958012 (-64) |}
              (-1500000) 20000000000 21000)
    as (_ & Hneg & Hfee & _); try (vm_compute; reflexivity).
  split; [ apply Hneg | apply Hfee ]; lia.
Defined.

(** *** The shape of a time stamp *)

Lemma length_append (s t : string) :
  String.length (s ++ t) = (String.length s + String.length t)%nat.
Proof. induction s as [ | c s IH ]; simpl; [ | rewrite IH ]; reflexivity. Qed.

Lemma all_digits_append (s t : string) :
  all_digits s = true -> all_digits t = true -> all_digits (s ++ t) = true.
Proof.
  intros Hs Ht. induction s as [ | c s IH ]; simpl in *; [ exact Ht | ].
  destruct (digit_val c); [ apply IH, Hs | discriminate ].
Qed.

Lemma digit_char_digit (d : Z) : exists v, digit_val (digit_char d) = Some v.
Proof.
  unfold digit_char. pose proof (Z.mod_pos_bound d 10 ltac:(lia)) as Hb.
  assert (Hc : d mod 10 = 0 \/ d mod 10 = 1 \/ d mod 10 = 2 \/ d mod 10 = 3 \/
               d mod 10 = 4 \/ d mod 10 = 5 \/ d mod 10 = 6 \/ d mod 10 = 7 \/
               d mod 10 = 8 \/ d mod 10 = 9) by lia.
  repeat (destruct Hc as [ -> | Hc ]; [ eexists; reflexivity | ]).
  rewrite Hc. eexists; reflexivity.
Qed.

Lemma zfill_shape (width : nat) (n : Z) :
  String.length (zfill width n) = width /\ all_digits (zfill width n) = true.
Proof.
  revert n. induction width as [ | w IH ]; intros n; simpl; [ split; reflexivity | ].
  destruct (IH (n / 10)) as (Hl & Hd). split.
  - rewrite length_append, Hl. simpl. lia.
  - apply all_digits_append; [ exact Hd | ]. simpl.
    destruct (digit_char_digit n) as (v & ->). reflexivity.
Qed.

(** X7. The time stamp of every record has one fixed shape,
    [YYYY-MM-DDTHH:MM:SS+00:00]: four, two and two digits for the date, two,
    two and two for the time, the UTC offset at the end, 25 characters in
    all. *)
Theorem timestamp_shape (min_value : option float) (item : pyval)
    (r : TransferRecord) :
  transform_item min_value item = ok (Some r) ->
  String.length (timestamp r) = 25%nat /\
  exists year month day hour minute second,
    timestamp r = year ++ "-" ++ month ++ "-" ++ day ++ "T"
                  ++ hour ++ ":" ++ minute ++ ":" ++ second ++ "+00:00" /\
    String.length year = 4%nat /\ all_digits year = true /\
    Forall (fun part => String.length part = 2%nat /\ all_digits part = true)
      [month; day; hour; minute; second].
Proof.
  intros H. destruct (transform_item_not_dict _ _ _ H) as (d & ->).
  destruct (transform_item_yield _ _ _ H)
    as (value & gp & gu & ts & _ & _ & _ & _ & _ & _ & _ & Hiso & _).
  unfold utc_isoformat in Hiso.
  destruct (fromtimestamp_error ts); [ discriminate | ].
  destruct (ord2ymd (ts / 86400 + EPOCH_ORDINAL)) as [[y m] dd].
  injection Hiso as Hiso. rewrite <- Hiso.
  pose proof (zfill_shape 4 y) as (Hy & Hyd).
  pose proof (fun n => zfill_shape 2 n) as H2.
  split; [ reflexivity | ].
  exists (zfill 4 y), (zfill 2 m), (zfill 2 dd), (zfill 2 (ts mod 86400 / 3600)),
    (zfill 2 (ts mod 86400 / 60 mod 60)), (zfill 2 (ts mod 86400 mod 60)).
  split; [ reflexivity | ].
  split; [ exact Hy | split; [ exact Hyd | ] ].
  repeat constructor; apply H2.
Qed.

Lemma timestamp_shape_witness :
  String.length (timestamp sample_record) = 25%nat /\
  exists year month day hour minute second,
    timestamp sample_record = year ++ "-" ++ month ++ "-" ++ day ++ "T"
                  ++ hour ++ ":" ++ minute ++ ":" ++ second ++ "+00:00" /\
    String.length year = 4%nat /\ all_digits year = true /\
    Forall (fun part => String.length part = 2%nat /\ all_digits part = true)
      [month; day; hour; minute; second].
Proof.
  apply (timestamp_shape None sample_item sample_record).
  vm_compute. reflexivity.
Defined.

(** *** The first item that fails *)

(** X8. The normalizer yields nothing from a page with an item it cannot
    normalize: it raises what the first such item raises, the items before
    it having been normalized or skipped, and those after it not having
    been looked at. *)
Theorem normalizer_first_failure (min_value : option float)
    (items : list pyval) (e : exn) :
  _transform_and_filter items min_value = raise e <->
  exists before item after outs,
    items = (before ++ item :: after)%list /\
    Forall2 (fun item o => transform_item min_value item = ok o) before outs /\
    transform_item min_value item = raise e.
Proof.
  split.
  - induction items as [ | item items IH ]; simpl; [ discriminate | ].
    intros H. apply bind_raise in H. destruct H as [ H | (o & Ho & H) ].
    + exists [], item, items, []. split; [ reflexivity | split; [ constructor | exact H ] ].
    + apply bind_raise in H. destruct H as [ H | (rs & _ & H) ]; [ | discriminate ].
      destruct (IH H) as (before & it & after & outs & -> & HF & Hit).
      exists (item :: before), it, after, (o :: outs).
      split; [ reflexivity | split; [ constructor; assumption | exact Hit ] ].
  - intros (before & item & after & outs & -> & HF & Hit).
    induction HF as [ | x o before outs Hx _ IH ]; simpl.
    + rewrite Hit. reflexivity.
    + rewrite Hx. unfold ok, bind in *. cbn beta iota. rewrite IH. reflexivity.
Qed.

Lemma normalizer_first_failure_witness :
  _transform_and_filter [sample_item; broken_small_item; PStr "never read"] None
  = raise (ValueError "invalid literal for int() with base 10").
Proof.
  apply normalizer_first_failure.
  exists [sample_item], broken_small_item, [PStr "never read"], [Some sample_record].
  split; [ reflexivity | split; [ | reflexivity ] ].
  constructor; [ vm_compute; reflexivity | constructor ].
Defined.

(** ** More on one turn of the loop *)

Lemma no_records_turn (page_size : Z) (min_value : option float)
    (resp : response) :
  no_records_page resp = true ->
  handle_response page_size min_value resp = PageBreak [].
Proof.
  intros Hnr.
  destruct (handled_stop page_size min_value resp) as (f & Hf).
  - unfold handled.
    pose proof (handle_response_spec page_size min_value resp) as S.
    destruct (no_records_exclusive _ Hnr) as (_ & _ & Hi).
    destruct S as [ Hk | d m Hk _ _ | e _ Hs _ _ | e Hk _ | | | f _ _ | f _ _ ];
      try reflexivity.
    + assert (Hf : fetch_failure resp = true)
        by (unfold fetch_failure; rewrite Hk; reflexivity).
      destruct (fetch_failure_exclusive _ Hf) as (H & _). congruence.
    + assert (Hf : fetch_failure resp = true)
        by (unfold fetch_failure; rewrite Hk; apply orb_true_r).
      destruct (fetch_failure_exclusive _ Hf) as (H & _). congruence.
    + unfold stop_page in Hs. rewrite Hnr in Hs. discriminate.
    + congruence.
  - unfold stop_page. rewrite Hnr. reflexivity.
  - rewrite Hf. apply handle_response_break in Hf. destruct Hf as (_ & Hf).
    destruct (no_records_exclusive _ Hnr) as (_ & Hraw & _).
    rewrite Hraw in Hf. injection Hf as <-. reflexivity.
Qed.

Lemma empty_turn (page_size : Z) (min_value : option float) (resp : response) :
  empty_page resp = true ->
  handle_response page_size min_value resp = PageBreak [].
Proof.
  intros He.
  destruct (empty_exclusive _ He) as (Hraw & Hi).
  destruct (handled_stop page_size min_value resp) as (f & Hf).
  - unfold handled.
    pose proof (handle_response_spec page_size min_value resp) as S.
    destruct S as [ Hk | d m Hk _ _ | e _ Hs _ _ | e Hk _ | | | f _ _ | f _ _ ];
      try reflexivity.
    + assert (Hf : fetch_failure resp = true)
        by (unfold fetch_failure; rewrite Hk; reflexivity).
      destruct (fetch_failure_exclusive _ Hf) as (_ & H & _). congruence.
    + assert (Hf : fetch_failure resp = true)
        by (unfold fetch_failure; rewrite Hk; apply orb_true_r).
      destruct (fetch_failure_exclusive _ Hf) as (_ & H & _). congruence.
    + unfold stop_page in Hs. rewrite He, orb_true_r in Hs. discriminate.
    + congruence.
  - unfold stop_page. rewrite He, orb_true_r. reflexivity.
  - rewrite Hf. apply handle_response_break in Hf. destruct Hf as (_ & Hf).
    rewrite Hraw in Hf. injection Hf as <-. reflexivity.
Qed.

Lemma lower_nonempty (m : string) : lower m <> "" -> m <> "".
Proof. intros H ->. apply H. reflexivity. Qed.

(** X9. The end-of-data message is recognised whatever its case and
    whatever white space surrounds it: an envelope with a status that does
    not indicate success, whose message is "no records found" in any mix of
    upper and lower case between two runs of white space, ends the paging
    without an error. *)
Theorem no_records_message_variants (page_size : Z) (min_value : option float)
    (resp : response) (d : dict) (pre m suf : string) :
  envelope resp = Some d ->
  failed_status d = true ->
  dict_get d "message" PNone = PStr (pre ++ m ++ suf) ->
  blank pre = true -> blank suf = true ->
  lower m = "no records found" ->
  handle_response page_size min_value resp = PageBreak [].
Proof.
  intros Henv Hst Hmsg Hpre Hsuf Hm.
  apply no_records_turn. unfold no_records_page, message_text.
  rewrite Henv, Hst, Hmsg. simpl.
  assert (Hne : (pre ++ m ++ suf =? "")%string = false).
  { apply String.eqb_neq. intros Habs.
    assert (Hlen : String.length (pre ++ m ++ suf) = O) by (rewrite Habs; reflexivity).
    rewrite !length_append in Hlen.
    assert (Hm0 : String.length m = O) by lia.
    destruct m; [ discriminate Hm | discriminate Hm0 ]. }
  unfold py_or. simpl. rewrite Hne. simpl.
  rewrite says_no_records_surrounded by assumption.
  unfold says_no_records. rewrite Hm. reflexivity.
Qed.

Lemma no_records_message_variants_witness :
  handle_response 100 None shouted_no_records = PageBreak [].
Proof.
  apply (no_records_message_variants 100 None shouted_no_records
           [("status", PStr "0"); ("message", PStr "  NO Records FOUND ")]
           "  " "NO Records FOUND" " "); reflexivity.
Defined.

(** ** More on the paging loop *)

Lemma firstn_seq (n start len : nat) :
  firstn n (seq start len) = seq start (Nat.min n len).
Proof.
  revert start len. induction n as [ | n IH ]; intros start len; [ reflexivity | ].
  destruct len as [ | len ]; [ reflexivity | ]. simpl. rewrite IH. reflexivity.
Qed.

Lemma In_firstn {A} (n : nat) (l : list A) (x : A) :
  In x (firstn n l) -> In x l.
Proof.
  revert l. induction n as [ | n IH ]; intros l; destruct l as [ | y l ];
    simpl; try contradiction.
  intros [ H | H ]; [ left; exact H | right; apply IH, H ].
Qed.

Lemma kept_app (o1 o2 : list (option TransferRecord)) :
  kept (o1 ++ o2) = (kept o1 ++ kept o2)%list.
Proof.
  induction o1 as [ | [ r | ] o1 IH ]; simpl; [ | rewrite IH | ]; auto.
Qed.

Lemma kept_length (outs : list (option TransferRecord)) :
  (List.length (kept outs) <= List.length outs)%nat.
Proof.
  induction outs as [ | [ r | ] outs IH ]; simpl; lia.
Qed.

Lemma paced_counts (delay : float) (trace : list event) :
  paced delay trace ->
  (sleeps trace <= http_calls trace <= S (sleeps trace))%nat /\
  (trace <> [] -> exists q rest, trace = HttpGet q :: rest).
Proof.
  unfold sleeps, http_calls, pages_requested.
  induction 1 as [ | q | q | q trace _ IH Hne ]; simpl.
  - split; [ lia | intros H; contradiction H; reflexivity ].
  - split; [ lia | intros _; eexists _, _; reflexivity ].
  - split; [ lia | intros _; eexists _, _; reflexivity ].
  - destruct IH as (IH & _). split; [ lia | intros _; eexists _, _; reflexivity ].
Qed.

Lemma paced_call_after_sleep (delay : float) (trace : list event) :
  paced delay trace ->
  forall before q after, trace = (before ++ HttpGet q :: after)%list ->
    before = [] \/ exists earlier, before = (earlier ++ [Sleep delay])%list.
Proof.
  induction 1 as [ | q0 | q0 | q0 trace Hp IH Hne ]; intros before q after Heq.
  - destruct before; discriminate.
  - destruct before as [ | ev before ]; [ left; reflexivity | ].
    injection Heq as _ Heq. destruct before; discriminate.
  - destruct before as [ | ev before ]; [ left; reflexivity | ].
    injection Heq as _ Heq. destruct before as [ | ev' before ]; [ discriminate | ].
    injection Heq as _ Heq. destruct before; discriminate.
  - destruct before as [ | ev before ]; [ left; reflexivity | ].
    injection Heq as <- Heq. destruct before as [ | ev' before ]; [ discriminate | ].
    injection Heq as <- Heq. right.
    destruct (IH before q after Heq) as [ -> | (earlier & ->) ].
    + exists [HttpGet q0]. reflexivity.
    + exists (HttpGet q0 :: Sleep delay :: earlier). reflexivity.
Qed.

Section MoreFetcherFacts.

Variable w : world.
Variable a : fetch_args.

Lemma fetch_pages_paced (pages : list Z) (records : list TransferRecord) :
  paced (sleep_secs a) (fst (fetch_pages w a pages records)).
Proof.
  revert records. induction pages as [ | page rest IH ]; intros records; simpl.
  - constructor.
  - destruct (page_turn w a page) as [ e | f | f ]; simpl; try constructor.
    destruct (time_sleep w (sleep_secs a)); simpl; [ | constructor ].
    specialize (IH (records ++ f)%list).
    destruct (fetch_pages w a rest (records ++ f)%list) as [trace r]. simpl in *.
    destruct trace as [ | ev trace ]; [ constructor | ].
    apply paced_next; [ exact IH | discriminate ].
Qed.

(** X10. The fetcher paces its requests: in every run, each HTTP call but
    the first comes directly after a sleep of [sleep_secs], and there is
    never more than one sleep between two calls; so the calls outnumber the
    sleeps by one at most. *)
Theorem requests_are_paced :
  (forall before q after,
     fst (fetch_usdt_transfers w a) = (before ++ HttpGet q :: after)%list ->
     before = [] \/
     exists earlier, before = (earlier ++ [Sleep (sleep_secs a)])%list)
  /\ (forall before s after,
        fst (fetch_usdt_transfers w a) = (before ++ Sleep s :: after)%list ->
        s = sleep_secs a /\
        exists earlier q, before = (earlier ++ [HttpGet q])%list)
  /\ (sleeps (fst (fetch_usdt_transfers w a))
      <= http_calls (fst (fetch_usdt_transfers w a))
      <= S (sleeps (fst (fetch_usdt_transfers w a))))%nat.
Proof.
  pose proof (fetch_pages_paced (page_range (max_pages a)) []) as P.
  fold (fetch_usdt_transfers w a) in P.
  split; [ exact (paced_call_after_sleep _ _ P) | ].
  split; [ | exact (proj1 (paced_counts _ _ P)) ].
  induction P as [ | q0 | q0 | q0 trace Hp IH Hne ]; intros before s after Heq.
  - destruct before; discriminate.
  - destruct before as [ | ev before ]; [ discriminate | ].
    injection Heq as _ Heq. destruct before; discriminate.
  - destruct before as [ | ev before ]; [ discriminate | ].
    injection Heq as <- Heq. destruct before as [ | ev' before ].
    + injection Heq as <- _. split; [ reflexivity | exists [], q0; reflexivity ].
    + injection Heq as _ Heq. destruct before; discriminate.
  - destruct before as [ | ev before ]; [ discriminate | ].
    injection Heq as <- Heq. destruct before as [ | ev' before ].
    + injection Heq as <- _. split; [ reflexivity | exists [], q0; reflexivity ].
    + injection Heq as <- Heq.
      destruct (IH before s after Heq) as (-> & earlier & q & ->).
      split; [ reflexivity | ].
      exists (HttpGet q0 :: Sleep (sleep_secs a) :: earlier), q. reflexivity.
Qed.

(** X11. The pages requested are 1, 2, ..., n, each once and in this
    order, for an n that does not exceed [max_pages]; with [max_pages] zero
    or negative nothing is requested and the empty list is returned. *)
Theorem pages_are_consecutive :
  (exists n, (n <= Z.to_nat (max_pages a))%nat /\
     pages_requested (fst (fetch_usdt_transfers w a)) = map Z.of_nat (seq 1 n) /\
     http_calls (fst (fetch_usdt_transfers w a)) = n)
  /\ NoDup (pages_requested (fst (fetch_usdt_transfers w a)))
  /\ (max_pages a <= 0 -> fetch_usdt_transfers w a = ([], ok [])).
Proof.
  assert (H : exists n, (n <= Z.to_nat (max_pages a))%nat /\
     pages_requested (fst (fetch_usdt_transfers w a)) = map Z.of_nat (seq 1 n)).
  { unfold fetch_usdt_transfers.
    pose proof (fetch_pages_spec w a (page_range (max_pages a)) []) as S.
    destruct (fetch_pages w a (page_range (max_pages a)) []) as [trace r].
    destruct S as (_ & (n & Hn) & _). simpl.
    exists (Nat.min n (Z.to_nat (max_pages a))). split; [ lia | ].
    rewrite Hn. unfold page_range. rewrite firstn_map, firstn_seq. reflexivity. }
  destruct H as (n & Hle & Hn). split; [ | split ].
  - exists n. split; [ exact Hle | split; [ exact Hn | ] ].
    unfold http_calls. rewrite Hn, length_map, length_seq. reflexivity.
  - rewrite Hn. generalize (seq_NoDup n 1). generalize (seq 1 n). intros l Hl.
    induction Hl as [ | x l Hx _ IH ]; simpl; constructor; [ | exact IH ].
    intros Hin. apply in_map_iff in Hin. destruct Hin as (y & Hy & Hin).
    apply Nat2Z.inj in Hy. subst y. exact (Hx Hin).
  - intros Hmax. unfold fetch_usdt_transfers, page_range.
    replace (Z.to_nat (max_pages a)) with O by lia. reflexivity.
Qed.


(** X12. Every request carries the same query but for the page number:
    the [account]/[tokentx] action on the USDT contract, the caller's chain
    id, block range, sort order and API key, and [page_size] as [offset];
    its page number lies between 1 and [max_pages]. *)
Theorem every_request (q : request) :
  In (HttpGet q) (fst (fetch_usdt_transfers w a)) ->
  q = {| q_module := "account"; q_action := "tokentx";
         q_contractaddress := "0xdac17f958d2ee523a2206206994597c13d831ec7";
         q_chainid := chain_id a; q_page := q_page q; q_offset := page_size a;
         q_startblock := start_block a; q_endblock := end_block a;
         q_sort := sort a; q_apikey := api_key a |}
  /\ 1 <= q_page q <= max_pages a.
Proof.
  unfold fetch_usdt_transfers.
  pose proof (fetch_pages_spec w a (page_range (max_pages a)) []) as S.
  destruct (fetch_pages w a (page_range (max_pages a)) []) as [trace r].
  destruct S as (Htrace & (n & Hn) & _). simpl. intros Hin.
  rewrite Htrace in Hin. apply in_flat_map in Hin.
  destruct Hin as (page & Hpage & Hin).
  assert (Hq : q = params a page).
  { unfold turn_events in Hin. destruct Hin as [ Hin | Hin ].
    - injection Hin as <-. reflexivity.
    - destruct (page_turn w a page); simpl in Hin;
        try contradiction; destruct Hin as [ Hin | [] ]; discriminate. }
  subst q. split; [ reflexivity | ].
  simpl. apply page_range_In. rewrite Hn in Hpage.
  exact (In_firstn _ _ _ Hpage).
Qed.


End MoreFetcherFacts.

Lemma pages_are_consecutive_witness :
  fetch_usdt_transfers always_full (with_paging 100 0 None) = ([], ok []).
Proof.
  apply (proj2 (proj2 (pages_are_consecutive always_full (with_paging 100 0 None)))).
  simpl. lia.
Defined.

Lemma every_request_witness :
  params (with_paging 1 2 None) 2 =
    {| q_module := "account"; q_action := "tokentx";
       q_contractaddress := "0xdac17f958d2ee523a2206206994597c13d831ec7";
       q_chainid := 1; q_page := 2; q_offset := 1;
       q_startblock := 0; q_endblock := 99999999;
       q_sort := "desc"; q_apikey := "KEY" |}
  /\ 1 <= 2 <= 2.
Proof.
  apply (every_request always_full (with_paging 1 2 None)
           (params (with_paging 1 2 None) 2)).
  vm_compute. auto.
Defined.

Lemma requests_are_paced_witness :
  [HttpGet (params (with_paging 1 2 None) 1); Sleep float_0_2] = []
  \/ exists earlier,
       [HttpGet (params (with_paging 1 2 None) 1); Sleep float_0_2]
       = (earlier ++ [Sleep (sleep_secs (with_paging 1 2 None))])%list.
Proof.
  apply (proj1 (requests_are_paced always_full (with_paging 1 2 None))
           [HttpGet (params (with_paging 1 2 None) 1); Sleep float_0_2]
           (params (with_paging 1 2 None) 2) [Sleep float_0_2]).
  vm_compute. reflexivity.
Defined.

Section RecordsAndFailures.

Variable w : world.
Variable a : fetch_args.

(** X13. Whatever the filter, the records come out in the order of the
    API: they are the records of the raw items of the pages requested,
    taken page after page and item after item, without those the filter
    skips; so there are never more records than raw items. *)
Theorem records_in_api_order (trace : list event) (rs : list TransferRecord) :
  fetch_usdt_transfers w a = (trace, ok rs) ->
  exists outs,
    Forall2 (fun item o => transform_item (min_value a) item = ok o)
      (flat_map (page_items w a) (pages_requested trace)) outs /\
    rs = kept outs /\
    (List.length rs
     <= List.length (flat_map (page_items w a) (pages_requested trace)))%nat.
Proof.
  intros H. destruct (fetched_records _ _ _ _ H) as (-> & Hpages).
  assert (Hex : exists outs,
    Forall2 (fun item o => transform_item (min_value a) item = ok o)
      (flat_map (page_items w a) (pages_requested trace)) outs /\
    flat_map (turn_records w a) (pages_requested trace) = kept outs).
  { revert Hpages. generalize (pages_requested trace). intros pages.
    induction pages as [ | page pages IH ]; intros Hpages; simpl.
    - exists []. split; [ constructor | reflexivity ].
    - destruct IH as (outs & HF & Hk); [ intros p Hp; apply Hpages; right; exact Hp | ].
      pose proof (Hpages page (or_introl eq_refl)) as Hpage.
      apply transform_and_filter_spec in Hpage. destruct Hpage as (outs0 & HF0 & Hk0).
      exists (outs0 ++ outs)%list. split; [ apply Forall2_app; assumption | ].
      rewrite kept_app, Hk0, Hk. reflexivity. }
  destruct Hex as (outs & HF & Hk). exists outs.
  split; [ exact HF | split; [ exact Hk | ] ].
  rewrite Hk, (Forall2_length HF). apply kept_length.
Qed.

(** X14. A page that ends the paging loses nothing: after an empty page
    the records accumulated so far are returned as they are, and after a
    short page they are returned followed by the records of that page; in
    both cases without another request. *)
Theorem last_page_is_kept (page : Z) (rest : list Z)
    (records : list TransferRecord) (resp : response) :
  requests_get w (params a page) = Received resp ->
  (empty_page resp = true ->
   fetch_pages w a (page :: rest) records = ([HttpGet (params a page)], ok records))
  /\ (forall filtered, short_page (page_size a) resp = true ->
        _transform_and_filter (raw_items resp) (min_value a) = ok filtered ->
        fetch_pages w a (page :: rest) records
        = ([HttpGet (params a page)], ok (records ++ filtered)%list)).
Proof.
  intros Hq. split.
  - intros He. simpl. unfold page_turn. rewrite Hq.
    rewrite (empty_turn _ _ _ He), app_nil_r. reflexivity.
  - intros filtered Hs Ht. simpl. unfold page_turn. rewrite Hq.
    unfold short_page in Hs. apply andb_true_iff in Hs. destruct Hs as (Hi & Hlt).
    rewrite (handle_response_items _ _ _ Hi), Ht, Hlt. reflexivity.
Qed.

(** At a page: what makes its turn raise something else than an
    [EtherscanError]. *)
Lemma page_turn_raises (page : Z) :
  (requests_get w (params a page) = Failed ->
   page_turn w a page = PageRaise RequestException)
  /\ (forall resp, requests_get w (params a page) = Received resp ->
        status_code resp = 200 -> json resp = None ->
        page_turn w a page = PageRaise JSONDecodeError)
  /\ (forall resp e, requests_get w (params a page) = Received resp ->
        has_items resp = true ->
        _transform_and_filter (raw_items resp) (min_value a) = raise e ->
        page_turn w a page = PageRaise e).
Proof.
  unfold page_turn. split; [ intros ->; reflexivity | split ].
  - intros resp -> Hcode Hjson. unfold handle_response.
    rewrite Hcode, Hjson. reflexivity.
  - intros resp e -> Hi Ht. rewrite (handle_response_items _ _ _ Hi), Ht.
    reflexivity.
Qed.

(** X15. An exception on page k is not caught, retried or turned into a
    partial result: when the pages before k were full and the request for
    page k fails in [requests], or its body is not JSON, or one of its items
    cannot be normalized, [fetch_usdt_transfers] raises that very exception
    after exactly k HTTP calls. *)
Theorem page_failure_propagates (k : Z) (e : exn) :
  1 <= k <= max_pages a ->
  time_sleep w (sleep_secs a) = Slept ->
  (forall j, 1 <= j < k -> on_response w a (goes_on a) j = true) ->
  (requests_get w (params a k) = Failed /\ e = RequestException)
  \/ (exists resp, requests_get w (params a k) = Received resp /\
        status_code resp = 200 /\ json resp = None /\ e = JSONDecodeError)
  \/ (exists resp, requests_get w (params a k) = Received resp /\
        has_items resp = true /\
        _transform_and_filter (raw_items resp) (min_value a) = raise e) ->
  snd (fetch_usdt_transfers w a) = raise e
  /\ pages_requested (fst (fetch_usdt_transfers w a)) = page_range k
  /\ http_calls (fst (fetch_usdt_transfers w a)) = Z.to_nat k.
Proof.
  intros Hk Hsleep Hbefore Hcause.
  assert (Hturn : page_turn w a k = PageRaise e).
  { destruct (page_turn_raises k) as (H1 & H2 & H3).
    destruct Hcause as [ (Hq & ->) | [ (resp & Hq & Hc & Hj & ->) | (resp & Hq & Hi & Ht) ] ].
    - exact (H1 Hq).
    - exact (H2 resp Hq Hc Hj).
    - exact (H3 resp e Hq Hi Ht). }
  assert (Hrun : fetch_usdt_transfers w a =
            ((flat_map (fun p => [HttpGet (params a p); Sleep (sleep_secs a)])
                (page_range (k - 1)) ++ [HttpGet (params a k)])%list, raise e)).
  { unfold fetch_usdt_transfers.
    rewrite (page_range_split (max_pages a) k Hk).
    rewrite fetch_pages_go_on; [ | exact Hsleep | ].
    2:{ intros p Hp. apply page_range_In in Hp. apply page_turn_next, Hbefore. lia. }
    simpl. rewrite Hturn. reflexivity. }
  rewrite Hrun. simpl. split; [ reflexivity | ].
  assert (Hp : pages_requested
                 (flat_map (fun p => [HttpGet (params a p); Sleep (sleep_secs a)])
                    (page_range (k - 1)) ++ [HttpGet (params a k)])
               = page_range k).
  { rewrite pages_requested_app, pages_requested_go_on.
    rewrite (page_range_last k) by lia. reflexivity. }
  split; [ exact Hp | ].
  unfold http_calls. rewrite Hp. unfold page_range.
  rewrite length_map, length_seq. reflexivity.
Qed.

End RecordsAndFailures.

Lemma records_in_api_order_witness :
  exists outs,
    Forall2 (fun item o => transform_item (Some float_one) item = ok o)
      [sample_item; small_item] outs /\
    [sample_record] = kept outs /\
    (List.length [sample_record] <= List.length [sample_item; small_item])%nat.
Proof.
  apply (records_in_api_order mixed_page_server (with_paging 100 5 (Some float_one))
           [HttpGet (params (with_paging 100 5 (Some float_one)) 1)] [sample_record]).
  vm_compute. reflexivity.
Defined.

Lemma last_page_is_kept_witness :
  fetch_pages always_full (with_paging 100 5 None) [3; 4] [sample_record]
  = ([HttpGet (params (with_paging 100 5 None) 3)],
     ok [sample_record; sample_record]).
Proof.
  apply (proj2 (last_page_is_kept always_full (with_paging 100 5 None) 3 [4]
                  [sample_record] (json_page "1" "OK" [sample_item]) eq_refl)
           [sample_record]); vm_compute; reflexivity.
Defined.

Lemma page_failure_propagates_witness :
  snd (fetch_usdt_transfers broken_on_page_2 (with_paging 1 5 None))
  = raise (ValueError "invalid literal for int() with base 10")
  /\ pages_requested (fst (fetch_usdt_transfers broken_on_page_2 (with_paging 1 5 None)))
     = page_range 2
  /\ http_calls (fst (fetch_usdt_transfers broken_on_page_2 (with_paging 1 5 None)))
     = Z.to_nat 2.
Proof.
  apply (page_failure_propagates broken_on_page_2 (with_paging 1 5 None) 2).
  - simpl. lia.
  - reflexivity.
  - intros j Hj. assert (j = 1) by lia. subst j. vm_compute. reflexivity.
  - right. right. exists (json_page "1" "OK" [sample_item; broken_small_item]).
    repeat split; vm_compute; reflexivity.
Defined.

(** ** The report button *)

Lemma float_lt_not_nan (x y : float) : float_lt x y = true -> is_nan y = false.
Proof.
  unfold float_lt, SFltb. destruct x, y; simpl; try discriminate; reflexivity.
Qed.

Section ClickFacts.

Variable w : world.
Variable excel_writer : list sheet -> result (list Byte.byte).
Variables (key : string) (chain : Z) (min_usdt : float).
Variables (pages preview_rows : Z).

Lemma after_fetch_report (r : result (list TransferRecord))
    (records : list TransferRecord) (excel_data : list Byte.byte)
    (preview : DataFrame) :
  after_fetch excel_writer preview_rows r = ReportReady records excel_data preview ->
  r = ok records /\ records <> [] /\
  excel_writer [{| sheet_name := "USDT_Transfers";
                   header := COLUMN_ORDER;
                   body := map report_row records |}] = ok excel_data /\
  preview = {| columns := COLUMN_ORDER;
               rows := head preview_rows (map report_row records) |}.
Proof.
  unfold after_fetch. destruct r as [ e | [ | r0 rs ] ].
  - destruct e; discriminate.
  - discriminate.
  - rewrite display_frame_records, export_records. unfold ok. cbn beta iota.
    destruct (excel_writer _) as [ e | data ] eqn:Hw; [ discriminate | ].
    intros H. injection H as <- <- <-. cbn [columns rows].
    repeat split; [ discriminate | exact Hw ].
Qed.

(** An export that fails is the writer refusing the sheet of a non-empty
    list. *)
Lemma after_fetch_export_failed (r : result (list TransferRecord)) (e : exn) :
  after_fetch excel_writer preview_rows r = ExportFailed e <->
  exists records,
    r = ok records /\ records <> [] /\
    excel_writer [{| sheet_name := "USDT_Transfers";
                     header := COLUMN_ORDER;
                     body := map report_row records |}] = raise e.
Proof.
  unfold after_fetch. destruct r as [ e0 | [ | r0 rs ] ].
  - split; [ destruct e0; discriminate | intros (records & H & _); discriminate ].
  - split; [ discriminate | ].
    intros (records & H & Hne & _). injection H as <-. contradiction Hne. reflexivity.
  - rewrite display_frame_records, export_records. unfold ok. cbn beta iota.
    destruct (excel_writer _) as [ e1 | data ] eqn:Hw.
    + split.
      * intros H. injection H as <-. exists (r0 :: rs).
        split; [ reflexivity | split; [ discriminate | exact Hw ] ].
      * intros (records & H & _ & Hr). injection H as <-.
        rewrite Hw in Hr. injection Hr as <-. reflexivity.
    + split; [ discriminate | ].
      intros (records & H & _ & Hr). injection H as <-.
      rewrite Hw in Hr. discriminate.
Qed.

(** X16. The records of a report respect the filter of the page: when
    the amount typed in is greater than 0 every record has an amount
    [>=] it; otherwise (0, which is the default, a negative number or NaN)
    nothing is filtered, and the records are those of all the raw items of
    the pages requested. *)
Theorem click_records_respect_filter (trace : list event)
    (records : list TransferRecord) (excel_data : list Byte.byte)
    (preview : DataFrame) :
  on_click w excel_writer key chain min_usdt pages preview_rows
  = (trace, ReportReady records excel_data preview) ->
  (float_lt float_zero min_usdt = true ->
   Forall (fun r => float_ge (amount_usdt r) min_usdt = true) records)
  /\ (float_lt float_zero min_usdt = false ->
      Forall2 (fun item r => transform_item None item = ok (Some r))
        (flat_map (page_items w (click_args key chain min_usdt pages))
           (pages_requested trace))
        records).
Proof.
  unfold on_click.
  destruct (fetch_usdt_transfers w (click_args key chain min_usdt pages))
    as [trace' r] eqn:Hfetch.
  intros H. injection H as <- H.
  apply after_fetch_report in H. destruct H as (-> & _).
  destruct (fetched_records _ _ _ _ Hfetch) as (-> & Hpages).
  cbn [click_args min_value] in Hpages. unfold ui_min_value in Hpages. split.
  - intros Hpos. rewrite Hpos in Hpages. apply Forall_forall. intros r Hr.
    apply in_flat_map in Hr. destruct Hr as (page & Hpage & Hr).
    destruct (transform_and_filter_In _ _ _ _ (Hpages page Hpage) Hr)
      as (item & _ & Hitem).
    exact (transform_item_min _ _ _ (float_lt_not_nan _ _ Hpos) Hitem).
  - intros Hpos. rewrite Hpos in Hpages. revert Hpages.
    generalize (pages_requested trace'). intros l.
    induction l as [ | page l IH ]; intros Hpages; simpl; [ constructor | ].
    apply Forall2_app.
    + apply transform_and_filter_unfiltered, Hpages. left. reflexivity.
    + apply IH. intros p Hp. apply Hpages. right. exact Hp.
Qed.

(** X17. What a click shows is decided by the fetch, then by the
    spreadsheet writer: an [EtherscanError] is shown as the fetch failure,
    an empty result as the no-data warning; a result with records goes on
    to the exporter and ends in the report when the writer accepts the
    sheet, in the export error when it raises.  The warning comes before
    the exporter is called, so an export error is always the writer's,
    never the exporter's own error for an empty list. *)
Theorem click_outcomes :
  let r := snd (fetch_usdt_transfers w (click_args key chain min_usdt pages)) in
  let outcome := snd (on_click w excel_writer key chain min_usdt pages preview_rows) in
  let workbook records := [{| sheet_name := "USDT_Transfers";
                              header := COLUMN_ORDER;
                              body := map report_row records |}] in
  (forall message, outcome = FetchFailed message <->
                   r = raise (EtherscanError message))
  /\ (outcome = NoData <-> r = ok [])
  /\ (forall records excel_data,
        (exists preview, outcome = ReportReady records excel_data preview) <->
        r = ok records /\ records <> [] /\
        excel_writer (workbook records) = ok excel_data)
  /\ (forall e, outcome = ExportFailed e <->
        exists records, r = ok records /\ records <> [] /\
                        excel_writer (workbook records) = raise e).
Proof.
  unfold on_click. cbv zeta.
  destruct (fetch_usdt_transfers w (click_args key chain min_usdt pages))
    as [trace r]. cbn [snd].
  split; [ | split; [ | split ] ].
  - intros message. unfold after_fetch. destruct r as [ e | [ | r0 rs ] ].
    + destruct e; split; intros H; try discriminate; injection H as <-; reflexivity.
    + split; discriminate.
    + destruct (display_frame (r0 :: rs)); [ split; discriminate | ].
      destruct (generate_excel_report excel_writer (r0 :: rs)); split; discriminate.
  - unfold after_fetch. destruct r as [ e | [ | r0 rs ] ].
    + destruct e; split; discriminate.
    + split; reflexivity.
    + destruct (display_frame (r0 :: rs)); [ split; discriminate | ].
      destruct (generate_excel_report excel_writer (r0 :: rs)); split; discriminate.
  - intros records excel_data. split.
    + intros (preview & H). apply after_fetch_report in H.
      destruct H as (Hr & Hne & Hw & _). auto.
    + intros (-> & Hne & Hw). destruct records as [ | r0 rs ];
        [ contradiction Hne; reflexivity | ].
      unfold after_fetch, ok. cbn beta iota.
      rewrite display_frame_records, export_records.
      unfold ok in *. cbn beta iota. rewrite Hw. eexists. reflexivity.
  - intros e. apply after_fetch_export_failed.
Qed.

(** X18. The handler of the button catches [EtherscanError] only: every
    other exception of the fetch (a failure inside [requests], a body that
    is not JSON, an item that cannot be normalized, a delay the clock
    rejects) leaves it uncaught; building the table for the page raises
    nothing. *)
Theorem click_uncaught (e : exn) :
  snd (on_click w excel_writer key chain min_usdt pages preview_rows) = Uncaught e <->
  snd (fetch_usdt_transfers w (click_args key chain min_usdt pages)) = raise e
  /\ is_EtherscanError e = false.
Proof.
  unfold on_click.
  destruct (fetch_usdt_transfers w (click_args key chain min_usdt pages))
    as [trace r]. simpl. unfold after_fetch.
  destruct r as [ e0 | [ | r0 rs ] ].
  - split.
    + intros H. destruct e0; try discriminate; injection H as <-;
        split; try reflexivity.
    + intros (H & He). injection H as ->. destruct e; try reflexivity. discriminate.
  - split; [ discriminate | intros (H & _); discriminate ].
  - rewrite display_frame_records, export_records. unfold ok. cbn beta iota.
    destruct (excel_writer _);
      (split; [ discriminate | intros (H & _); discriminate ]).
Qed.

(** X19. The table previewed on the page and the sheet exported hold the
    same data: the same six columns in the same order, and as preview rows
    the first [preview_rows] rows of the sheet, one per record, in the
    order of the records. *)
Theorem preview_matches_export (trace : list event)
    (records : list TransferRecord) (excel_data : list Byte.byte)
    (preview : DataFrame) :
  on_click w excel_writer key chain min_usdt pages preview_rows
  = (trace, ReportReady records excel_data preview) ->
  0 <= preview_rows ->
  exists exported,
    excel_writer [exported] = ok excel_data /\
    sheet_name exported = "USDT_Transfers" /\
    columns preview = header exported /\
    rows preview = firstn (Z.to_nat preview_rows) (body exported) /\
    body exported = map report_row records /\
    List.length (rows preview)
    = Nat.min (Z.to_nat preview_rows) (List.length records).
Proof.
  unfold on_click.
  destruct (fetch_usdt_transfers w (click_args key chain min_usdt pages))
    as [trace' r].
  intros H Hrows. injection H as _ H.
  apply after_fetch_report in H. destruct H as (_ & _ & Hw & ->).
  eexists. split; [ exact Hw | ]. cbn [sheet_name header body columns rows].
  unfold head. destruct (Z.leb_spec 0 preview_rows); [ | lia ].
  repeat split. rewrite length_firstn, length_map. reflexivity.
Qed.

End ClickFacts.

Lemma click_records_respect_filter_witness :
  Forall (fun r => float_ge (amount_usdt r) float_one = true) [sample_record].
Proof.
  assert (H : on_click mixed_page_server no_writer "KEY" 1 float_one 5 10
              = ([HttpGet (params (click_args "KEY" 1 float_one 5) 1)],
                 ReportReady [sample_record] []
                   {| columns := COLUMN_ORDER;
                      rows := [report_row sample_record] |}))
    by (vm_compute; reflexivity).
  apply (proj1 (click_records_respect_filter _ _ _ _ _ _ _ _ _ _ _ H)).
  reflexivity.
Defined.

Lemma click_outcomes_witness :
  snd (on_click no_records_server no_writer "KEY" 1 float_zero 5 10) = NoData
  /\ snd (on_click mixed_page_server checking_writer "KEY" 1 float_zero 5 10)
     <> ExportFailed (ValueError "No records to export.").
Proof.
  split.
  - apply (proj1 (proj2 (click_outcomes no_records_server no_writer
                           "KEY" 1 float_zero 5 10))).
    vm_compute. reflexivity.
  - intros H.
    apply (proj2 (proj2 (proj2 (click_outcomes mixed_page_server checking_writer
                                  "KEY" 1 float_zero 5 10)))) in H.
    destruct H as (records & Hr & _ & Hw).
    vm_compute in Hr. injection Hr as <-. vm_compute in Hw. discriminate.
Defined.

Lemma click_uncaught_witness :
  snd (on_click broken_server no_writer "KEY" 1 float_zero 5 10)
  = Uncaught (ValueError "invalid literal for int() with base 10").
Proof.
  apply (click_uncaught broken_server no_writer "KEY" 1 float_zero 5 10).
  split; vm_compute; reflexivity.
Defined.

Lemma preview_matches_export_witness :
  exists exported,
    no_writer [exported] = ok [] /\
    sheet_name exported = "USDT_Transfers" /\
    COLUMN_ORDER = header exported /\
    [report_row sample_record] = firstn (Z.to_nat 1) (body exported) /\
    body exported = map report_row [sample_record; sample_record] /\
    List.length [report_row sample_record]
    = Nat.min (Z.to_nat 1) (List.length [sample_record; sample_record]).
Proof.
  apply (preview_matches_export two_then_one no_writer "KEY" 1 float_zero 5 1
           [HttpGet (params (click_args "KEY" 1 float_zero 5) 1)]
           [sample_record; sample_record] []
           {| columns := COLUMN_ORDER; rows := [report_row sample_record] |}).
  - vm_compute. reflexivity.
  - lia.
Defined.

(** ** The dependency check *)

Section CheckFacts.

Variable import_ : string -> import_result.
Variable stdout_accepts : list string -> string -> bool.

Lemma accepted_app (before l1 l2 : list string) :
  accepted stdout_accepts before (l1 ++ l2) =
  accepted stdout_accepts before l1 && accepted stdout_accepts (before ++ l1) l2.
Proof.
  revert before. induction l1 as [ | x l1 IH ]; intros before; simpl.
  - rewrite app_nil_r. reflexivity.
  - rewrite IH, <- app_assoc, andb_assoc. reflexivity.
Qed.

Lemma print_all_spec (lines : list string) (st : check_state) :
  print_all stdout_accepts lines st =
  if accepted stdout_accepts (printed st) lines then
    Some {| missing_packages := missing_packages st;
            installed_packages := installed_packages st;
            printed := (printed st ++ lines)%list |}
  else None.
Proof.
  revert st. induction lines as [ | line lines IH ]; intros st; simpl.
  - rewrite app_nil_r. destruct st; reflexivity.
  - unfold print. destruct (stdout_accepts (printed st) line); [ | reflexivity ].
    rewrite IH. simpl. rewrite <- app_assoc. reflexivity.
Qed.

Lemma check_packages_spec (packages : list (string * string)) (st : check_state) :
  match check_packages import_ stdout_accepts packages st with
  | None =>
      (exists entry, In entry packages /\ import_ (fst entry) = ImportCrashes) \/
      accepted stdout_accepts (printed st) (map (package_line import_) packages)
      = false
  | Some st' =>
      (forall entry, In entry packages -> import_ (fst entry) <> ImportCrashes) /\
      accepted stdout_accepts (printed st) (map (package_line import_) packages)
      = true /\
      missing_packages st' =
        (missing_packages st ++ map fst (filter (import_fails import_) packages))%list /\
      installed_packages st' =
        (installed_packages st ++ map snd (filter (import_works import_) packages))%list /\
      printed st' = (printed st ++ map (package_line import_) packages)%list
  end.
Proof.
  revert st. induction packages as [ | [package name] rest IH ]; intros st.
  - simpl. rewrite !app_nil_r. split; [ intros entry [] | ]. repeat split.
  - cbn [check_packages map filter accepted].
    unfold import_fails at 1, import_works at 1.
    cbn [fst snd]. unfold print. cbn [printed missing_packages installed_packages].
    destruct (import_ package) eqn:Hi.
    + assert (Hline : package_line import_ (package, name)
                      = ("✅ " ++ name ++ " 已安装")%string)
        by (unfold package_line; cbn [fst snd]; rewrite Hi; reflexivity).
      rewrite !Hline.
      destruct (stdout_accepts (printed st) _) eqn:Hp; [ | right; reflexivity ].
      match goal with
      | |- context [check_packages _ _ rest ?st0] => specialize (IH st0)
      end.
      destruct (check_packages import_ stdout_accepts rest _) as [ st' | ].
      * destruct IH as (Hc & Ha & Hm & Hin & Hpr).
        cbn [printed missing_packages installed_packages] in *.
        split; [ | split; [ exact Ha | split; [ exact Hm | split ] ] ].
        -- intros entry [ <- | He ]; [ simpl; rewrite Hi; discriminate | apply Hc, He ].
        -- rewrite Hin, <- app_assoc. reflexivity.
        -- rewrite Hpr, <- app_assoc. reflexivity.
      * cbn [printed] in IH. destruct IH as [ (entry & He & Hcrash) | Ha ].
        -- left. exists entry. split; [ right; exact He | exact Hcrash ].
        -- right. exact Ha.
    + assert (Hline : package_line import_ (package, name)
                      = ("❌ " ++ name ++ " 未安装")%string)
        by (unfold package_line; cbn [fst snd]; rewrite Hi; reflexivity).
      rewrite !Hline.
      destruct (stdout_accepts (printed st) _) eqn:Hp; [ | right; reflexivity ].
      match goal with
      | |- context [check_packages _ _ rest ?st0] => specialize (IH st0)
      end.
      destruct (check_packages import_ stdout_accepts rest _) as [ st' | ].
      * destruct IH as (Hc & Ha & Hm & Hin & Hpr).
        cbn [printed missing_packages installed_packages] in *.
        split; [ | split; [ exact Ha | split; [ | split; [ exact Hin | ] ] ] ].
        -- intros entry [ <- | He ]; [ simpl; rewrite Hi; discriminate | apply Hc, He ].
        -- rewrite Hm, <- app_assoc. reflexivity.
        -- rewrite Hpr, <- app_assoc. reflexivity.
      * cbn [printed] in IH. destruct IH as [ (entry & He & Hcrash) | Ha ].
        -- left. exists entry. split; [ right; exact He | exact Hcrash ].
        -- right. exact Ha.
    + left. exists (package, name). split; [ left; reflexivity | exact Hi ].
Qed.

(** The script as a whole, by what its imports and its prints do. *)
Lemma check_dependencies_spec :
  match check_dependencies import_ stdout_accepts with
  | (Exit code, Some st) =>
      (forall entry, In entry REQUIRED_PACKAGES ->
                     import_ (fst entry) <> ImportCrashes) /\
      accepted stdout_accepts [] (report_lines import_) = true /\
      missing_packages st = map fst (filter (import_fails import_) REQUIRED_PACKAGES) /\
      installed_packages st
      = map snd (filter (import_works import_) REQUIRED_PACKAGES) /\
      printed st = report_lines import_ /\
      code = match missing_packages st with _ :: _ => 1 | [] => 0 end
  | (Traceback, None) =>
      (exists entry, In entry REQUIRED_PACKAGES /\
                     import_ (fst entry) = ImportCrashes) \/
      accepted stdout_accepts [] (report_lines import_) = false
  | _ => False
  end.
Proof.
  unfold check_dependencies, report_lines.
  pose proof (check_packages_spec REQUIRED_PACKAGES
                {| missing_packages := []; installed_packages := []; printed := [] |})
    as S.
  destruct (check_packages import_ stdout_accepts REQUIRED_PACKAGES _) as [ st | ].
  - destruct S as (Hc & Ha & Hm & Hi & Hp).
    cbn [missing_packages installed_packages printed app] in Hm, Hi, Hp, Ha.
    rewrite print_all_spec, accepted_app, Ha, Hp, Hm, Hi. cbn [andb app].
    clear Ha. destruct (accepted stdout_accepts _ _) eqn:Hrest.
    + cbn [missing_packages installed_packages printed].
      repeat split; try assumption; reflexivity.
    + right. reflexivity.
  - destruct S as [ S | S ]; [ left; exact S | right ].
    cbn [printed] in S. rewrite accepted_app, S. reflexivity.
Qed.

Lemma filter_nil_iff {A} (f : A -> bool) (l : list A) :
  filter f l = [] <-> forall x, In x l -> f x = false.
Proof.
  induction l as [ | y l IH ]; simpl.
  - split; [ intros _ x [] | reflexivity ].
  - destruct (f y) eqn:Hy; split.
    + discriminate.
    + intros H. specialize (H y (or_introl eq_refl)). congruence.
    + intros H x [ <- | Hx ]; [ exact Hy | apply IH; assumption ].
    + intros H. apply IH. intros x Hx. apply H. right. exact Hx.
Qed.

Lemma nothing_missing_iff :
  (forall entry, In entry REQUIRED_PACKAGES -> import_ (fst entry) <> ImportCrashes) ->
  (map fst (filter (import_fails import_) REQUIRED_PACKAGES) = [] <->
   forall entry, In entry REQUIRED_PACKAGES -> import_ (fst entry) = Imported).
Proof.
  intros Hc. split.
  - intros H entry He. apply map_eq_nil in H.
    pose proof (proj1 (filter_nil_iff _ _) H entry He) as Hf.
    pose proof (Hc entry He) as Hn. unfold import_fails in Hf.
    destruct (import_ (fst entry)); congruence.
  - intros H. replace (filter (import_fails import_) REQUIRED_PACKAGES)
      with (@nil (string * string)); [ reflexivity | ].
    symmetry. apply filter_nil_iff. intros entry He. unfold import_fails.
    rewrite (H entry He). reflexivity.
Qed.


(** X21. When the dependency check ends by itself, its two lists split
    the five required packages: [missing_packages] holds the import names
    of those that raised [ImportError], [installed_packages] the display
    names of the others, both in the order of the table; and when something
    is missing, the command it prints installs exactly the missing
    packages. *)
Theorem check_lists (code : Z) (st : check_state) :
  check_dependencies import_ stdout_accepts = (Exit code, Some st) ->
  missing_packages st = map fst (filter (import_fails import_) REQUIRED_PACKAGES)
  /\ installed_packages st
     = map snd (filter (import_works import_) REQUIRED_PACKAGES)
  /\ (List.length (missing_packages st) + List.length (installed_packages st) = 5)%nat
  /\ (code = 1 ->
      In ("  pip install " ++ join " " (missing_packages st)) (printed st))
  /\ (code = 0 ->
      installed_packages st = map snd REQUIRED_PACKAGES).
Proof.
  pose proof check_dependencies_spec as S. intros H. rewrite H in S.
  destruct S as (Hc & _ & Hm & Hi & Hp & Hcode).
  assert (Hlen : (List.length (missing_packages st)
                  + List.length (installed_packages st) = 5)%nat).
  { rewrite Hm, Hi, !length_map.
    assert (Hgen : forall l : list (string * string),
               (forall entry, In entry l -> import_ (fst entry) <> ImportCrashes) ->
               (List.length (filter (import_fails import_) l)
                + List.length (filter (import_works import_) l))%nat = List.length l).
    { induction l as [ | x l IHl ]; intros Hl; simpl; [ reflexivity | ].
      unfold import_fails at 1, import_works at 1.
      pose proof (Hl x (or_introl eq_refl)) as Hx.
      destruct (import_ (fst x)); simpl; try congruence;
        rewrite <- (IHl (fun entry He => Hl entry (or_intror He))); lia. }
    rewrite (Hgen _ Hc). reflexivity. }
  split; [ exact Hm | split; [ exact Hi | split; [ exact Hlen | ] ] ].
  pose proof (nothing_missing_iff Hc) as Hnil. rewrite <- Hm in Hnil.
  split.
  - intros ->. rewrite Hp. unfold report_lines. rewrite <- Hm.
    destruct (missing_packages st) as [ | p ps ]; [ discriminate | ].
    apply in_or_app. right. simpl. auto.
  - intros ->. rewrite Hi.
    destruct (missing_packages st) as [ | p ps ]; [ | discriminate ].
    pose proof (proj1 Hnil eq_refl) as Hall. f_equal.
    clear - Hall. induction REQUIRED_PACKAGES as [ | x l IHl ]; simpl; [ reflexivity | ].
    unfold import_works at 1. rewrite (Hall x (or_introl eq_refl)). f_equal.
    apply IHl. intros entry He. apply Hall. right. exact He.
Qed.

End CheckFacts.


Lemma check_lists_witness :
  missing_packages no_openpyxl_end = ["openpyxl"]
  /\ installed_packages no_openpyxl_end = ["Streamlit"; "Pandas"; "Requests"; "Plotly"]
  /\ In "  pip install openpyxl" (printed no_openpyxl_end).
Proof.
  assert (H : check_dependencies no_openpyxl any_terminal
              = (Exit 1, Some no_openpyxl_end))
    by (vm_compute; reflexivity).
  destruct (check_lists no_openpyxl any_terminal 1 no_openpyxl_end H)
    as (Hm & Hi & _ & Hpip & _).
  split; [ exact Hm | split; [ exact Hi | ] ].
  exact (Hpip eq_refl).
Defined.
